(** * plotclip: plot matching, overlap filtering and container metadata

    A shallow embedding of [plotclip.py] (the [__internal__] helpers and,
    of [PlotClip.perform_process], the overlap filter and the merging of the
    container metadata) and the properties of its behaviour.

    Python data is embedded as a tree of JSON-like values; the operations
    of the interpreter the code relies on (truth value, [in], subscription,
    [==], the [str] methods) are written out once in [Module Py] and the
    functions of the source are then transcribed statement by statement.
    Raised exceptions are values of an error monad.  Strings are sequences
    of ASCII characters.  The geometry engine (GDAL/OGR, agpypeline) is
    external to the source file: it enters as the interface [Engine], and
    every property holds for every engine. *)

From Stdlib Require Import ZArith String Ascii List Bool Lia Floats DecimalString.
From stdpp Require Import base list strings.
Import ListNotations.

Set Warnings "-register-all,-inexact-float".

Local Open Scope string_scope.
Local Open Scope Z_scope.
Local Open Scope list_scope.

(** ** Exceptions and the error monad *)

(** The exception classes the code can meet.  All of them derive from
    Python's [Exception]. *)
Inductive exn : Type :=
| RuntimeError (msg : string)
| KeyError
| IndexError
| TypeError
| ValueError
| AttributeError
| OverflowError
| ZeroDivisionError.

Inductive result (A : Type) : Type :=
| Ok (a : A)
| Raise (e : exn).
Arguments Ok {A} a.
Arguments Raise {A} e.

Definition rbind {A B} (r : result A) (k : A -> result B) : result B :=
  match r with
  | Ok a => k a
  | Raise e => Raise e
  end.

Declare Scope py_scope.
Delimit Scope py_scope with py.
Notation "x <- c ;; k" := (rbind c (fun x => k))
  (at level 100, c at next level, right associativity) : py_scope.
Local Open Scope py_scope.

(** ** Python values *)

(** A dictionary keeps its keys in insertion order; the keys of every
    dictionary of this program are strings (JSON objects and the literals
    of the source). *)
Inductive value : Type :=
| VNone
| VBool (b : bool)
| VInt (z : Z)
| VFloat (f : float)
| VStr (s : string)
| VList (l : list value)
| VDict (d : list (string * value))
| VObj (id : nat).   (* an opaque object (a callable, a handle), equal to itself only *)

Module Py.

(** *** Association lists as dictionaries *)

Fixpoint assoc_get {A} (k : string) (d : list (string * A)) : option A :=
  match d with
  | [] => None
  | (k', v) :: d' => if String.eqb k k' then Some v else assoc_get k d'
  end.

Definition assoc_mem {A} (k : string) (d : list (string * A)) : bool :=
  match assoc_get k d with Some _ => true | None => false end.

(** [d[k] = v]: the value is replaced in place, a new key goes last. *)
Fixpoint assoc_set {A} (k : string) (v : A) (d : list (string * A)) : list (string * A) :=
  match d with
  | [] => [(k, v)]
  | (k', v') :: d' =>
      if String.eqb k k' then (k', v) :: d' else (k', v') :: assoc_set k v d'
  end.

(** [d.pop(k, None)], the dictionary afterwards. *)
Fixpoint assoc_pop {A} (k : string) (d : list (string * A)) : list (string * A) :=
  match d with
  | [] => []
  | (k', v') :: d' =>
      if String.eqb k k' then d' else (k', v') :: assoc_pop k d'
  end.

Definition keys {A} (d : list (string * A)) : list string := fst <$> d.

(** *** Numbers *)

(** The integer [z] and the float [f] denote the same number. *)
Definition float_eq_Z (f : float) (z : Z) : bool :=
  match Prim2SF f with
  | S754_zero _ => Z.eqb z 0
  | S754_finite s m e =>
      let zm := if s then Z.neg m else Z.pos m in
      if 0 <=? e then Z.eqb z (zm * 2 ^ e) else Z.eqb (z * 2 ^ (- e)) zm
  | S754_infinity _ | S754_nan => false
  end.

(** [int(f)]: truncation towards zero. *)
Definition float_trunc (f : float) : result Z :=
  match Prim2SF f with
  | S754_zero _ => Ok 0
  | S754_finite s m e =>
      let a := if 0 <=? e then Z.pos m * 2 ^ e else Z.pos m / 2 ^ (- e) in
      Ok (if s then - a else a)
  | S754_infinity _ => Raise OverflowError
  | S754_nan => Raise ValueError
  end.

(** *** Truth value and equality *)

Definition truthy (v : value) : bool :=
  match v with
  | VNone => false
  | VBool b => b
  | VInt z => negb (Z.eqb z 0)
  | VFloat f => negb (PrimFloat.eqb f 0%float)
  | VStr s => negb (String.eqb s "")
  | VList l => match l with [] => false | _ => true end
  | VDict d => match d with [] => false | _ => true end
  | VObj _ => true
  end.

Fixpoint eq (a b : value) {struct a} : bool :=
  match a, b with
  | VNone, VNone => true
  | VBool x, VBool y => Bool.eqb x y
  | VBool x, VInt y => Z.eqb (Z.b2z x) y
  | VInt x, VBool y => Z.eqb x (Z.b2z y)
  | VInt x, VInt y => Z.eqb x y
  | VBool x, VFloat f => float_eq_Z f (Z.b2z x)
  | VFloat f, VBool x => float_eq_Z f (Z.b2z x)
  | VInt x, VFloat f => float_eq_Z f x
  | VFloat f, VInt x => float_eq_Z f x
  | VFloat f, VFloat g => PrimFloat.eqb f g
  | VStr s, VStr t => String.eqb s t
  | VList l, VList m =>
      (fix go (l m : list value) {struct l} : bool :=
         match l, m with
         | [], [] => true
         | x :: l', y :: m' => eq x y && go l' m'
         | _, _ => false
         end) l m
  | VDict d, VDict e =>
      Nat.eqb (length d) (length e) &&
      (fix go (d : list (string * value)) {struct d} : bool :=
         match d with
         | [] => true
         | (k, v) :: d' =>
             match assoc_get k e with
             | Some w => eq v w
             | None => false
             end && go d'
         end) d
  | VObj i, VObj j => Nat.eqb i j
  | _, _ => false
  end.

(** *** Strings *)

Definition lower_ascii (c : ascii) : ascii :=
  let n := nat_of_ascii c in
  if (Nat.leb 65 n && Nat.leb n 90)%bool then ascii_of_nat (n + 32) else c.

Fixpoint lower (s : string) : string :=
  match s with
  | EmptyString => EmptyString
  | String c s' => String (lower_ascii c) (lower s')
  end.

(** [s.find(sub)], counted from [i]. *)
Fixpoint find_from (sub s : string) (i : Z) : Z :=
  if String.prefix sub s then i
  else match s with
       | EmptyString => -1
       | String _ s' => find_from sub s' (i + 1)
       end.

Definition find (s sub : string) : Z := find_from sub s 0.

(** [s[n:]] *)
Fixpoint drop_str (n : nat) (s : string) : string :=
  match n, s with
  | O, _ => s
  | S n', String _ s' => drop_str n' s'
  | S _, EmptyString => EmptyString
  end.

Fixpoint split_once (sep : ascii) (s : string) : option (string * string) :=
  match s with
  | EmptyString => None
  | String c s' =>
      if Ascii.eqb c sep then Some (EmptyString, s')
      else match split_once sep s' with
           | Some (a, b) => Some (String c a, b)
           | None => None
           end
  end.

(** [s.split(sep, 1)] for a separator of one character. *)
Definition split1 (sep : ascii) (s : string) : list string :=
  match split_once sep s with
  | Some (a, b) => [a; b]
  | None => [s]
  end.

Fixpoint lstrip (c : ascii) (s : string) : string :=
  match s with
  | EmptyString => EmptyString
  | String a s' => if Ascii.eqb a c then lstrip c s' else s
  end.

Fixpoint rstrip (c : ascii) (s : string) : string :=
  match s with
  | EmptyString => EmptyString
  | String a s' =>
      match rstrip c s' with
      | EmptyString => if Ascii.eqb a c then EmptyString else String a EmptyString
      | r => String a r
      end
  end.

(** [s.strip(c)] for a single character [c]. *)
Definition strip (c : ascii) (s : string) : string := rstrip c (lstrip c s).

Definition endswith (s suffix : string) : bool :=
  let n := String.length s in
  let m := String.length suffix in
  (Nat.leb m n && String.eqb (drop_str (n - m) s) suffix)%bool.

(** [str(n)] for a non-negative integer. *)
Definition str_of_nat (n : nat) : string :=
  NilEmpty.string_of_uint (Nat.to_uint n).

(** *** [int(s)] on a string *)

(** The white space [int()] skips at the ends of an ASCII text: the
    characters 9 to 13 and the space. *)
Definition is_space (c : ascii) : bool :=
  let n := nat_of_ascii c in
  ((Nat.leb 9 n && Nat.leb n 13) || Nat.eqb n 32)%bool.

Definition digit_of (c : ascii) : option Z :=
  let n := nat_of_ascii c in
  if (Nat.leb 48 n && Nat.leb n 57)%bool then Some (Z.of_nat (n - 48)) else None.

Fixpoint lstrip_space (s : string) : string :=
  match s with
  | EmptyString => EmptyString
  | String a s' => if is_space a then lstrip_space s' else s
  end.

Fixpoint rstrip_space (s : string) : string :=
  match s with
  | EmptyString => EmptyString
  | String a s' =>
      match rstrip_space s' with
      | EmptyString => if is_space a then EmptyString else String a EmptyString
      | r => String a r
      end
  end.

(** Digits with single underscores between them; [acc] is the value read
    so far and [after_digit] tells whether the last character was a digit. *)
Fixpoint digits (s : string) (acc : Z) (after_digit : bool) : option Z :=
  match s with
  | EmptyString => if after_digit then Some acc else None
  | String c s' =>
      match digit_of c with
      | Some d => digits s' (10 * acc + d) true
      | None =>
          if (Ascii.eqb c "_" && after_digit)%bool then digits s' acc false
          else None
      end
  end.

Fixpoint count_digits (s : string) : nat :=
  match s with
  | EmptyString => 0%nat
  | String c s' =>
      match digit_of c with
      | Some _ => S (count_digits s')
      | None => count_digits s'
      end
  end.

(** [sys.int_info.default_max_str_digits]: a text with more digits is
    refused. *)
Definition max_str_digits : nat := 4300.

Definition int_of_string (s : string) : result Z :=
  let body := rstrip_space (lstrip_space s) in
  let parsed :=
    match body with
    | String "-" r => option_map Z.opp (digits r 0 false)
    | String "+" r => digits r 0 false
    | r => digits r 0 false
    end in
  match parsed with
  | Some z => if Nat.ltb max_str_digits (count_digits body) then Raise ValueError else Ok z
  | None => Raise ValueError
  end.

(** *** Operations on values *)

(** [int(v)] *)
Definition int (v : value) : result Z :=
  match v with
  | VInt z => Ok z
  | VBool b => Ok (Z.b2z b)
  | VFloat f => float_trunc f
  | VStr s => int_of_string s
  | _ => Raise TypeError
  end.

Definition hashable (v : value) : bool :=
  match v with
  | VList _ | VDict _ => false
  | _ => true
  end.

(** [str(z)] for an integer. *)
Definition str_of_Z (z : Z) : string :=
  NilEmpty.string_of_int (Z.to_int z).

(** [str(v)].  The text of a float, of a list, of a dictionary and of an
    object is written by the interpreter; it enters as the function
    [repr]. *)
Definition str (repr : value -> string) (v : value) : string :=
  match v with
  | VNone => "None"
  | VBool true => "True"
  | VBool false => "False"
  | VInt z => str_of_Z z
  | VStr s => s
  | _ => repr v
  end.

Definition is_nan (f : float) : bool := negb (PrimFloat.eqb f f).

(** The keys [a] and [b] are the same key of a dictionary: they are one
    object, or they are equal (and then they have the same hash).  The
    values of a JSON document are objects of their own, but for [NaN], which
    the decoder reads as one object each time. *)
Definition same_key (a b : value) : bool :=
  eq a b
  || match a, b with
     | VFloat f, VFloat g => is_nan f && is_nan g
     | _, _ => false
     end.

(** [x in c] *)
Definition contains (x c : value) : result bool :=
  match c with
  | VDict d =>
      match x with
      | VStr k => Ok (assoc_mem k d)
      | _ => if hashable x then Ok false else Raise TypeError
      end
  | VList l => Ok (existsb (fun y => eq y x) l)
  | VStr s =>
      match x with
      | VStr sub => Ok (0 <=? find s sub)
      | _ => Raise TypeError
      end
  | _ => Raise TypeError
  end.

(** The index of a sequence subscription: a bool counts as an int, a
    negative index counts from the end. *)
Definition seq_index (i : value) (len : nat) : result nat :=
  match i with
  | VInt _ | VBool _ =>
      let z := match i with VInt z => z | VBool b => Z.b2z b | _ => 0 end in
      let z' := if z <? 0 then z + Z.of_nat len else z in
      if (0 <=? z') && (z' <? Z.of_nat len) then Ok (Z.to_nat z') else Raise IndexError
  | _ => Raise TypeError
  end.

(** [c[i]] *)
Definition getitem (c i : value) : result value :=
  match c with
  | VDict d =>
      match i with
      | VStr k => match assoc_get k d with Some v => Ok v | None => Raise KeyError end
      | _ => if hashable i then Raise KeyError else Raise TypeError
      end
  | VList l =>
      n <- seq_index i (length l) ;;
      match l !! n with Some v => Ok v | None => Raise IndexError end
  | VStr s =>
      n <- seq_index i (String.length s) ;;
      match String.get n s with
      | Some ch => Ok (VStr (String ch EmptyString))
      | None => Raise IndexError
      end
  | _ => Raise TypeError
  end.

(** [len(c)] *)
Definition len (c : value) : result nat :=
  match c with
  | VDict d => Ok (length d)
  | VList l => Ok (length l)
  | VStr s => Ok (String.length s)
  | _ => Raise TypeError
  end.

(** The items a [for] loop over [c] visits. *)
Fixpoint chars (s : string) : list value :=
  match s with
  | EmptyString => []
  | String c s' => VStr (String c EmptyString) :: chars s'
  end.

Definition iter (c : value) : result (list value) :=
  match c with
  | VDict d => Ok (VStr <$> keys d)
  | VList l => Ok l
  | VStr s => Ok (chars s)
  | _ => Raise TypeError
  end.

(** [c[n:]] *)
Definition slice_from (n : nat) (c : value) : result value :=
  match c with
  | VStr s => Ok (VStr (drop_str n s))
  | VList l => Ok (VList (skipn n l))
  | _ => Raise TypeError
  end.

(** Methods of [str]; any other receiver has no such attribute. *)
Definition str_lower (v : value) : result string :=
  match v with VStr s => Ok (lower s) | _ => Raise AttributeError end.

Definition str_split1 (sep : ascii) (v : value) : result (list string) :=
  match v with VStr s => Ok (split1 sep s) | _ => Raise AttributeError end.

(** [c.append(x)] *)
Definition append (c x : value) : result value :=
  match c with
  | VList l => Ok (VList (l ++ [x]))
  | _ => Raise AttributeError
  end.

(** [c[k] = v] for a string key. *)
Definition setitem (c : value) (k : string) (v : value) : result value :=
  match c with
  | VDict d => Ok (VDict (assoc_set k v d))
  | _ => Raise TypeError
  end.

End Py.

(** ** The geometry engine *)

(** What the source uses of [osgeo.ogr], [osgeo.osr] and
    [agpypeline.geometries].  Objects of both classes have no [__bool__] and
    no [__len__]: an object is true, only [None] is false, so that a value
    that may be [None] is an [option].
    - [ImportFromEPSG code] is [None] when the import reports an error code;
    - [CreateGeometryFromJson] takes the JSON value [json.dumps] serialises;
    - [ExportToJson g] is the document [json.loads] reads back from
      [g.ExportToJson()];
    - [Intersection a b] is [a.Intersection(b)], [Area g] is [g.Area()];
      both may raise, and an intersection may be [None];
    - [AssignSpatialReference g sr] is [g] after the assignment. *)
Class Engine : Type := {
  SpatialReference : Type;
  Geometry : Type;
  ImportFromEPSG : Z -> option SpatialReference;
  IsSame : SpatialReference -> SpatialReference -> bool;
  GetSpatialReference : Geometry -> option SpatialReference;
  AssignSpatialReference : Geometry -> SpatialReference -> Geometry;
  CreateGeometryFromJson : value -> option Geometry;
  ExportToJson : Geometry -> value;
  Intersection : Geometry -> Geometry -> result (option Geometry);
  Area : Geometry -> result float;
  convert_geometry : Geometry -> option SpatialReference -> result Geometry
}.

Section CRS.
Context {E : Engine}.

Definition ogc_crs_prefix : string := "urn:ogc:def:crs:".

(** ['properties' not in crs or key not in crs['properties']] *)
Definition lacks_property (crs : value) (key : string) : result bool :=
  has_props <- Py.contains (VStr "properties") crs ;;
  if negb has_props then Ok true
  else
    props <- Py.getitem crs (VStr "properties") ;;
    has_key <- Py.contains (VStr key) props ;;
    Ok (negb has_key).

(** The two branches that read [sr_type] and [sr_def] off the clause. *)
Definition crs_type_and_def (crs : value) : result (string * value) :=
  crs_type <- Py.getitem crs (VStr "type") ;;
  if Py.eq crs_type (VStr "name") then
    missing <- lacks_property crs "name" ;;
    if missing then Raise (RuntimeError "Unknown named format specification in GeoJSON crs")
    else
      props <- Py.getitem crs (VStr "properties") ;;
      name <- Py.getitem props (VStr "name") ;;
      sr_name <- Py.slice_from (String.length ogc_crs_prefix) name ;;
      parts <- Py.str_split1 ":" sr_name ;;
      match parts with
      | [sr_type; sr_def] => Ok (Py.lower sr_type, VStr (Py.strip ":" sr_def))
      | _ => Raise ValueError
      end
  else
    missing <- lacks_property crs "code" ;;
    if missing then Raise (RuntimeError "Unknown EPSG format specification in GeoJSON crs")
    else
      sr_type <- Py.str_lower crs_type ;;
      props <- Py.getitem crs (VStr "properties") ;;
      sr_def <- Py.getitem props (VStr "code") ;;
      Ok (sr_type, sr_def).

Definition get_sr_from_crs (crs : value) : result SpatialReference :=
  has_type <- Py.contains (VStr "type") crs ;;
  if negb has_type then Raise (RuntimeError "GeoJSON crs type not specified")
  else
    td <- crs_type_and_def crs ;;
    let sr_type := fst td in
    let sr_def := snd td in
    if String.eqb sr_type "epsg" then
      code <- Py.int sr_def ;;
      match ImportFromEPSG code with
      | Some return_sr => Ok return_sr
      | None => Raise (RuntimeError "Unable to load EPSG code from GeoJSON crs")
      end
    else if String.eqb sr_type "ogc" then
      match ImportFromEPSG 4326 with
      | Some return_sr => Ok return_sr
      | None => Raise (RuntimeError "Unable to load default OGC from GeoJSON crs")
      end
    else Raise (RuntimeError "Spatial reference type is currently not supported").

Definition get_geojson_file_sr (geojson : value) : result (option SpatialReference) :=
  has_crs <- Py.contains (VStr "crs") geojson ;;
  if has_crs then
    crs <- Py.getitem geojson (VStr "crs") ;;
    file_sr <- get_sr_from_crs crs ;;
    Ok (Some file_sr)
  else
    Ok (ImportFromEPSG 4326).

End CRS.

(** ** The plot catalog *)

Section Catalog.
Context {E : Engine}.

(** One pass of the scan for a "best fit" key. *)
Definition best_fit_step (best_fit one_key : value) : result value :=
  k <- Py.str_lower one_key ;;
  if (0 <=? Py.find k "plot") && ((0 <=? Py.find k "name") || (0 <=? Py.find k "id"))
  then Ok one_key
  else if String.eqb k "id" && negb (Py.truthy best_fit) then Ok one_key
  else Ok best_fit.

Fixpoint best_fit_scan (best_fit : value) (ks : list value) : result value :=
  match ks with
  | [] => Ok best_fit
  | one_key :: ks' =>
      b <- best_fit_step best_fit one_key ;;
      best_fit_scan b ks'
  end.

(** The found key and plot name, or [None]. *)
Definition get_plot_key_name (properties default_key : value) : result (option (value * value)) :=
  use_default <-
    (if Py.truthy default_key then Py.contains default_key properties else Ok false) ;;
  if use_default then
    v <- Py.getitem properties default_key ;;
    Ok (Some (default_key, v))
  else
    has_oun <- Py.contains (VStr "observationUnitName") properties ;;
    if has_oun then
      v <- Py.getitem properties (VStr "observationUnitName") ;;
      Ok (Some (VStr "observationUnitName", v))
    else
      ks <- Py.iter properties ;;
      best_fit <- best_fit_scan VNone ks ;;
      if Py.truthy best_fit then
        v <- Py.getitem properties best_fit ;;
        Ok (Some (best_fit, v))
      else Ok None.

(** [plots[plot_name] = plot_geom] on the dictionary of plots, whose keys
    are whatever the name heuristic returned: the value of a key that is
    there is replaced, and the key stays the one that was there. *)
Fixpoint plots_set (k : value) (g : Geometry) (plots : list (value * Geometry))
  : list (value * Geometry) :=
  match plots with
  | [] => [(k, g)]
  | (k', g') :: plots' =>
      if Py.same_key k' k then (k', g) :: plots' else (k', g') :: plots_set k g plots'
  end.

(** The test that skips a feature:
    ['type' not in f or f['type'] != 'Feature' or 'geometry' not in f]. *)
Definition unknown_feature (one_feature : value) : result bool :=
  has_type <- Py.contains (VStr "type") one_feature ;;
  if negb has_type then Ok true
  else
    t <- Py.getitem one_feature (VStr "type") ;;
    if negb (Py.eq t (VStr "Feature")) then Ok true
    else
      has_geom <- Py.contains (VStr "geometry") one_feature ;;
      Ok (negb has_geom).

(** The assignments to [plot_key] and [plot_name] of one pass, after the
    feature was found to be known.  Unpacking [None] into the two
    variables is a [TypeError]. *)
Definition feature_key_name (one_feature plot_key : value) (feature_idx : nat)
  : result (value * value) :=
  has_props <- Py.contains (VStr "properties") one_feature ;;
  kn <- (if has_props then
           props <- Py.getitem one_feature (VStr "properties") ;;
           found <- get_plot_key_name props plot_key ;;
           match found with
           | Some (k, n) => Ok (k, n)
           | None => Raise TypeError
           end
         else Ok (plot_key, VNone)) ;;
  let plot_name := snd kn in
  if negb (Py.truthy plot_name)
  then Ok (fst kn, VStr ("Plot " ++ Py.str_of_nat feature_idx)%string)
  else Ok kn.

(** The loop over the features: [feature_idx] and [plot_key] are the
    values left by the previous pass. *)
Fixpoint load_features (file_sr : SpatialReference) (plot_column : value)
    (features : list value) (feature_idx : nat) (plot_key : value)
    (plots : list (value * Geometry)) : result (list (value * Geometry)) :=
  match features with
  | [] => Ok plots
  | one_feature :: rest =>
      let feature_idx := S feature_idx in
      let plot_key := if Py.truthy plot_column then plot_column else plot_key in
      skip <- unknown_feature one_feature ;;
      if skip then load_features file_sr plot_column rest feature_idx plot_key plots
      else
        kn <- feature_key_name one_feature plot_key feature_idx ;;
        let plot_key := fst kn in
        let plot_name := snd kn in
        geometry <- Py.getitem one_feature (VStr "geometry") ;;
        match CreateGeometryFromJson geometry with
        | None => Raise (RuntimeError "Unable to create geometry from JSON")
        | Some plot_geom =>
            let plot_geom :=
              match GetSpatialReference plot_geom with
              | None => AssignSpatialReference plot_geom file_sr
              | Some geom_sr =>
                  if negb (IsSame geom_sr file_sr)
                  then AssignSpatialReference plot_geom file_sr
                  else plot_geom
              end in
            if negb (Py.hashable plot_name) then Raise TypeError
            else load_features file_sr plot_column rest feature_idx plot_key
                   (plots_set plot_name plot_geom plots)
        end
  end.

Fixpoint require_keys (req_keys : list string) (geojson : value) : result unit :=
  match req_keys with
  | [] => Ok tt
  | req_key :: rest =>
      has <- Py.contains (VStr req_key) geojson ;;
      if negb has then Raise (RuntimeError "Missing GeoJSON key detected in file")
      else require_keys rest geojson
  end.

(** [geojson] is the document [json.load] read from [plot_file]. *)
Definition load_plot_file (geojson plot_column : value) : result (list (value * Geometry)) :=
  if negb (Py.truthy geojson) then Raise (RuntimeError "No JSON was found in file")
  else
    _ <- require_keys ["type"; "features"] geojson ;;
    file_sr <- get_geojson_file_sr geojson ;;
    match file_sr with
    | None => Raise (RuntimeError "Unable to load CRS for file")
    | Some file_sr =>
        features <- Py.getitem geojson (VStr "features") ;;
        _ <- Py.len features ;;
        items <- Py.iter features ;;
        load_features file_sr plot_column items 0 VNone []
    end.

End Catalog.

(** ** Calls and log records *)

(** The functions below are followed through their calls into the geometry
    engine and through the records they log at [INFO] and above (the [DEBUG]
    records only format their arguments): a computation yields its result
    and the events it produced, oldest first. *)
Inductive level : Type := INFO | WARNING.

Inductive event {E : Engine} : Type :=
| Logged (lv : level) (msg : string)
| Converted (g : Geometry) (sr : option SpatialReference)
| Intersected (receiver other : Geometry)
| Measured (g : Geometry).

Definition traced {E : Engine} (A : Type) : Type := (result A * list event)%type.

Section Traced.
Context {E : Engine}.

Definition ret {A} (a : A) : traced A := (Ok a, []).

Definition tbind {A B} (m : traced A) (k : A -> traced B) : traced B :=
  match m with
  | (Ok a, t) => let (r, t') := k a in (r, t ++ t')
  | (Raise e, t) => (Raise e, t)
  end.

(** A call into the engine, recorded. *)
Definition call {A} (ev : event) (r : result A) : traced A := (r, [ev]).

Definition log (lv : level) (msg : string) : traced unit := (Ok tt, [Logged lv msg]).

Definition lift {A} (r : result A) : traced A := (r, []).

(** [try: body  except Exception as ex: handler ex] *)
Definition try_except {A} (body : traced A) (handler : exn -> traced A) : traced A :=
  match body with
  | (Ok a, t) => (Ok a, t)
  | (Raise ex, t) => let (r, t') := handler ex in (r, t ++ t')
  end.

End Traced.

Notation "x <~ c ;; k" := (tbind c (fun x => k))
  (at level 100, c at next level, right associativity) : py_scope.

(** ** The spatial matcher *)

Section Matcher.
Context {E : Engine}.

(** The geometry that is intersected with the bounding box. *)
Definition check_poly_of (bb_sr : option SpatialReference) (current_poly : Geometry)
  : traced Geometry :=
  match bb_sr with
  | Some bb_sr =>
      match GetSpatialReference current_poly with
      | Some poly_sr =>
          if negb (IsSame bb_sr poly_sr)
          then call (Converted current_poly (Some bb_sr))
                    (convert_geometry current_poly (Some bb_sr))
          else ret current_poly
      | None => ret current_poly
      end
  | None => ret current_poly
  end.

(** ['coordinates' in intersection and len(intersection['coordinates']) > 0] *)
Definition has_coordinates (intersection : value) : result bool :=
  has <- Py.contains (VStr "coordinates") intersection ;;
  if has then
    coordinates <- Py.getitem intersection (VStr "coordinates") ;;
    n <- Py.len coordinates ;;
    Ok (Nat.ltb 0 n)
  else Ok false.

(** What [str()] writes for a value that is not [None], a boolean, an
    integer or a string. *)
Variable repr : value -> string.

(** The loop over the catalog.  [all_plots] is the dictionary that
    [load_plot_file] returns, as the list of its items: its keys are the
    names the loader found, strings or not, and [all_plots[plot_name]] is
    the geometry listed with the key.  The result is keyed by
    [str(plot_name)]. *)
Fixpoint find_plots_loop (bounding_box : Geometry) (bb_sr : option SpatialReference)
    (all_plots : list (value * Geometry)) (intersecting_plots : list (string * Geometry))
  : traced (list (string * Geometry)) :=
  match all_plots with
  | [] => ret intersecting_plots
  | (plot_name, current_poly) :: rest =>
      check_poly <~ check_poly_of bb_sr current_poly ;;
      intersection_with_bounding_box <~
        call (Intersected bounding_box check_poly) (Intersection bounding_box check_poly) ;;
      match intersection_with_bounding_box with
      | Some i =>
          nonempty <~ lift (has_coordinates (ExportToJson i)) ;;
          find_plots_loop bounding_box bb_sr rest
            (if nonempty
             then Py.assoc_set (Py.str repr plot_name) current_poly intersecting_plots
             else intersecting_plots)
      | None => find_plots_loop bounding_box bb_sr rest intersecting_plots
      end
  end.

Definition find_plots_intersect_boundingbox (bounding_box : Geometry)
    (all_plots : list (value * Geometry)) : traced (list (string * Geometry)) :=
  find_plots_loop bounding_box (GetSpatialReference bounding_box) all_plots [].

(** [a / b] on floats *)
Definition truediv (a b : float) : result float :=
  if PrimFloat.eqb b 0%float then Raise ZeroDivisionError else Ok (PrimFloat.div a b).

(** The body of the [try]: the ratio when it reaches the [return], [None]
    when control falls through to the end of the function. *)
Definition overlap_try (check_bounds other_bounds : option Geometry) : traced (option float) :=
  match check_bounds, other_bounds with
  | Some check, Some other =>
      intersection <~ call (Intersected other check) (Intersection other check) ;;
      match intersection with
      | Some i =>
          a <~ call (Measured i) (Area i) ;;
          b <~ call (Measured check) (Area check) ;;
          q <~ lift (truediv a b) ;;
          ret (Some q)
      | None => ret None
      end
  | _, _ => ret None
  end.

Definition overlap_warning : string := "Exception caught while calculating shape overlap".

Definition calculate_overlap_percent (check_bounds other_bounds : option Geometry)
  : traced float :=
  r <~ try_except (overlap_try check_bounds other_bounds)
         (fun ex => _ <~ log WARNING overlap_warning ;; ret None) ;;
  match r with
  | Some q => ret q
  | None => ret 0%float
  end.

Definition overlap_threshold : float := 0.10%float.

Definition skip_message : string := "Skipping plot with too small overlap".

(** The loop of [perform_process] over the plots that intersect one file,
    up to the test that skips a plot; the result lists the plots that are
    clipped, each with its bounds in the reference of the file. *)
Fixpoint perform_process_plots (file_bounds : Geometry)
    (overlap_plots : list (string * Geometry)) : traced (list (string * Geometry)) :=
  match overlap_plots with
  | [] => ret []
  | (plot_name, plot_geom) :: rest =>
      let file_spatial_ref := GetSpatialReference file_bounds in
      plot_bounds <~ call (Converted plot_geom file_spatial_ref)
                          (convert_geometry plot_geom file_spatial_ref) ;;
      overlap <~ calculate_overlap_percent (Some plot_bounds) (Some file_bounds) ;;
      if PrimFloat.ltb overlap overlap_threshold then
        _ <~ log INFO skip_message ;;
        perform_process_plots file_bounds rest
      else
        clipped <~ perform_process_plots file_bounds rest ;;
        ret ((plot_name, plot_bounds) :: clipped)
  end.

End Matcher.

(** ** Request metadata *)

(** [cleanup_request_md] copies a dictionary and changes the copy.  To tell
    the copy from the source, the dictionaries alive are kept in a store and
    named by their position in it; [copy.deepcopy] puts an equal dictionary
    at a new position, and [pop] changes the dictionary at the position it is
    given.  A position outside the store names no object. *)
Abbreviation store := (list (list (string * value))).

Section Request.
Implicit Types (st : store) (r : nat).

(** A new dictionary object. *)
Definition alloc (d : list (string * value)) st : nat * store :=
  (length st, st ++ [d]).

(** [copy.deepcopy(r)] *)
Definition deepcopy r st : option (nat * store) :=
  match st !! r with
  | Some d => Some (alloc d st)
  | None => None
  end.

(** [r.pop(k, None)] *)
Definition pop r (k : string) st : store := alter (Py.assoc_pop k) r st.

(** [source_md] is [None] or names a dictionary of the store; the result
    names the returned dictionary in the store afterwards. *)
Definition cleanup_request_md (source_md : option nat) st : option (nat * store) :=
  match source_md with
  | None => Some (alloc [] st)
  | Some r =>
      match st !! r with
      | None => None
      | Some d =>
          if negb (Py.truthy (VDict d)) then Some (alloc [] st)
          else
            match deepcopy r st with
            | None => None
            | Some (new_md, st) =>
                let st := pop new_md "list_files" st in
                let st := pop new_md "context_md" st in
                let st := pop new_md "working_folder" st in
                Some (new_md, st)
            end
      end
  end.

End Request.

(** ** Container metadata *)

Section Container.
(** [os.path.exists] *)
Variable path_exists : string -> bool.
(** [ConfigurationPlotclip.transformer_name] and [transformer_version];
    the class is defined outside this source file. *)
Variable transformer_name transformer_version : string.
(** [datetime.datetime.utcnow().isoformat()] as read in the pass of the
    loop over [result_files] with the given number. *)
Variable utcnow : nat -> string.

Definition file_entry (plot_name sensor source_file one_file timestamp : string) : value :=
  VDict [("path", VStr one_file);
         ("key", VStr sensor);
         ("metadata", VDict [("source", VStr source_file);
                             ("transformer", VStr transformer_name);
                             ("version", VStr transformer_version);
                             ("timestamp", VStr timestamp);
                             ("plot_name", VStr plot_name)])].

(** The loop that fills [cur_md['file']], from pass [i] on. *)
Fixpoint prepare_files (plot_name sensor source_file : string)
    (result_files : list string) (i : nat) : list value :=
  match result_files with
  | [] => []
  | one_file :: rest =>
      if path_exists one_file
      then file_entry plot_name sensor source_file one_file (utcnow i)
             :: prepare_files plot_name sensor source_file rest (S i)
      else prepare_files plot_name sensor source_file rest (S i)
  end.

Definition prepare_container_md (plot_name : string) (plot_md : value)
    (sensor source_file : string) (result_files : list string) : value :=
  VDict [("name", VStr plot_name);
         ("metadata", VDict [("replace", VBool true); ("data", plot_md)]);
         ("file", VList (prepare_files plot_name sensor source_file result_files 0))].

End Container.

(** The search for an entry of the same name over the indices [idxs]. *)
Fixpoint find_match (dest_md new_md : value) (idxs : list nat) : result (option nat) :=
  match idxs with
  | [] => Ok None
  | idx :: rest =>
      entry <- Py.getitem dest_md (VInt (Z.of_nat idx)) ;;
      name <- Py.getitem entry (VStr "name") ;;
      new_name <- Py.getitem new_md (VStr "name") ;;
      if Py.eq name new_name then Ok (Some idx) else find_match dest_md new_md rest
  end.

(** The inner loop: is the path of [one_file] the path of one of [files]? *)
Fixpoint file_match_found (one_file : value) (files : list value) : result bool :=
  match files with
  | [] => Ok false
  | match_file :: rest =>
      p <- Py.getitem one_file (VStr "path") ;;
      q <- Py.getitem match_file (VStr "path") ;;
      if Py.eq p q then Ok true else file_match_found one_file rest
  end.

(** The outer loop.  [working_md] is [dest_md[match_idx]]: what one pass
    appends is seen by the passes after it. *)
Fixpoint merge_files (working_md : value) (new_files : list value) : result value :=
  match new_files with
  | [] => Ok working_md
  | one_file :: rest =>
      files <- Py.getitem working_md (VStr "files") ;;
      items <- Py.iter files ;;
      found <- file_match_found one_file items ;;
      if found then merge_files working_md rest
      else
        files' <- Py.append files one_file ;;
        working_md' <- Py.setitem working_md "files" files' ;;
        merge_files working_md' rest
  end.

(** [dest_md[idx] = v] on a list. *)
Definition setindex (dest_md : value) (idx : nat) (v : value) : result value :=
  match dest_md with
  | VList l => if Nat.ltb idx (length l) then Ok (VList (<[idx := v]> l)) else Raise IndexError
  | _ => Raise TypeError
  end.

(** The list [dest_md] is changed in place and returned: the result is the
    list after the call.  An entry that was appended is the object [new_md]
    itself; when that object is merged again, each of its files is found in
    the list that is scanned, and nothing is written through the shared
    object. *)
Definition merge_container_md (dest_md new_md : value) : result value :=
  if negb (Py.truthy dest_md) then
    if Py.truthy new_md then Ok (VList [new_md]) else Ok (VList [])
  else
    md_len <- Py.len dest_md ;;
    match_idx <- find_match dest_md new_md (seq 0 md_len) ;;
    match match_idx with
    | None => Py.append dest_md new_md
    | Some match_idx =>
        working_md <- Py.getitem dest_md (VInt (Z.of_nat match_idx)) ;;
        new_has <- Py.contains (VStr "files") new_md ;;
        if new_has then
          working_has <- Py.contains (VStr "files") working_md ;;
          if working_has then
            new_files <- Py.getitem new_md (VStr "files") ;;
            items <- Py.iter new_files ;;
            working_md' <- merge_files working_md items ;;
            setindex dest_md match_idx working_md'
          else
            new_files <- Py.getitem new_md (VStr "files") ;;
            working_md' <- Py.setitem working_md "files" new_files ;;
            setindex dest_md match_idx working_md'
        else Ok dest_md
    end.

(** ** The shape of the container metadata *)

(** The records of the data model, and the dictionaries that stand for
    them: [prepare_container_md] builds exactly these. *)
Record FileRecord : Type := {
  path : string;
  key : string;
  source : string;
  transformer : string;
  version : string;
  timestamp : string;
  file_plot_name : string
}.

Record ContainerMetadataEntry : Type := {
  name : string;
  data : value;
  file : list FileRecord
}.

Definition file_value (f : FileRecord) : value :=
  VDict [("path", VStr (path f));
         ("key", VStr (key f));
         ("metadata", VDict [("source", VStr (source f));
                             ("transformer", VStr (transformer f));
                             ("version", VStr (version f));
                             ("timestamp", VStr (timestamp f));
                             ("plot_name", VStr (file_plot_name f))])].

Definition entry_value (e : ContainerMetadataEntry) : value :=
  VDict [("name", VStr (name e));
         ("metadata", VDict [("replace", VBool true); ("data", data e)]);
         ("file", VList (file_value <$> file e))].

(** A ContainerMetadataList as the Python list that holds it. *)
Definition list_value (L : list ContainerMetadataEntry) : value :=
  VList (entry_value <$> L).

(** The number of FileRecords of a list, over all its entries. *)
Definition total_files (L : list ContainerMetadataEntry) : nat :=
  sum_list ((fun e => length (file e)) <$> L).

(** No two entries share a name, and no two FileRecords of an entry share
    a path. *)
Definition unique_paths (e : ContainerMetadataEntry) : Prop :=
  NoDup (path <$> file e).

Definition container_invariant (L : list ContainerMetadataEntry) : Prop :=
  NoDup (name <$> L) /\ Forall unique_paths L.

(** ** A small geometry engine *)

(** Boxes with integer corners, tagged with the EPSG code of their
    reference; a box can be marked as broken, and the engine then raises on
    it.  Reprojection keeps the corners and changes the tag.  The engine
    runs the functions above on concrete input. *)
Module Boxes.

Record box : Type := {
  epsg : option Z;
  xmin : Z; ymin : Z; xmax : Z; ymax : Z;
  broken : bool
}.

Definition empty (b : box) : bool := (xmax b <=? xmin b) || (ymax b <=? ymin b).

Definition intersection (a b : box) : result (option box) :=
  if broken a || broken b then Raise (RuntimeError "TopologyException")
  else Ok (Some {| epsg := epsg a;
                   xmin := Z.max (xmin a) (xmin b); ymin := Z.max (ymin a) (ymin b);
                   xmax := Z.min (xmax a) (xmax b); ymax := Z.min (ymax a) (ymax b);
                   broken := false |}).

Definition float_of_Z (z : Z) : float := PrimFloat.of_uint63 (Uint63.of_Z z).

Definition area (b : box) : result float :=
  if broken b then Raise (RuntimeError "IllegalArgumentException")
  else if empty b then Ok 0%float
  else Ok (float_of_Z ((xmax b - xmin b) * (ymax b - ymin b))).

Definition corner (x y : Z) : value := VList [VInt x; VInt y].

Definition to_json (b : box) : value :=
  VDict [("type", VStr "Polygon");
         ("coordinates",
          VList (if empty b then []
                 else [VList [corner (xmin b) (ymin b); corner (xmax b) (ymin b);
                              corner (xmax b) (ymax b); corner (xmin b) (ymax b);
                              corner (xmin b) (ymin b)]]))].

(** A geometry is read from [{"bbox": [xmin, ymin, xmax, ymax]}]. *)
Definition of_json (v : value) : option box :=
  match v with
  | VDict [("bbox", VList [VInt x0; VInt y0; VInt x1; VInt y1])] =>
      Some {| epsg := None; xmin := x0; ymin := y0; xmax := x1; ymax := y1; broken := false |}
  | _ => None
  end.

Definition with_epsg (b : box) (sr : option Z) : box :=
  {| epsg := sr; xmin := xmin b; ymin := ymin b; xmax := xmax b; ymax := ymax b;
     broken := broken b |}.

#[export] Instance engine : Engine := {|
  SpatialReference := Z;
  Geometry := box;
  ImportFromEPSG := fun code => if (1024 <=? code) && (code <=? 32767) then Some code else None;
  IsSame := Z.eqb;
  GetSpatialReference := epsg;
  AssignSpatialReference := fun b sr => with_epsg b (Some sr);
  CreateGeometryFromJson := of_json;
  ExportToJson := to_json;
  Intersection := intersection;
  Area := area;
  convert_geometry := fun b sr =>
    match sr with
    | Some _ => Ok (with_epsg b sr)
    | None => Ok b
    end
|}.

Definition mk (sr : Z) (x0 y0 x1 y1 : Z) : @Geometry engine :=
  {| epsg := Some sr; xmin := x0; ymin := y0; xmax := x1; ymax := y1; broken := false |}.

End Boxes.


(** ** The files of a request *)

(** [os.path.basename]: what follows the last slash. *)
Fixpoint has_slash (s : string) : bool :=
  match s with
  | EmptyString => false
  | String c s' => Ascii.eqb c "/" || has_slash s'
  end.

Fixpoint basename (s : string) : string :=
  match s with
  | EmptyString => EmptyString
  | String c s' =>
      if has_slash s' then basename s'
      else if Ascii.eqb c "/" then s' else s
  end.

(** The value [get_files_to_process] keeps for a file name: the
    dictionary with the keys ['path'], ['bounds'] and ['sensor_name']. *)
Record file_to_process {E : Engine} : Type := {
  file_path : string;
  file_bounds : option Geometry;
  file_sensor_name : string
}.

Section Files.
Context {E : Engine}.
(** [os.path.exists]; the function writes no file. *)
Variable os_path_exists : string -> bool.
(** [geoimage.get_image_bounds] and [lasfile.get_las_extents] of
    agpypeline: the bounds of the file, [None] when it has none; both may
    raise. *)
Variable get_image_bounds : string -> option Z -> result (option Geometry).
Variable get_las_extents : string -> option Z -> result (option Geometry).

Definition missing_message (one_file : string) : string :=
  ("Skipping file that does not exist: '" ++ one_file ++ "'")%string.

(** The loop over [file_list]; [files_to_process] is the dictionary so
    far. *)
Fixpoint files_loop (file_list : list string) (sensor : string) (default_epsg : option Z)
    (files_to_process : list (string * file_to_process))
  : traced (list (string * file_to_process)) :=
  match file_list with
  | [] => ret files_to_process
  | one_file :: rest =>
      let filename := basename one_file in
      if Py.assoc_mem filename files_to_process
      then files_loop rest sensor default_epsg files_to_process
      else if negb (os_path_exists one_file)
      then
        _ <~ log WARNING (missing_message one_file) ;;
        files_loop rest sensor default_epsg files_to_process
      else if Py.endswith one_file ".tif" then
        bounds <~ lift (get_image_bounds one_file default_epsg) ;;
        files_loop rest sensor default_epsg
          (Py.assoc_set filename
             {| file_path := one_file; file_bounds := bounds; file_sensor_name := sensor |}
             files_to_process)
      else if Py.endswith one_file ".las" then
        bounds <~ lift (get_las_extents one_file default_epsg) ;;
        files_loop rest sensor default_epsg
          (Py.assoc_set filename
             {| file_path := one_file; file_bounds := bounds; file_sensor_name := sensor |}
             files_to_process)
      else files_loop rest sensor default_epsg files_to_process
  end.

Definition get_files_to_process (file_list : list string) (sensor : string)
    (default_epsg : option Z) : traced (list (string * file_to_process)) :=
  files_loop file_list sensor default_epsg [].

End Files.

(** ** The container metadata of a run *)

(** [container_md = merge_container_md(container_md, cur_md)] of
    [perform_process], over the entries [cur_md] in the order in which the
    clipped files give them. *)
Fixpoint merge_all (container_md : value) (cur_mds : list value) : result value :=
  match cur_mds with
  | [] => Ok container_md
  | cur_md :: rest =>
      container_md <- merge_container_md container_md cur_md ;;
      merge_all container_md rest
  end.

(** * Definitions for the statements *)

(** ** Lists of entries *)

(** [len(md['file'])] *)
Definition file_count (md : value) : result nat :=
  files <- Py.getitem md (VStr "file") ;;
  Py.len files.

(** The number of FileRecords of a list of entries, read off the Python
    list: the sum of [len(md['file'])] over its items. *)
Fixpoint count_files_of (items : list value) : result nat :=
  match items with
  | [] => Ok 0%nat
  | md :: rest =>
      n <- file_count md ;;
      m <- count_files_of rest ;;
      Ok (n + m)%nat
  end.

Definition count_files (container_md : value) : result nat :=
  items <- Py.iter container_md ;;
  count_files_of items.

(** The union by path of the files [ws] of an entry with the incoming
    files [ns]: an incoming file whose path is there already is dropped, any
    other is appended. *)
Fixpoint union_by_path (ws ns : list FileRecord) : list FileRecord :=
  match ns with
  | [] => ws
  | n :: ns' =>
      if existsb (fun w => String.eqb (path n) (path w)) ws
      then union_by_path ws ns'
      else union_by_path (ws ++ [n]) ns'
  end.

(** The position of the first entry named [n]. *)
Fixpoint find_name (n : string) (L : list ContainerMetadataEntry) : option nat :=
  match L with
  | [] => None
  | e :: L' => if String.eqb (name e) n then Some 0%nat else S <$> find_name n L'
  end.

(** What a merge leaves, on a list of entries. *)
Definition merged (L : list ContainerMetadataEntry) (e : ContainerMetadataEntry)
  : list ContainerMetadataEntry :=
  match L with
  | [] => [e]
  | _ => match find_name (name e) L with
         | Some _ => L
         | None => L ++ [e]
         end
  end.

Section PreparedRecords.
Variable path_exists : string -> bool.
Variable transformer_name transformer_version : string.
Variable utcnow : nat -> string.

(** The FileRecords [prepare_container_md] writes, from pass [i] on. *)
Fixpoint prepared_records (plot_name sensor source_file : string)
    (result_files : list string) (i : nat) : list FileRecord :=
  match result_files with
  | [] => []
  | one_file :: rest =>
      if path_exists one_file
      then {| path := one_file; key := sensor; source := source_file;
              transformer := transformer_name; version := transformer_version;
              timestamp := utcnow i; file_plot_name := plot_name |}
             :: prepared_records plot_name sensor source_file rest (S i)
      else prepared_records plot_name sensor source_file rest (S i)
  end.

End PreparedRecords.

(** A run over two files that both show plot 1: the driver prepares one
    entry per clipped file and folds them through the merge. *)
Module TwoFiles.

Definition exists_always (p : string) : bool := true.
Definition clock (i : nat) : string := "2021-06-01T12:00:00".
Definition plot_md : value := VDict [("plot_name", VStr "plot 1")].

Definition first : value :=
  prepare_container_md exists_always "plotclip" "1.0" clock
    "plot 1" plot_md "rgb" "/data/a.tif" ["/out/plot 1/a.tif"].

Definition second : value :=
  prepare_container_md exists_always "plotclip" "1.0" clock
    "plot 1" plot_md "rgb" "/data/b.tif" ["/out/plot 1/b.tif"].

End TwoFiles.

Module InvariantExample.

Definition record (p : string) (plot : string) : FileRecord :=
  {| path := p; key := "rgb"; source := "/data/a.tif"; transformer := "plotclip";
     version := "1.0"; timestamp := "2021-06-01T12:00:00"; file_plot_name := plot |}.

Definition held : list ContainerMetadataEntry :=
  [ {| name := "plot 1"; data := VDict []; file := [record "/out/plot 1/a.tif" "plot 1"] |} ].

Definition incoming : ContainerMetadataEntry :=
  {| name := "plot 2"; data := VDict [];
     file := [record "/out/plot 2/a.tif" "plot 2"; record "/out/plot 2/b.tif" "plot 2"] |}.

End InvariantExample.

(** ** Request metadata *)

(** The copy after the three [pop]s. *)
Definition cleaned (d : list (string * value)) : list (string * value) :=
  Py.assoc_pop "working_folder" (Py.assoc_pop "context_md" (Py.assoc_pop "list_files" d)).

(** The dictionary behind [source_md]: [None] has none, and counts as
    empty. *)
Definition source_dict (source_md : option nat) (st : store)
  : option (list (string * value)) :=
  match source_md with
  | None => Some []
  | Some r => st !! r
  end.

Module CleanupExample.

(** The request metadata of a run, at position 0 of the store. *)
Definition check_md : list (string * value) :=
  [("working_folder", VStr "/work"); ("list_files", VObj 7);
   ("timestamp", VStr "2021-06-01"); ("context_md", VDict [("season", VInt 4)]);
   ("experiment", VDict [("name", VStr "trial")])].

Definition before : store := [check_md].

End CleanupExample.

(** ** Overlap *)

(** An exception met while the ratio is computed: in the intersection, in
    one of the two areas, or in the division. *)
Inductive overlap_raises {E : Engine} (check other : Geometry) : exn -> Prop :=
| raises_in_intersection ex :
    Intersection other check = Raise ex ->
    overlap_raises check other ex
| raises_in_intersection_area i ex :
    Intersection other check = Ok (Some i) ->
    Area i = Raise ex ->
    overlap_raises check other ex
| raises_in_check_area i a ex :
    Intersection other check = Ok (Some i) ->
    Area i = Ok a ->
    Area check = Raise ex ->
    overlap_raises check other ex
| raises_in_division i a b :
    Intersection other check = Ok (Some i) ->
    Area i = Ok a ->
    Area check = Ok b ->
    PrimFloat.eqb b 0%float = true ->
    overlap_raises check other ZeroDivisionError.

Module OverlapExample.

(** A file that covers the strip [0..1] x [0..10], in EPSG:4326. *)
Definition file_bounds : @Geometry Boxes.engine := Boxes.mk 4326 0 0 1 10.

(** A plot of 10 x 10 of which the file shows a tenth, in EPSG:32612. *)
Definition tenth : @Geometry Boxes.engine := Boxes.mk 32612 0 0 10 10.
Definition tenth_converted : @Geometry Boxes.engine := Boxes.mk 4326 0 0 10 10.

(** A plot on which the engine raises. *)
Definition bad : @Geometry Boxes.engine :=
  {| Boxes.epsg := Some 4326; Boxes.xmin := 0; Boxes.ymin := 0;
     Boxes.xmax := 1; Boxes.ymax := 1; Boxes.broken := true |}.

Definition others : list (string * @Geometry Boxes.engine) := [("plot 2", tenth)].

End OverlapExample.

(** ** Plot names and reference systems *)

Module CatalogExample.

Definition square : value :=
  VDict [("type", VStr "Polygon");
         ("coordinates", VList [VList [VList [VInt 0; VInt 0]; VList [VInt 1; VInt 0];
                                       VList [VInt 1; VInt 1]; VList [VInt 0; VInt 1];
                                       VList [VInt 0; VInt 0]]])].

(** A feature whose properties are the empty dictionary. *)
Definition feature : value :=
  VDict [("type", VStr "Feature"); ("properties", VDict []); ("geometry", square)].

(** The same feature without the key ['properties']. *)
Definition bare_feature : value :=
  VDict [("type", VStr "Feature"); ("geometry", square)].

Definition document : value :=
  VDict [("type", VStr "FeatureCollection"); ("features", VList [feature])].

End CatalogExample.

(** A clause [{"type": "name", "properties": {"name": nm}}], whatever else
    it holds. *)
Definition named_clause (crs : value) (nm : string) : Prop :=
  exists d p,
    crs = VDict d /\
    Py.assoc_get "type" d = Some (VStr "name") /\
    Py.assoc_get "properties" d = Some (VDict p) /\
    Py.assoc_get "name" p = Some (VStr nm).

Definition name_clause (nm : string) : value :=
  VDict [("type", VStr "name"); ("properties", VDict [("name", VStr nm)])].

Module CrsExample.

Definition utm12 : string := "urn:ogc:def:crs:EPSG::32612".

(** Sixteen characters that are not the prefix, then the same rest. *)
Definition no_prefix : string := "0123456789abcdefEPSG::32612".

(** A name with a version between the colons. *)
Definition versioned : string := "urn:ogc:def:crs:EPSG:6.3:26986".

(** A code with its authority and nothing else. *)
Definition bare_code : string := "EPSG:4326".

End CrsExample.

(** ** Plots that intersect a file *)

Section MatcherSpec.
Context {E : Engine}.
Implicit Types (bounding_box g check : Geometry).


(** The geometry the loop intersects with the bounding box. *)
Definition tested_geometry bounding_box g : result Geometry :=
  fst (check_poly_of (GetSpatialReference bounding_box) g).

(** The test of the loop: the intersection is not [None] and its JSON has
    at least one item under ['coordinates']. *)
Definition intersects bounding_box check : result bool :=
  intersection <- Intersection bounding_box check ;;
  match intersection with
  | Some i => has_coordinates (ExportToJson i)
  | None => Ok false
  end.

(** What the engine exports is a GeoJSON object: a dictionary in which
    ['coordinates'], when it is there, is an array. *)
Definition geojson_object (j : value) : Prop :=
  exists d, j = VDict d /\
            forall c, Py.assoc_get "coordinates" d = Some c -> exists l, c = VList l.

(** The object has at least one coordinate: under ['coordinates'] it has
    an array that is not empty. *)
Definition has_a_coordinate (j : value) : bool :=
  match j with
  | VDict d =>
      match Py.assoc_get "coordinates" d with
      | Some (VList (_ :: _)) => true
      | _ => false
      end
  | _ => false
  end.

(** The engine answers on the plot: it reprojects the geometry where it
    has to, intersects it with the bounding box, and exports an intersection
    that is not [None] as a GeoJSON object. *)
Definition answers bounding_box g : Prop :=
  exists check intersection,
    tested_geometry bounding_box g = Ok check /\
    Intersection bounding_box check = Ok intersection /\
    forall i, intersection = Some i -> geojson_object (ExportToJson i).

(** The intersection of the tested geometry with the bounding box is
    there and has at least one coordinate. *)
Definition matched bounding_box g : bool :=
  match tested_geometry bounding_box g with
  | Ok check =>
      match Intersection bounding_box check with
      | Ok (Some i) => has_a_coordinate (ExportToJson i)
      | _ => false
      end
  | Raise _ => false
  end.


(** The names of a catalog as [str()] writes them. *)
Definition names_of (repr : value -> string) (all_plots : list (value * Geometry))
  : list string :=
  (fun ng => Py.str repr (fst ng)) <$> all_plots.

(** The catalog with its names as [str()] writes them. *)
Definition by_name (repr : value -> string) (all_plots : list (value * Geometry))
  : list (string * Geometry) :=
  (fun ng => (Py.str repr (fst ng), snd ng)) <$> all_plots.

(** [l] without the items that occur in [seen] or earlier in [l]. *)
Fixpoint first_occurrences (seen l : list string) : list string :=
  match l with
  | [] => []
  | x :: l' =>
      if existsb (String.eqb x) seen then first_occurrences seen l'
      else x :: first_occurrences (seen ++ [x]) l'
  end.

End MatcherSpec.

Module MatcherExample.

(** A file over [0..10] x [0..10] in EPSG:4326, a plot in the same
    reference that overlaps it, and two plots in EPSG:32612 of which one
    lies apart. *)
Definition bounding_box : @Geometry Boxes.engine := Boxes.mk 4326 0 0 10 10.
Definition plot_a : @Geometry Boxes.engine := Boxes.mk 4326 5 5 20 20.
Definition plot_b : @Geometry Boxes.engine := Boxes.mk 32612 20 20 30 30.
Definition plot_c : @Geometry Boxes.engine := Boxes.mk 32612 9 9 30 30.

Definition all_plots : list (value * @Geometry Boxes.engine) :=
  [(VStr "a", plot_a); (VStr "b", plot_b); (VStr "c", plot_c)].

(** A catalog with the number 7 and the text ["7"] as names. *)
Definition numbered : list (value * @Geometry Boxes.engine) :=
  [(VInt 7, plot_a); (VStr "b", plot_b); (VStr "7", plot_c)].

(** No name of these catalogs is a value for which [repr] is asked. *)
Definition repr (v : value) : string := "<value>".

End MatcherExample.


(** ** Reference systems by authority *)

(** The end of [get_sr_from_crs], from [sr_type] and [sr_def] on. *)
Definition resolve_authority {E : Engine} (sr_type : string) (sr_def : value)
  : result SpatialReference :=
  if String.eqb sr_type "epsg" then
    code <- Py.int sr_def ;;
    match ImportFromEPSG code with
    | Some return_sr => Ok return_sr
    | None => Raise (RuntimeError "Unable to load EPSG code from GeoJSON crs")
    end
  else if String.eqb sr_type "ogc" then
    match ImportFromEPSG 4326 with
    | Some return_sr => Ok return_sr
    | None => Raise (RuntimeError "Unable to load default OGC from GeoJSON crs")
    end
  else Raise (RuntimeError "Spatial reference type is currently not supported").

(** A clause [{"type": T, "properties": {"code": c}}], whatever else it
    holds. *)
Definition coded_clause (crs : value) (T : string) (c : value) : Prop :=
  exists d p,
    crs = VDict d /\
    Py.assoc_get "type" d = Some (VStr T) /\
    Py.assoc_get "properties" d = Some (VDict p) /\
    Py.assoc_get "code" p = Some c.

Definition code_clause (T : string) (c : value) : value :=
  VDict [("type", VStr T); ("properties", VDict [("code", c)])].

(** ** The key that names a plot *)

(** The two tests of the scan over the keys. *)
Definition plot_like (k : string) : bool :=
  let l := Py.lower k in
  (0 <=? Py.find l "plot") && ((0 <=? Py.find l "name") || (0 <=? Py.find l "id")).

Definition id_like (k : string) : bool := String.eqb (Py.lower k) "id".

(** The key the scan settles on: the last key that is plot-like, and
    without one the first key that reads [id] in lower case. *)
Definition best_fit_key (ks : list string) : option string :=
  match last (List.filter plot_like ks) with
  | Some k => Some k
  | None => head (List.filter id_like ks)
  end.

Definition with_key (p : list (string * value)) (k : string) : option (value * value) :=
  match Py.assoc_get k p with
  | Some v => Some (VStr k, v)
  | None => None
  end.

(** The search without a default key, or with one the properties lack. *)
Definition searched (p : list (string * value)) : option (value * value) :=
  if Py.assoc_mem "observationUnitName" p then with_key p "observationUnitName"
  else match best_fit_key (Py.keys p) with
       | Some k => with_key p k
       | None => None
       end.

(** [default_key]: [None] or a string. *)
Definition key_value (default_key : option string) : value :=
  match default_key with
  | Some s => VStr s
  | None => VNone
  end.

Definition key_name_of (p : list (string * value)) (default_key : option string)
  : option (value * value) :=
  match default_key with
  | Some s =>
      if negb (String.eqb s "") && Py.assoc_mem s p then with_key p s else searched p
  | None => searched p
  end.

(** ** Features *)

(** A feature the loader does not skip: a dictionary of type ["Feature"]
    with a geometry, and with [props] under ['properties'] if it has the
    key. *)
Definition known_feature (one_feature geometry : value) (props : option value) : Prop :=
  exists fd,
    one_feature = VDict fd /\
    Py.assoc_get "type" fd = Some (VStr "Feature") /\
    Py.assoc_get "geometry" fd = Some geometry /\
    Py.assoc_get "properties" fd = props.

(** The key offered to the heuristic in a pass. *)
Definition key_in_effect (plot_column plot_key : value) : value :=
  if Py.truthy plot_column then plot_column else plot_key.

Section FeatureSpec.
Context {E : Engine}.

(** The geometry as the loader stores it: with the reference of the
    file, unless it has the same one already. *)
Definition with_file_sr (file_sr : SpatialReference) (plot_geom : Geometry) : Geometry :=
  match GetSpatialReference plot_geom with
  | None => AssignSpatialReference plot_geom file_sr
  | Some geom_sr =>
      if negb (IsSame geom_sr file_sr)
      then AssignSpatialReference plot_geom file_sr
      else plot_geom
  end.

(** [plots[k]] on the dictionary of plots. *)
Fixpoint plots_get (k : value) (plots : list (value * Geometry)) : option Geometry :=
  match plots with
  | [] => None
  | (k', g) :: plots' => if Py.same_key k' k then Some g else plots_get k plots'
  end.

(** The catalog after the features named [n] with geometry [g], for each
    [(n, g)] of [named] in turn. *)
Definition stored (file_sr : SpatialReference) (named : list (string * Geometry))
    (plots : list (value * Geometry)) : list (value * Geometry) :=
  fold_left (fun acc ng => plots_set (VStr (fst ng)) (with_file_sr file_sr (snd ng)) acc)
            named plots.

(** The feature [f] has the name [n] in the column [c] and the geometry
    [g]. *)
Definition column_names (c : string) (f : value) (n : string) (g : Geometry) : Prop :=
  exists geometry p,
    known_feature f geometry (Some (VDict p)) /\
    Py.assoc_get c p = Some (VStr n) /\
    n <> "" /\
    CreateGeometryFromJson geometry = Some g.

(** The last of [named] with the name [n]. *)
Definition latest (n : string) (named : list (string * Geometry))
  : option (string * Geometry) :=
  last (List.filter (fun ng => String.eqb (fst ng) n) named).

End FeatureSpec.

Module LoadExample.

Definition box_json (x0 y0 x1 y1 : Z) : value :=
  VDict [("bbox", VList [VInt x0; VInt y0; VInt x1; VInt y1])].

Definition feature_of (props : list (string * value)) (geometry : value) : value :=
  VDict [("type", VStr "Feature"); ("properties", VDict props); ("geometry", geometry)].

Definition box_of (x0 y0 x1 y1 : Z) : @Geometry Boxes.engine :=
  {| Boxes.epsg := None; Boxes.xmin := x0; Boxes.ymin := y0;
     Boxes.xmax := x1; Boxes.ymax := y1; Boxes.broken := false |}.

Definition wgs84 : @SpatialReference Boxes.engine := 4326.

(** A first feature with an [id], a second one with an [id] and an
    [observationUnitName]. *)
Definition first_props : list (string * value) := [("id", VStr "7")].
Definition second_props : list (string * value) :=
  [("observationUnitName", VStr "P2"); ("id", VStr "8")].
Definition first : value := feature_of first_props (box_json 0 0 10 10).
Definition second : value := feature_of second_props (box_json 10 0 20 10).

(** Two items the loader skips, and a feature without properties. *)
Definition skipped : list value := [VDict [("type", VStr "Note")]; VDict []].
Definition bare : value :=
  VDict [("type", VStr "Feature"); ("geometry", box_json 0 0 10 10)].
Definition document : list (string * value) :=
  [("type", VStr "FeatureCollection"); ("features", VList (skipped ++ [bare]))].

(** Two features with the same value in the column ["plot"]. *)
Definition twice : list value :=
  [feature_of [("plot", VStr "A")] (box_json 0 0 10 10);
   feature_of [("plot", VStr "B")] (box_json 10 0 20 10);
   feature_of [("plot", VStr "A")] (box_json 20 0 30 10)].
Definition twice_named : list (string * @Geometry Boxes.engine) :=
  [("A", box_of 0 0 10 10); ("B", box_of 10 0 20 10); ("A", box_of 20 0 30 10)].

End LoadExample.

(** ** The matcher over a whole catalog *)

Section MatcherCatalog.
Context {E : Engine}.
Implicit Types (bounding_box file_bounds g : Geometry).

(** The engine answers on the plot. *)
Definition plot_passes bounding_box g : Prop :=
  exists check b, tested_geometry bounding_box g = Ok check /\
                  intersects bounding_box check = Ok b.

(** The engine raises [ex] on the plot, in the reprojection or in the
    test of the intersection. *)
Definition plot_fails bounding_box g (ex : exn) : Prop :=
  tested_geometry bounding_box g = Raise ex \/
  exists check, tested_geometry bounding_box g = Ok check /\
                intersects bounding_box check = Raise ex.

(** The overlap fraction of a plot in a file: the area of the intersection
    of the file bounds with the plot bounds over the area of the plot
    bounds; and 0.0 when there is no intersection, when the engine raises on
    the intersection or on an area, and when the area of the plot bounds is
    zero. *)
Definition overlap_fraction (plot_bounds file_bounds : Geometry) : float :=
  match Intersection file_bounds plot_bounds with
  | Ok (Some i) =>
      match Area i, Area plot_bounds with
      | Ok a, Ok b => if PrimFloat.eqb b 0%float then 0%float else PrimFloat.div a b
      | _, _ => 0%float
      end
  | _ => 0%float
  end.

(** A plot goes on to be clipped, under its name and with its bounds in
    the reference of the file, unless its overlap fraction is below 0.10. *)
Definition kept file_bounds (ng : string * Geometry) : option (string * Geometry) :=
  match convert_geometry (snd ng) (GetSpatialReference file_bounds) with
  | Ok plot_bounds =>
      if PrimFloat.ltb (overlap_fraction plot_bounds file_bounds) 0.10%float
      then None else Some (fst ng, plot_bounds)
  | Raise _ => None
  end.

Definition is_skip (ev : event) : bool :=
  match ev with
  | Logged INFO msg => String.eqb msg skip_message
  | _ => false
  end.

Definition is_warning (ev : event) : bool :=
  match ev with
  | Logged WARNING _ => true
  | _ => false
  end.

End MatcherCatalog.

Module CatalogRun.

(** The catalog of [MatcherExample] with a broken plot in the middle. *)
Definition broken_plot : @Geometry Boxes.engine :=
  {| Boxes.epsg := Some 4326; Boxes.xmin := 0; Boxes.ymin := 0;
     Boxes.xmax := 1; Boxes.ymax := 1; Boxes.broken := true |}.

Definition before : list (value * @Geometry Boxes.engine) :=
  [(VStr "a", MatcherExample.plot_a)].
Definition rest : list (value * @Geometry Boxes.engine) :=
  [(VStr "c", MatcherExample.plot_c)].

End CatalogRun.

(** The engine of [Boxes], with a reprojection that raises on a broken
    box. *)
Module StrictBoxes.

Definition convert (b : Boxes.box) (sr : option Z) : result Boxes.box :=
  if Boxes.broken b then Raise (RuntimeError "OGRCoordinateTransformation")
  else match sr with
       | Some _ => Ok (Boxes.with_epsg b sr)
       | None => Ok b
       end.

Definition engine : Engine := {|
  SpatialReference := Z;
  Geometry := Boxes.box;
  ImportFromEPSG := @ImportFromEPSG Boxes.engine;
  IsSame := Z.eqb;
  GetSpatialReference := Boxes.epsg;
  AssignSpatialReference := fun b sr => Boxes.with_epsg b (Some sr);
  CreateGeometryFromJson := Boxes.of_json;
  ExportToJson := Boxes.to_json;
  Intersection := Boxes.intersection;
  Area := Boxes.area;
  convert_geometry := convert
|}.

End StrictBoxes.

Module OverlapRun.

(** The plots that intersect the file of [OverlapExample]: one of which
    the file shows a tenth, one of which it shows less. *)
Definition eleventh : @Geometry Boxes.engine := Boxes.mk 4326 0 0 11 10.

Definition overlap_plots : list (string * @Geometry Boxes.engine) :=
  [("plot 1", OverlapExample.tenth); ("plot 3", eleventh)].

End OverlapRun.

(** ** Entries that keep their records under ['files'] *)

(** A name with the records under ['files'], if the entry has the key. *)
Definition keyed_value (e : string * option (list FileRecord)) : value :=
  VDict (("name", VStr (fst e))
         :: match snd e with
            | Some ws => [("files", VList (file_value <$> ws))]
            | None => []
            end).

(** The records of an entry after the records [new] were merged into
    it. *)
Definition merge_files_of (old new : option (list FileRecord)) : option (list FileRecord) :=
  match new with
  | None => old
  | Some ns =>
      match old with
      | Some ws => Some (union_by_path ws ns)
      | None => Some ns
      end
  end.

Fixpoint find_keyed (n : string) (L : list (string * option (list FileRecord)))
  : option nat :=
  match L with
  | [] => None
  | a :: L' => if String.eqb (fst a) n then Some 0%nat else S <$> find_keyed n L'
  end.

Definition merged_keyed (L : list (string * option (list FileRecord)))
    (e : string * option (list FileRecord)) : list (string * option (list FileRecord)) :=
  match L with
  | [] => [e]
  | _ =>
      match find_keyed (fst e) L with
      | Some i => alter (fun a => (fst a, merge_files_of (snd a) (snd e))) i L
      | None => L ++ [e]
      end
  end.

(** The entries a run leaves of the entries it prepared. *)
Definition merged_all (L es : list ContainerMetadataEntry) : list ContainerMetadataEntry :=
  fold_left merged es L.

(** The first entry of the name [n]. *)
Definition first_named (n : string) (L : list ContainerMetadataEntry)
  : option ContainerMetadataEntry :=
  List.find (fun e => String.eqb (name e) n) L.

Module KeyedExample.

Definition record (p : string) : FileRecord :=
  {| path := p; key := "rgb"; source := "/data/a.tif"; transformer := "plotclip";
     version := "1.0"; timestamp := "2021-06-01T12:00:00"; file_plot_name := "plot 1" |}.

Definition held : list (string * option (list FileRecord)) :=
  [("plot 0", None); ("plot 1", Some [record "a.tif"])].

Definition incoming : string * option (list FileRecord) :=
  ("plot 1", Some [record "b.tif"; record "a.tif"; record "b.tif"]).

Definition working_md : list (string * value) :=
  [("name", VStr "plot 1"); ("files", VList (file_value <$> [record "a.tif"]))].

End KeyedExample.

(** ** The files of a request *)

Section FilesSpec.
Context {E : Engine}.
Variable os_path_exists : string -> bool.
Variable get_image_bounds : string -> option Z -> result (option Geometry).
Variable get_las_extents : string -> option Z -> result (option Geometry).

(** A file the loop takes, if its name is free: it exists and its path
    ends in [.tif] or [.las]. *)
Definition accepted (one_file : string) : bool :=
  os_path_exists one_file
  && (Py.endswith one_file ".tif" || Py.endswith one_file ".las").

(** The bounds the loop asks for. *)
Definition bounds_of (one_file : string) (default_epsg : option Z)
  : result (option Geometry) :=
  if Py.endswith one_file ".tif" then get_image_bounds one_file default_epsg
  else get_las_extents one_file default_epsg.

(** The first accepted file of [file_list] with the base name [filename]. *)
Definition first_accepted (filename : string) (file_list : list string) : option string :=
  List.find (fun one_file => String.eqb (basename one_file) filename && accepted one_file)
            file_list.

(** The dictionary the loop keeps for a file. *)
Definition entry_for (sensor one_file : string) (b : option Geometry) : file_to_process :=
  {| file_path := one_file; file_bounds := b; file_sensor_name := sensor |}.

(** The entry the loop writes for a file, when it can. *)
Definition written (sensor : string) (default_epsg : option Z) (one_file : string)
  : option file_to_process :=
  match bounds_of one_file default_epsg with
  | Ok b => Some (entry_for sensor one_file b)
  | Raise _ => None
  end.

End FilesSpec.

Module FilesExample.

Definition on_disk (p : string) : bool :=
  existsb (String.eqb p) ["/a/x.tif"; "/b/x.tif"; "/a/y.las"; "/a/notes.txt"; "/a/bad.tif"].

Definition image_bounds (p : string) (epsg : option Z)
  : result (option (@Geometry Boxes.engine)) :=
  if String.eqb p "/a/bad.tif" then Raise (RuntimeError "not a GeoTIFF")
  else Ok (Some (Boxes.mk 4326 0 0 10 10)).

Definition las_extents (p : string) (epsg : option Z)
  : result (option (@Geometry Boxes.engine)) :=
  Ok None.

Definition file_list : list string :=
  ["/gone/x.tif"; "/a/x.tif"; "/b/x.tif"; "/a/notes.txt"; "/a/y.las"; "/gone/y.las"].

End FilesExample.

(** * Properties *)

(** ** The string operations at work *)

Example lower_EPSG : Py.lower "EPSG" = "epsg".
Proof. reflexivity. Qed.

Example find_plot : Py.find "my_plot_id" "plot" = 3 /\ Py.find "name" "plot" = -1.
Proof. split; reflexivity. Qed.

Example split1_epsg : Py.split1 ":" "EPSG::32612" = ["EPSG"; ":32612"].
Proof. reflexivity. Qed.

Example split1_none : Py.split1 ":" "" = [""].
Proof. reflexivity. Qed.

Example strip_colons : Py.strip ":" ":32612::" = "32612".
Proof. reflexivity. Qed.

(** [int()] skips the characters 9 to 13 and the space, and no other
    control character. *)
Example int_white_space :
  Py.int_of_string (String (ascii_of_nat 9) (String (ascii_of_nat 13) "4326 ")) = Ok 4326 /\
  Py.int_of_string (String (ascii_of_nat 28) "4326") = Raise ValueError /\
  Py.int_of_string (String (ascii_of_nat 31) "4326") = Raise ValueError /\
  Py.int_of_string (String (ascii_of_nat 0) "4326") = Raise ValueError.
Proof. repeat split; reflexivity. Qed.

(** What [str()] writes for the names a catalog may have. *)
Example str_examples (repr : value -> string) :
  Py.str repr (VInt 7) = "7" /\ Py.str repr (VInt (-7)) = "-7" /\
  Py.str repr (VInt 0) = "0" /\ Py.str repr (VStr "7") = "7" /\
  Py.str repr (VBool true) = "True" /\ Py.str repr VNone = "None".
Proof. repeat split; reflexivity. Qed.

(** The keys of a dictionary: equal numbers are one key whatever their
    type, a number and its text are two, and [NaN], which is not equal to
    itself, is one key. *)
Example same_key_examples :
  Py.same_key (VInt 1) (VFloat 1%float) = true /\
  Py.same_key (VBool true) (VInt 1) = true /\
  Py.same_key (VInt 7) (VStr "7") = false /\
  Py.eq (VFloat PrimFloat.nan) (VFloat PrimFloat.nan) = false /\
  Py.same_key (VFloat PrimFloat.nan) (VFloat PrimFloat.nan) = true.
Proof. repeat split; reflexivity. Qed.

Example int_32612 : Py.int_of_string " 32_612 " = Ok 32612 /\ Py.int_of_string "6.3:26986" = Raise ValueError.
Proof. split; reflexivity. Qed.

Example str_of_nat_12 : Py.str_of_nat 12 = "12" /\ Py.str_of_nat 0 = "0".
Proof. split; reflexivity. Qed.

Example eq_int_float : Py.eq (VInt 3) (VFloat 3%float) = true /\ Py.eq (VInt 3) (VFloat 0.5%float) = false.
Proof. split; reflexivity. Qed.

(** ** Dictionaries as association lists *)

Section AssocFacts.
Context {A : Type}.
Implicit Types (d : list (string * A)) (k : string).

Lemma assoc_get_None k d : Py.assoc_get k d = None <-> k ∉ Py.keys d.
Proof.
  induction d as [| [k' v] d IH]; cbn.
  - split; [intros _; apply not_elem_of_nil | reflexivity].
  - rewrite not_elem_of_cons. destruct (String.eqb_spec k k') as [-> | Hne].
    + split; [discriminate | intros [Hk _]; congruence].
    + rewrite IH. tauto.
Qed.

Lemma assoc_get_pop_ne k k' d :
  k <> k' -> Py.assoc_get k (Py.assoc_pop k' d) = Py.assoc_get k d.
Proof.
  intros Hne. induction d as [| [k0 v] d IH]; cbn; [reflexivity |].
  destruct (String.eqb_spec k' k0) as [-> | Hk0].
  - destruct (String.eqb_spec k k0); [contradiction | reflexivity].
  - cbn. rewrite IH. reflexivity.
Qed.

Lemma assoc_get_pop_eq k d :
  NoDup (Py.keys d) -> Py.assoc_get k (Py.assoc_pop k d) = None.
Proof.
  induction d as [| [k0 v] d IH]; cbn; [reflexivity |].
  intros Hnd. apply NoDup_cons in Hnd as [Hk0 Hnd].
  destruct (String.eqb_spec k k0) as [-> | Hne].
  - apply assoc_get_None. exact Hk0.
  - cbn. destruct (String.eqb_spec k k0); [contradiction | auto].
Qed.

Lemma keys_pop_subseteq k d : Py.keys (Py.assoc_pop k d) ⊆ Py.keys d.
Proof.
  induction d as [| [k0 v] d IH]; cbn; [reflexivity |].
  destruct (String.eqb k k0); cbn.
  - intros x Hx. apply elem_of_cons. now right.
  - intros x. rewrite !elem_of_cons. intros [-> | Hx]; [now left | right; now apply IH].
Qed.

Lemma NoDup_keys_pop k d : NoDup (Py.keys d) -> NoDup (Py.keys (Py.assoc_pop k d)).
Proof.
  induction d as [| [k0 v] d IH]; cbn; [auto |].
  intros Hnd. apply NoDup_cons in Hnd as [Hk0 Hnd].
  destruct (String.eqb k k0); cbn; [exact Hnd |].
  apply NoDup_cons. split; [| auto].
  intros Hin. apply Hk0. eapply keys_pop_subseteq, Hin.
Qed.

Lemma assoc_get_set k k' (v : A) d :
  Py.assoc_get k (Py.assoc_set k' v d)
  = if String.eqb k k' then Some v else Py.assoc_get k d.
Proof.
  induction d as [| [k0 v0] d IH]; cbn.
  - destruct (String.eqb k k'); reflexivity.
  - destruct (String.eqb_spec k' k0) as [-> | Hne]; cbn.
    + destruct (String.eqb k k0); reflexivity.
    + rewrite IH. destruct (String.eqb_spec k k') as [-> | Hk].
      * destruct (String.eqb_spec k' k0); [contradiction | reflexivity].
      * reflexivity.
Qed.

Lemma keys_set k k' (v : A) d :
  k ∈ Py.keys (Py.assoc_set k' v d) <-> k = k' \/ k ∈ Py.keys d.
Proof.
  induction d as [| [k0 v0] d IH]; cbn.
  - rewrite list_elem_of_singleton, elem_of_nil. tauto.
  - destruct (String.eqb_spec k' k0) as [-> | Hne]; cbn.
    + rewrite elem_of_cons. tauto.
    + rewrite !elem_of_cons, IH. tauto.
Qed.

Lemma assoc_set_same k (v : A) d : Py.assoc_get k d = Some v -> Py.assoc_set k v d = d.
Proof.
  induction d as [| [k0 v0] d IH]; cbn; [discriminate |].
  destruct (String.eqb_spec k k0) as [-> | Hne].
  - now intros [= ->].
  - intros Hget. now rewrite IH.
Qed.

Lemma assoc_set_set k (v v' : A) d :
  Py.assoc_set k v' (Py.assoc_set k v d) = Py.assoc_set k v' d.
Proof.
  induction d as [| [k0 v0] d IH]; cbn.
  - now rewrite String.eqb_refl.
  - destruct (String.eqb_spec k k0) as [-> | Hne]; cbn.
    + now rewrite String.eqb_refl.
    + destruct (String.eqb_spec k k0); [contradiction |]. now rewrite IH.
Qed.

End AssocFacts.

(** ** Merging container metadata *)

Section MergeFacts.
Implicit Types (L : list ContainerMetadataEntry) (e : ContainerMetadataEntry).

(** The dictionary of an entry has the key ['file'], and no key ['files']. *)
Lemma entry_has_no_files e : Py.contains (VStr "files") (entry_value e) = Ok false.
Proof. reflexivity. Qed.

Lemma entry_name e : Py.getitem (entry_value e) (VStr "name") = Ok (VStr (name e)).
Proof. reflexivity. Qed.

Lemma seq_index_of_nat (i len : nat) :
  (i < len)%nat -> Py.seq_index (VInt (Z.of_nat i)) len = Ok i.
Proof.
  intros Hlt. unfold Py.seq_index.
  destruct (Z.ltb_spec (Z.of_nat i) 0) as [Hneg | _]; [lia |].
  destruct (Z.leb_spec 0 (Z.of_nat i)) as [_ | Hneg]; [| lia].
  destruct (Z.ltb_spec (Z.of_nat i) (Z.of_nat len)) as [_ | Hge]; [| lia].
  simpl. now rewrite Nat2Z.id.
Qed.

Lemma getitem_list_value L (i : nat) e :
  L !! i = Some e ->
  Py.getitem (list_value L) (VInt (Z.of_nat i)) = Ok (entry_value e).
Proof.
  intros Hi. unfold list_value, Py.getitem.
  rewrite seq_index_of_nat.
  - simpl. rewrite list_lookup_fmap, Hi. reflexivity.
  - rewrite length_fmap. apply lookup_lt_Some in Hi. exact Hi.
Qed.

Lemma find_name_Some n L i :
  find_name n L = Some i -> exists e, L !! i = Some e /\ name e = n.
Proof.
  revert i. induction L as [| e L IH]; intros i; simpl; [discriminate |].
  destruct (String.eqb_spec (name e) n) as [Heq | Hne].
  - intros [= <-]. exists e. split; [reflexivity | exact Heq].
  - destruct (find_name n L) as [j |] eqn:Hj; simpl; [| discriminate].
    intros [= <-]. destruct (IH j eq_refl) as (e' & Hl & Hn). exists e'. auto.
Qed.

Lemma find_name_None n L : find_name n L = None <-> n ∉ name <$> L.
Proof.
  induction L as [| e L IH]; simpl.
  - split; [intros _; apply not_elem_of_nil | reflexivity].
  - rewrite not_elem_of_cons. destruct (String.eqb_spec (name e) n) as [Heq | Hne].
    + split; [discriminate | intros [Hn _]; congruence].
    + destruct (find_name n L); simpl.
      * split; [discriminate |]. intros [_ Hn]. apply IH in Hn. discriminate.
      * split; [| reflexivity]. intros _. split; [congruence | apply IH; reflexivity].
Qed.

Lemma find_match_entries suf : forall pre e,
  find_match (list_value (pre ++ suf)) (entry_value e) (seq (length pre) (length suf))
  = Ok ((fun i => length pre + i)%nat <$> find_name (name e) suf).
Proof.
  induction suf as [| a suf IH]; intros pre e; [reflexivity |].
  cbn [length seq find_match].
  rewrite (getitem_list_value _ _ a) by apply list_lookup_middle, eq_refl.
  cbn [rbind]. rewrite !entry_name. cbn [rbind Py.eq find_name].
  destruct (String.eqb (name a) (name e)).
  - cbn. do 2 f_equal. lia.
  - specialize (IH (pre ++ [a]) e).
    rewrite <- app_assoc, length_app in IH. cbn [app length] in IH.
    replace (length pre + 1)%nat with (S (length pre)) in IH by lia.
    rewrite IH. destruct (find_name (name e) suf); cbn; [| reflexivity].
    do 2 f_equal. lia.
Qed.

Lemma merge_container_md_entries L e :
  merge_container_md (list_value L) (entry_value e) = Ok (list_value (merged L e)).
Proof.
  destruct L as [| a L]; [reflexivity |].
  unfold merge_container_md.
  change (Py.truthy (list_value (a :: L))) with true. cbn [negb].
  change (Py.len (list_value (a :: L))) with (Ok (length (entry_value <$> a :: L))).
  cbn [rbind]. rewrite length_fmap.
  pose proof (find_match_entries (a :: L) [] e) as Hm.
  cbn [app length] in Hm. cbn [length]. rewrite Hm. clear Hm. cbn [rbind plus].
  unfold merged. destruct (find_name (name e) (a :: L)) as [i |] eqn:Hfind; cbn [fmap option_fmap option_map].
  - destruct (find_name_Some _ _ _ Hfind) as (e' & Hl & _).
    rewrite (getitem_list_value _ _ e' Hl). cbn [rbind].
    rewrite entry_has_no_files. reflexivity.
  - unfold list_value. cbn [Py.append]. now rewrite fmap_app.
Qed.

(** An entry whose name is in the list leaves the list as it is, whatever
    files it brings. *)
Lemma merge_same_name_unchanged L e :
  name e ∈ name <$> L ->
  merge_container_md (list_value L) (entry_value e) = Ok (list_value L).
Proof.
  intros Hin. rewrite merge_container_md_entries. unfold merged.
  destruct L as [| a L]; [now apply elem_of_nil in Hin |].
  destruct (find_name (name e) (a :: L)) eqn:Hfind; [reflexivity |].
  now apply find_name_None in Hfind.
Qed.

Lemma find_name_merged L e : exists i, find_name (name e) (merged L e) = Some i.
Proof.
  destruct (find_name (name e) (merged L e)) as [i |] eqn:Hm; [eauto |].
  exfalso. apply find_name_None in Hm. apply Hm. clear Hm.
  unfold merged. destruct L as [| a L]; [apply elem_of_cons; left; reflexivity |].
  destruct (find_name (name e) (a :: L)) as [i |] eqn:Hfind.
  - destruct (find_name_Some _ _ _ Hfind) as (e' & Hl & <-).
    apply list_elem_of_fmap_2. eapply list_elem_of_lookup_2, Hl.
  - rewrite fmap_app. apply elem_of_app. right. apply elem_of_cons; left; reflexivity.
Qed.

Lemma merged_again L e : merged (merged L e) e = merged L e.
Proof.
  destruct (find_name_merged L e) as [i Hi].
  unfold merged at 1. rewrite Hi.
  destruct (merged L e); [discriminate | reflexivity].
Qed.

Lemma merged_invariant L e :
  container_invariant L -> unique_paths e -> container_invariant (merged L e).
Proof.
  intros [Hnames Hpaths] He. unfold merged. destruct L as [| a L].
  - split.
    + cbn. apply NoDup_singleton.
    + apply Forall_singleton. exact He.
  - destruct (find_name (name e) (a :: L)) eqn:Hfind; [split; assumption |].
    apply find_name_None in Hfind. split.
    + rewrite fmap_app. apply NoDup_app. split; [exact Hnames |]. split.
      * intros x Hx Hin. cbn in Hin. apply list_elem_of_singleton in Hin. subst x. auto.
      * cbn. apply NoDup_singleton.
    + apply Forall_app. split; [exact Hpaths |]. apply Forall_singleton. exact He.
Qed.

(** Under the key ['files'] the two loops compute the union by path. *)
Lemma file_match_found_records (f : FileRecord) (ws : list FileRecord) :
  file_match_found (file_value f) (file_value <$> ws)
  = Ok (existsb (fun w => String.eqb (path f) (path w)) ws).
Proof.
  induction ws as [| w ws IH]; [reflexivity |].
  cbn [fmap list_fmap file_match_found existsb].
  change (Py.getitem (file_value f) (VStr "path")) with (Ok (VStr (path f))).
  change (Py.getitem (file_value w) (VStr "path")) with (Ok (VStr (path w))).
  cbn [rbind Py.eq]. destruct (String.eqb (path f) (path w)); [reflexivity | exact IH].
Qed.

Lemma merge_files_union (ns : list FileRecord) : forall (d : list (string * value)) ws,
  Py.assoc_get "files" d = Some (VList (file_value <$> ws)) ->
  merge_files (VDict d) (file_value <$> ns)
  = Ok (VDict (Py.assoc_set "files" (VList (file_value <$> union_by_path ws ns)) d)).
Proof.
  induction ns as [| n ns IH]; intros d ws Hget.
  - cbn. now rewrite assoc_set_same.
  - cbn [fmap list_fmap merge_files union_by_path Py.getitem]. rewrite Hget.
    cbn [rbind Py.iter]. rewrite file_match_found_records. cbn [rbind].
    destruct (existsb (fun w => String.eqb (path n) (path w)) ws).
    + now apply IH.
    + cbn [Py.append rbind Py.setitem].
      replace ((file_value <$> ws) ++ [file_value n]) with (file_value <$> (ws ++ [n]))
        by now rewrite fmap_app.
      rewrite (IH _ (ws ++ [n])).
      * now rewrite assoc_set_set.
      * now rewrite assoc_get_set, String.eqb_refl.
Qed.

#[local] Instance file_value_inj : Inj (=) (=) file_value.
Proof. intros f g. destruct f, g. cbn. intros [= -> -> -> -> -> -> ->]. reflexivity. Qed.

#[local] Instance entry_value_inj : Inj (=) (=) entry_value.
Proof.
  intros [n d fs] [n' d' fs']. unfold entry_value. cbn [name data file].
  intros Heq.
  assert (Hn : VStr n = VStr n') by congruence.
  assert (Hd : d = d') by congruence.
  assert (Hfs : file_value <$> fs = file_value <$> fs') by congruence.
  injection Hn as ->. subst d'. apply (inj _) in Hfs as ->. reflexivity.
Qed.

Lemma list_value_inj L L' : list_value L = list_value L' -> L = L'.
Proof.
  unfold list_value. intros Heq.
  assert (H : entry_value <$> L = entry_value <$> L') by congruence.
  now apply (inj _) in H.
Qed.

Lemma count_files_list_value L : count_files (list_value L) = Ok (total_files L).
Proof.
  unfold count_files, list_value. cbn [Py.iter rbind]. unfold total_files.
  induction L as [| e L IH]; [reflexivity |].
  cbn [fmap list_fmap count_files_of sum_list]. rewrite IH.
  unfold file_count. cbn. now rewrite length_fmap.
Qed.

End MergeFacts.

(** [prepare_container_md] builds the dictionary of an entry. *)
Section Prepared.
Variable path_exists : string -> bool.
Variable transformer_name transformer_version : string.
Variable utcnow : nat -> string.

Lemma prepare_files_records plot_name sensor source_file result_files : forall i,
  prepare_files path_exists transformer_name transformer_version utcnow
    plot_name sensor source_file result_files i
  = file_value <$> prepared_records path_exists transformer_name transformer_version utcnow
                     plot_name sensor source_file result_files i.
Proof.
  induction result_files as [| one_file rest IH]; intros i; [reflexivity |].
  cbn [prepare_files prepared_records]. destruct (path_exists one_file).
  - rewrite IH. reflexivity.
  - apply IH.
Qed.

Lemma prepare_container_md_entry plot_name plot_md sensor source_file result_files :
  prepare_container_md path_exists transformer_name transformer_version utcnow
    plot_name plot_md sensor source_file result_files
  = entry_value {| name := plot_name; data := plot_md;
                   file := prepared_records path_exists transformer_name transformer_version
                             utcnow plot_name sensor source_file result_files 0 |}.
Proof.
  unfold prepare_container_md, entry_value. cbn [name data file].
  now rewrite prepare_files_records.
Qed.

End Prepared.

(** C1 (the code departs from it).  Two entries of the same name with
    disjoint file paths should merge into one entry with both files.  The
    merge reads and writes the key ['files'], the entries carry their records
    under ['file']: merging the entry of [b.tif] into the list that holds the
    entry of [a.tif] returns that list as it was, one entry with one file. *)
Theorem merge_same_name_drops_files :
  merge_container_md (VList []) TwoFiles.first = Ok (VList [TwoFiles.first]) /\
  merge_container_md (VList [TwoFiles.first]) TwoFiles.second = Ok (VList [TwoFiles.first]) /\
  file_count TwoFiles.first = Ok 1%nat /\
  file_count TwoFiles.second = Ok 1%nat.
Proof. repeat split; reflexivity. Qed.

(** C7.  Merging an entry into a list and merging it again: the second
    merge returns the list the first one returned, so the number of
    FileRecords over all entries is the same. *)
Theorem merge_twice_same_file_count (L : list ContainerMetadataEntry) (e : ContainerMetadataEntry) :
  exists (once twice : value) (n : nat),
    merge_container_md (list_value L) (entry_value e) = Ok once /\
    merge_container_md once (entry_value e) = Ok twice /\
    count_files once = Ok n /\
    count_files twice = Ok n /\
    twice = once.
Proof.
  exists (list_value (merged L e)), (list_value (merged L e)), (total_files (merged L e)).
  rewrite !merge_container_md_entries, merged_again, count_files_list_value. auto.
Qed.

(** C8.  A list without two entries of one name and without two
    FileRecords of one path in an entry is merged, with an entry whose own
    paths differ from each other, into a list of that kind. *)
Theorem merge_keeps_invariant (L : list ContainerMetadataEntry) (e : ContainerMetadataEntry) :
  container_invariant L ->
  unique_paths e ->
  exists L', merge_container_md (list_value L) (entry_value e) = Ok (list_value L') /\
             container_invariant L'.
Proof.
  intros HL He. exists (merged L e). split.
  - apply merge_container_md_entries.
  - apply merged_invariant; assumption.
Qed.

Lemma merge_keeps_invariant_witness :
  exists L', merge_container_md (list_value InvariantExample.held)
               (entry_value InvariantExample.incoming) = Ok (list_value L') /\
             container_invariant L'.
Proof.
  apply (merge_keeps_invariant InvariantExample.held InvariantExample.incoming).
  - split.
    + apply (bool_decide_unpack _). vm_compute. exact I.
    + apply Forall_singleton. unfold unique_paths.
      apply (bool_decide_unpack _). vm_compute. exact I.
  - unfold unique_paths. apply (bool_decide_unpack _). vm_compute. exact I.
Defined.

(** ** Cleaning the request metadata *)

Section CleanupFacts.
Implicit Types (d : list (string * value)) (st : store) (k : string).

Lemma pop_last st d k : pop (length st) k (st ++ [d]) = st ++ [Py.assoc_pop k d].
Proof.
  unfold pop. rewrite alter_app_r_alt by lia. now rewrite Nat.sub_diag.
Qed.

Lemma cleaned_lookup k d :
  NoDup (Py.keys d) ->
  Py.assoc_get k (cleaned d)
  = if bool_decide (k ∈ ["list_files"; "context_md"; "working_folder"])
    then None else Py.assoc_get k d.
Proof.
  intros Hnd. unfold cleaned. case_bool_decide as Hk.
  - rewrite !elem_of_cons in Hk. destruct Hk as [-> | [-> | [-> | Hk]]].
    + rewrite !assoc_get_pop_ne by discriminate. now apply assoc_get_pop_eq.
    + rewrite assoc_get_pop_ne by discriminate.
      apply assoc_get_pop_eq. now apply NoDup_keys_pop.
    + apply assoc_get_pop_eq. now do 2 apply NoDup_keys_pop.
    + now apply elem_of_nil in Hk.
  - rewrite !not_elem_of_cons in Hk. destruct Hk as (H1 & H2 & H3 & _).
    now rewrite !assoc_get_pop_ne by assumption.
Qed.

Lemma cleanup_request_md_run st r d :
  st !! r = Some d ->
  cleanup_request_md (Some r) st = Some (length st, st ++ [cleaned d]).
Proof.
  intros Hr. unfold cleanup_request_md, deepcopy, alloc. rewrite Hr.
  destruct d as [| kv d]; [reflexivity |].
  cbn [Py.truthy negb]. rewrite !pop_last. reflexivity.
Qed.

End CleanupFacts.

(** C10.  The result names a new dictionary of the store; it has every
    key of the source but ['list_files'], ['context_md'] and
    ['working_folder'], with the value the source has; every dictionary that
    was in the store, the source among them, is as it was; and an empty or
    absent source gives the empty dictionary. *)
Theorem cleanup_request_md_copy (st : store) (source_md : option nat) (d : list (string * value)) :
  source_dict source_md st = Some d ->
  NoDup (Py.keys d) ->
  exists new_md st' d',
    cleanup_request_md source_md st = Some (new_md, st') /\
    st !! new_md = None /\
    st' !! new_md = Some d' /\
    (forall k, Py.assoc_get k d'
               = if bool_decide (k ∈ ["list_files"; "context_md"; "working_folder"])
                 then None else Py.assoc_get k d) /\
    (forall r x, st !! r = Some x -> st' !! r = Some x) /\
    (d = [] -> d' = []).
Proof.
  intros Hsrc Hnd.
  assert (Hrun : cleanup_request_md source_md st = Some (length st, st ++ [cleaned d])).
  { destruct source_md as [r |]; cbn in Hsrc.
    - now apply cleanup_request_md_run.
    - injection Hsrc as <-. reflexivity. }
  exists (length st), (st ++ [cleaned d]), (cleaned d). repeat split.
  - exact Hrun.
  - apply lookup_ge_None. lia.
  - apply list_lookup_middle. reflexivity.
  - intros k. now apply cleaned_lookup.
  - intros r x Hr. rewrite lookup_app_l; [exact Hr |]. now apply lookup_lt_Some in Hr.
  - intros ->. reflexivity.
Qed.

Lemma cleanup_request_md_copy_witness :
  exists new_md st' d',
    cleanup_request_md (Some 0%nat) CleanupExample.before = Some (new_md, st') /\
    CleanupExample.before !! new_md = None /\
    st' !! new_md = Some d' /\
    (forall k, Py.assoc_get k d'
               = if bool_decide (k ∈ ["list_files"; "context_md"; "working_folder"])
                 then None else Py.assoc_get k CleanupExample.check_md) /\
    (forall r x, CleanupExample.before !! r = Some x -> st' !! r = Some x) /\
    (CleanupExample.check_md = [] -> d' = []).
Proof.
  apply (cleanup_request_md_copy CleanupExample.before (Some 0%nat) CleanupExample.check_md).
  - reflexivity.
  - apply (bool_decide_unpack _). vm_compute. exact I.
Defined.

Example cleanup_request_md_run_example :
  cleanup_request_md (Some 0%nat) CleanupExample.before
  = Some (1%nat, [CleanupExample.check_md;
                  [("timestamp", VStr "2021-06-01");
                   ("experiment", VDict [("name", VStr "trial")])]]).
Proof. reflexivity. Qed.

(** ** Traces *)

Section TracedFacts.
Context {E : Engine}.

Lemma tbind_fst {A B} (m : traced A) (k : A -> traced B) :
  fst (tbind m k) = match fst m with Ok a => fst (k a) | Raise ex => Raise ex end.
Proof. destruct m as [[a | ex] t]; cbn; [destruct (k a) |]; reflexivity. Qed.

Lemma tbind_snd {A B} (m : traced A) (k : A -> traced B) :
  snd (tbind m k) = snd m ++ match fst m with Ok a => snd (k a) | Raise _ => [] end.
Proof.
  destruct m as [[a | ex] t]; cbn; [destruct (k a); reflexivity | now rewrite app_nil_r].
Qed.

End TracedFacts.

(** ** The overlap fraction *)

Section OverlapFacts.
Context {E : Engine}.
Implicit Types (check other file_bounds plot_geom plot_bounds : Geometry).

Lemma overlap_raises_caught check other ex :
  overlap_raises check other ex ->
  exists t, calculate_overlap_percent (Some check) (Some other)
            = (Ok 0%float, t ++ [Logged WARNING overlap_warning]).
Proof.
  unfold calculate_overlap_percent, overlap_try, call, lift, log, ret, truediv.
  intros [ex' Hi | i ex' Hi Hai | i a ex' Hi Hai Hac | i a b Hi Hai Hac Hb].
  - exists [Intersected other check]. cbn. rewrite Hi. reflexivity.
  - exists [Intersected other check; Measured i]. cbn. rewrite Hi, Hai. reflexivity.
  - exists [Intersected other check; Measured i; Measured check].
    cbn. rewrite Hi, Hai, Hac. reflexivity.
  - exists [Intersected other check; Measured i; Measured check].
    cbn. rewrite Hi, Hai, Hac, Hb. reflexivity.
Qed.

(** These are the exceptions of the body of the [try], and all of them. *)
Lemma overlap_try_raises check other ex :
  fst (overlap_try (Some check) (Some other)) = Raise ex <-> overlap_raises check other ex.
Proof.
  unfold overlap_try, call, lift, ret, truediv. split.
  - rewrite tbind_fst. cbn [fst].
    destruct (Intersection other check) as [[i |] | ex0] eqn:Hi;
      [| discriminate | intros [= <-]; now apply raises_in_intersection].
    rewrite tbind_fst. cbn [fst].
    destruct (Area i) as [a | ex0] eqn:Hai;
      [| intros [= <-]; now apply (raises_in_intersection_area _ _ i)].
    rewrite tbind_fst. cbn [fst].
    destruct (Area check) as [b | ex0] eqn:Hac;
      [| intros [= <-]; now apply (raises_in_check_area _ _ i a)].
    rewrite tbind_fst. cbn [fst].
    destruct (PrimFloat.eqb b 0) eqn:Hb; [| discriminate].
    intros [= <-]. now apply (raises_in_division _ _ i a b).
  - intros [ex' Hi | i ex' Hi Hai | i a ex' Hi Hai Hac | i a b Hi Hai Hac Hb];
      cbn; rewrite Hi; cbn; rewrite ?Hai; cbn; rewrite ?Hac; cbn; rewrite ?Hb; reflexivity.
Qed.

(** The function returns whatever the engine does. *)
Lemma calculate_overlap_percent_returns (check_bounds other_bounds : option Geometry) :
  exists q t, calculate_overlap_percent check_bounds other_bounds = (Ok q, t).
Proof.
  unfold calculate_overlap_percent, overlap_try, call, lift, log, ret, truediv.
  destruct check_bounds as [check |], other_bounds as [other |]; cbn; eauto.
  destruct (Intersection other check) as [[i |] | ex]; cbn; eauto.
  destruct (Area i) as [a | ex]; cbn; eauto.
  destruct (Area check) as [b | ex]; cbn; eauto.
  destruct (PrimFloat.eqb b 0); cbn; eauto.
Qed.

(** The ratio, when nothing fails. *)
Lemma calculate_overlap_percent_ratio check other i a b :
  Intersection other check = Ok (Some i) ->
  Area i = Ok a ->
  Area check = Ok b ->
  PrimFloat.eqb b 0%float = false ->
  calculate_overlap_percent (Some check) (Some other)
  = (Ok (PrimFloat.div a b), [Intersected other check; Measured i; Measured check]).
Proof.
  intros Hi Hai Hac Hb.
  unfold calculate_overlap_percent, overlap_try, call, lift, log, ret, truediv.
  cbn. rewrite Hi, Hai, Hac, Hb. reflexivity.
Qed.

(** One pass of the loop over the plots of a file. *)
Lemma perform_process_plots_pass file_bounds plot_name plot_geom plot_bounds rest q t :
  convert_geometry plot_geom (GetSpatialReference file_bounds) = Ok plot_bounds ->
  calculate_overlap_percent (Some plot_bounds) (Some file_bounds) = (Ok q, t) ->
  perform_process_plots file_bounds ((plot_name, plot_geom) :: rest)
  = let after := perform_process_plots file_bounds rest in
    let converted := Converted plot_geom (GetSpatialReference file_bounds) in
    if PrimFloat.ltb q overlap_threshold
    then (fst after, converted :: t ++ Logged INFO skip_message :: snd after)
    else (match fst after with
          | Ok clipped => Ok ((plot_name, plot_bounds) :: clipped)
          | Raise ex => Raise ex
          end, converted :: t ++ snd after).
Proof.
  intros Hconv Hcalc. cbn [perform_process_plots]. unfold call. rewrite Hconv.
  unfold tbind at 1. unfold tbind at 1. rewrite Hcalc.
  destruct (PrimFloat.ltb q overlap_threshold).
  - unfold log, tbind. destruct (perform_process_plots file_bounds rest) as [[clipped | ex] t'];
      cbn; now rewrite ?app_nil_r, <- ?app_assoc.
  - unfold ret, tbind. destruct (perform_process_plots file_bounds rest) as [[clipped | ex] t'];
      cbn; now rewrite ?app_nil_r, <- ?app_assoc.
Qed.

End OverlapFacts.

(** C9.  With either geometry absent the result is 0.0, and nothing
    happened on the way: no call into the engine, no log record, no
    exception. *)
Theorem calculate_overlap_percent_absent {E : Engine} (check_bounds other_bounds : option Geometry) :
  check_bounds = None \/ other_bounds = None ->
  calculate_overlap_percent check_bounds other_bounds = (Ok 0%float, []).
Proof.
  intros [-> | ->]; [| destruct check_bounds]; reflexivity.
Qed.

Lemma calculate_overlap_percent_absent_witness :
  calculate_overlap_percent (E := Boxes.engine) None (Some (Boxes.mk 4326 0 0 1 10))
  = (Ok 0%float, []).
Proof.
  apply (calculate_overlap_percent_absent (E := Boxes.engine) None (Some (Boxes.mk 4326 0 0 1 10))).
  left. reflexivity.
Defined.

(** C4.  An exception of the intersection, of an area or of the division
    is caught: the function logs a warning and returns 0.0.  In the loop of
    [perform_process] the plot is then skipped, and the loop goes on with
    the plots that follow as it would without this one. *)
Theorem overlap_exception_is_caught {E : Engine} (check_bounds other_bounds : Geometry) (ex : exn) :
  overlap_raises check_bounds other_bounds ex ->
  exists t,
    calculate_overlap_percent (Some check_bounds) (Some other_bounds)
    = (Ok 0%float, t ++ [Logged WARNING overlap_warning]) /\
    forall (plot_name : string) (plot_geom : Geometry) (rest : list (string * Geometry)),
      convert_geometry plot_geom (GetSpatialReference other_bounds) = Ok check_bounds ->
      perform_process_plots other_bounds ((plot_name, plot_geom) :: rest)
      = (fst (perform_process_plots other_bounds rest),
         Converted plot_geom (GetSpatialReference other_bounds)
           :: (t ++ [Logged WARNING overlap_warning])
           ++ Logged INFO skip_message :: snd (perform_process_plots other_bounds rest)).
Proof.
  intros Hraise. destruct (overlap_raises_caught _ _ _ Hraise) as [t Ht].
  exists t. split; [exact Ht |].
  intros plot_name plot_geom rest Hconv.
  rewrite (perform_process_plots_pass _ _ _ _ _ _ _ Hconv Ht). reflexivity.
Qed.

Lemma overlap_exception_is_caught_witness :
  exists t,
    calculate_overlap_percent (E := Boxes.engine)
      (Some OverlapExample.bad) (Some OverlapExample.file_bounds)
    = (Ok 0%float, t ++ [Logged WARNING overlap_warning]) /\
    forall (plot_name : string) (plot_geom : Geometry) (rest : list (string * Geometry)),
      convert_geometry plot_geom (GetSpatialReference OverlapExample.file_bounds)
      = Ok OverlapExample.bad ->
      perform_process_plots OverlapExample.file_bounds ((plot_name, plot_geom) :: rest)
      = (fst (perform_process_plots OverlapExample.file_bounds rest),
         Converted plot_geom (GetSpatialReference OverlapExample.file_bounds)
           :: (t ++ [Logged WARNING overlap_warning])
           ++ Logged INFO skip_message
           :: snd (perform_process_plots OverlapExample.file_bounds rest)).
Proof.
  apply (overlap_exception_is_caught (E := Boxes.engine)
           OverlapExample.bad OverlapExample.file_bounds (RuntimeError "TopologyException")).
  apply raises_in_intersection. reflexivity.
Defined.

Example batch_goes_on :
  fst (perform_process_plots (E := Boxes.engine) OverlapExample.file_bounds
         (("plot 1", OverlapExample.bad) :: OverlapExample.others))
  = Ok [("plot 2", OverlapExample.tenth_converted)].
Proof. reflexivity. Qed.

(** C5.  For a plot that intersects the file, the overlap fraction is the
    area of the intersection of the file bounds with the plot bounds (the
    plot geometry brought into the reference of the file) over the area of
    the plot bounds.  A fraction that is not below 0.10, and so one of
    exactly 0.10, keeps the plot; a fraction below 0.10 skips it, with a
    record in the log and without an error. *)
Theorem overlap_fraction_threshold {E : Engine}
    (file_bounds plot_geom plot_bounds i : Geometry) (plot_name : string)
    (rest clipped : list (string * Geometry)) (t' : list event) (a b : float) :
  convert_geometry plot_geom (GetSpatialReference file_bounds) = Ok plot_bounds ->
  Intersection file_bounds plot_bounds = Ok (Some i) ->
  Area i = Ok a ->
  Area plot_bounds = Ok b ->
  PrimFloat.eqb b 0%float = false ->
  perform_process_plots file_bounds rest = (Ok clipped, t') ->
  let calls := [Converted plot_geom (GetSpatialReference file_bounds);
                Intersected file_bounds plot_bounds; Measured i; Measured plot_bounds] in
  fst (calculate_overlap_percent (Some plot_bounds) (Some file_bounds)) = Ok (PrimFloat.div a b) /\
  (PrimFloat.ltb (PrimFloat.div a b) 0.10%float = false ->
   perform_process_plots file_bounds ((plot_name, plot_geom) :: rest)
   = (Ok ((plot_name, plot_bounds) :: clipped), calls ++ t')) /\
  (PrimFloat.div a b = 0.10%float ->
   perform_process_plots file_bounds ((plot_name, plot_geom) :: rest)
   = (Ok ((plot_name, plot_bounds) :: clipped), calls ++ t')) /\
  (PrimFloat.ltb (PrimFloat.div a b) 0.10%float = true ->
   perform_process_plots file_bounds ((plot_name, plot_geom) :: rest)
   = (Ok clipped, calls ++ Logged INFO skip_message :: t')).
Proof.
  intros Hconv Hi Hai Hab Hb Hrest calls.
  pose proof (calculate_overlap_percent_ratio _ _ _ _ _ Hi Hai Hab Hb) as Hcalc.
  pose proof (perform_process_plots_pass _ plot_name _ _ rest _ _ Hconv Hcalc) as Hpass.
  rewrite Hrest in Hpass. cbn [fst snd] in Hpass.
  assert (Hkeep : PrimFloat.ltb (PrimFloat.div a b) 0.10%float = false ->
            perform_process_plots file_bounds ((plot_name, plot_geom) :: rest)
            = (Ok ((plot_name, plot_bounds) :: clipped), calls ++ t')).
  { intros Hlt. rewrite Hpass. unfold overlap_threshold. rewrite Hlt. reflexivity. }
  split; [now rewrite Hcalc |]. split; [exact Hkeep |]. split.
  - intros Heq. apply Hkeep. rewrite Heq. reflexivity.
  - intros Hlt. rewrite Hpass. unfold overlap_threshold. rewrite Hlt. reflexivity.
Qed.

Lemma overlap_fraction_threshold_witness :
  let calls := [Converted (E := Boxes.engine) OverlapExample.tenth (Some 4326);
                Intersected OverlapExample.file_bounds OverlapExample.tenth_converted;
                Measured OverlapExample.file_bounds;
                Measured OverlapExample.tenth_converted] in
  fst (calculate_overlap_percent (E := Boxes.engine)
         (Some OverlapExample.tenth_converted) (Some OverlapExample.file_bounds))
  = Ok (PrimFloat.div 10 100) /\
  (PrimFloat.ltb (PrimFloat.div 10 100) 0.10%float = false ->
   perform_process_plots OverlapExample.file_bounds [("plot 1", OverlapExample.tenth)]
   = (Ok [("plot 1", OverlapExample.tenth_converted)], calls ++ [])) /\
  (PrimFloat.div 10 100 = 0.10%float ->
   perform_process_plots OverlapExample.file_bounds [("plot 1", OverlapExample.tenth)]
   = (Ok [("plot 1", OverlapExample.tenth_converted)], calls ++ [])) /\
  (PrimFloat.ltb (PrimFloat.div 10 100) 0.10%float = true ->
   perform_process_plots OverlapExample.file_bounds [("plot 1", OverlapExample.tenth)]
   = (Ok [], calls ++ [Logged INFO skip_message])).
Proof.
  apply (overlap_fraction_threshold (E := Boxes.engine)
           OverlapExample.file_bounds OverlapExample.tenth OverlapExample.tenth_converted
           OverlapExample.file_bounds "plot 1" [] [] [] 10%float 100%float);
    reflexivity.
Defined.

Example tenth_is_kept :
  PrimFloat.div 10 100 = 0.10%float /\
  fst (perform_process_plots (E := Boxes.engine) OverlapExample.file_bounds
         [("plot 1", OverlapExample.tenth)])
  = Ok [("plot 1", OverlapExample.tenth_converted)].
Proof. split; reflexivity. Qed.

Example below_tenth_is_skipped :
  perform_process_plots (E := Boxes.engine) OverlapExample.file_bounds
    [("plot 3", Boxes.mk 4326 0 0 11 10)]
  = (Ok [],
     [Converted (Boxes.mk 4326 0 0 11 10) (Some 4326);
      Intersected OverlapExample.file_bounds (Boxes.mk 4326 0 0 11 10);
      Measured OverlapExample.file_bounds;
      Measured (Boxes.mk 4326 0 0 11 10);
      Logged INFO skip_message]).
Proof. reflexivity. Qed.

(** ** Plot names *)

Section NameFacts.
Context {E : Engine}.

(** A feature with properties in which no key is found stops the load. *)
Lemma feature_key_name_no_key (one_feature properties plot_key : value) (feature_idx : nat) :
  Py.contains (VStr "properties") one_feature = Ok true ->
  Py.getitem one_feature (VStr "properties") = Ok properties ->
  get_plot_key_name properties plot_key = Ok None ->
  feature_key_name one_feature plot_key feature_idx = Raise TypeError.
Proof.
  intros Hhas Hget Hnone. unfold feature_key_name.
  rewrite Hhas. cbn [rbind]. rewrite Hget. cbn [rbind]. rewrite Hnone. reflexivity.
Qed.

(** The default name is what a feature without the key gets. *)
Lemma feature_key_name_bare (plot_key : value) (feature_idx : nat) :
  feature_key_name CatalogExample.bare_feature plot_key feature_idx
  = Ok (plot_key, VStr ("Plot " ++ Py.str_of_nat feature_idx)%string).
Proof. reflexivity. Qed.

End NameFacts.

(** C2 (the code departs from it).  In the empty properties of the first
    feature the heuristic finds no key and returns [None]; the loader
    unpacks that result into two variables, which raises [TypeError], where
    the name ["Plot 1"] should have been given: the load does not complete,
    whatever the engine. *)
Theorem load_plot_file_empty_properties {E : Engine} :
  get_plot_key_name (VDict []) VNone = Ok None /\
  load_plot_file CatalogExample.document VNone
  = match ImportFromEPSG 4326 with
    | Some _ => Raise TypeError
    | None => Raise (RuntimeError "Unable to load CRS for file")
    end.
Proof.
  split; [reflexivity |].
  unfold load_plot_file, get_geojson_file_sr. cbn.
  destruct (ImportFromEPSG 4326); reflexivity.
Qed.

(** ** Named reference systems *)

Section CrsFacts.
Context {E : Engine}.

Lemma name_clause_named nm : named_clause (name_clause nm) nm.
Proof. do 2 eexists. repeat split. Qed.

(** The last step of the resolution, from [sr_type] and [sr_def] on. *)
Lemma get_sr_from_crs_named crs nm :
  named_clause crs nm ->
  get_sr_from_crs crs
  = match Py.split1 ":" (Py.drop_str 16 nm) with
    | [sr_type; sr_def] =>
        if String.eqb (Py.lower sr_type) "epsg" then
          code <- Py.int_of_string (Py.strip ":" sr_def) ;;
          match ImportFromEPSG code with
          | Some return_sr => Ok return_sr
          | None => Raise (RuntimeError "Unable to load EPSG code from GeoJSON crs")
          end
        else if String.eqb (Py.lower sr_type) "ogc" then
          match ImportFromEPSG 4326 with
          | Some return_sr => Ok return_sr
          | None => Raise (RuntimeError "Unable to load default OGC from GeoJSON crs")
          end
        else Raise (RuntimeError "Spatial reference type is currently not supported")
    | _ => Raise ValueError
    end.
Proof.
  intros (d & p & -> & Htype & Hprops & Hname).
  unfold get_sr_from_crs, crs_type_and_def, lacks_property.
  cbn [Py.contains Py.getitem]. unfold Py.assoc_mem.
  rewrite Htype. cbn [negb rbind]. rewrite Hprops. cbn [negb rbind Py.eq Py.contains Py.getitem].
  unfold Py.assoc_mem. rewrite Hname.
  cbn -[Py.drop_str Py.split1 Py.lower Py.strip Py.int_of_string String.eqb].
  destruct (Py.split1 ":" (Py.drop_str 16 nm)) as [| sr_type [| sr_def [| x rest]]]; reflexivity.
Qed.

Lemma drop_str_app (skipped rest : string) :
  Py.drop_str (String.length skipped) (skipped ++ rest)%string = rest.
Proof. induction skipped as [| c skipped IH]; [reflexivity | exact IH]. Qed.

Lemma drop_str_short (n : nat) (s : string) :
  (String.length s <= n)%nat -> Py.drop_str n s = EmptyString.
Proof.
  revert n. induction s as [| c s IH]; intros [| n] Hn; try reflexivity.
  - cbn in Hn. lia.
  - cbn in *. apply IH. lia.
Qed.

Lemma split_once_app (auth rest : string) :
  Py.split_once ":" auth = None ->
  Py.split_once ":" (auth ++ String ":" rest)%string = Some (auth, rest).
Proof.
  induction auth as [| c auth IH]; [reflexivity |].
  change (String c auth ++ String ":" rest)%string
    with (String c (auth ++ String ":" rest)%string).
  cbn [Py.split_once].
  destruct (Ascii.eqb c ":"); [discriminate |].
  destruct (Py.split_once ":" auth) as [[x y] |]; [discriminate |].
  intros _. now rewrite IH.
Qed.

(** An authority that reads [epsg] in lower case holds no colon. *)
Lemma lower_epsg_no_colon (auth : string) :
  Py.lower auth = "epsg" -> Py.split_once ":" auth = None.
Proof.
  destruct auth as [| c1 [| c2 [| c3 [| c4 [| c5 auth]]]]]; cbn [Py.lower]; try discriminate.
  intros [= H1 H2 H3 H4]. cbn [Py.split_once].
  destruct (Ascii.eqb_spec c1 ":") as [-> | _]; [discriminate |].
  destruct (Ascii.eqb_spec c2 ":") as [-> | _]; [discriminate |].
  destruct (Ascii.eqb_spec c3 ":") as [-> | _]; [discriminate |].
  destruct (Ascii.eqb_spec c4 ":") as [-> | _]; [discriminate |].
  reflexivity.
Qed.

End CrsFacts.

(** The parse of a name, as the code has it.  The first sixteen characters
    of the name are skipped, whatever they are.  When what follows is an
    authority that reads [epsg] in lower case, two colons (an empty version)
    and a code that [int()] reads once the colons at its ends are stripped,
    the result is the reference [ImportFromEPSG] gives for that number.  When
    nothing with a colon follows, as for every name of sixteen characters or
    less, unpacking the split raises [ValueError]. *)
Lemma get_sr_from_crs_name_parse {E : Engine} (crs : value) (nm : string) :
  named_clause crs nm ->
  (forall (skipped auth code_text : string) (code : Z),
      nm = (skipped ++ auth ++ "::" ++ code_text)%string ->
      String.length skipped = String.length ogc_crs_prefix ->
      Py.lower auth = "epsg" ->
      Py.int_of_string (Py.strip ":" code_text) = Ok code ->
      get_sr_from_crs crs
      = match ImportFromEPSG code with
        | Some return_sr => Ok return_sr
        | None => Raise (RuntimeError "Unable to load EPSG code from GeoJSON crs")
        end) /\
  (Py.split_once ":" (Py.drop_str (String.length ogc_crs_prefix) nm) = None ->
   get_sr_from_crs crs = Raise ValueError) /\
  ((String.length nm <= String.length ogc_crs_prefix)%nat ->
   get_sr_from_crs crs = Raise ValueError).
Proof.
  intros Hnamed. pose proof (get_sr_from_crs_named crs nm Hnamed) as Hrun.
  assert (Hnone : Py.split_once ":" (Py.drop_str 16 nm) = None ->
                  get_sr_from_crs crs = Raise ValueError).
  { intros Hsplit. rewrite Hrun. unfold Py.split1. rewrite Hsplit. reflexivity. }
  split; [| split].
  - intros skipped auth code_text code -> Hlen Hlower Hcode.
    pose proof (lower_epsg_no_colon auth Hlower) as Hauth.
    rewrite Hrun. change 16%nat with (String.length ogc_crs_prefix).
    rewrite <- Hlen, drop_str_app.
    change ("::" ++ code_text)%string with (String ":" (String ":" code_text)).
    unfold Py.split1. rewrite (split_once_app auth _ Hauth), Hlower.
    change (Py.strip ":" (String ":" code_text)) with (Py.strip ":" code_text).
    rewrite Hcode. reflexivity.
  - exact Hnone.
  - intros Hshort. apply Hnone. now rewrite drop_str_short.
Qed.

(** C3 (the code departs from it).  A name with the prefix, the
    authority [EPSG], a version and a code should resolve the code: the
    parse splits once, so that the version stays in front of the code, and
    [int()] raises [ValueError], whatever the engine knows.  A name without
    the prefix should be refused with the error the function documents, a
    [RuntimeError]: the prefix is never compared, a short name raises
    [ValueError] from the unpacking of the split, and a name whose first
    sixteen characters are anything at all resolves. *)
Theorem get_sr_from_crs_name_slips {E : Engine} :
  String.prefix ogc_crs_prefix CrsExample.versioned = true /\
  get_sr_from_crs (name_clause CrsExample.versioned) = Raise ValueError /\
  String.prefix ogc_crs_prefix CrsExample.bare_code = false /\
  get_sr_from_crs (name_clause CrsExample.bare_code) = Raise ValueError /\
  String.prefix ogc_crs_prefix CrsExample.no_prefix = false /\
  get_sr_from_crs (name_clause CrsExample.no_prefix)
  = match ImportFromEPSG 32612 with
    | Some return_sr => Ok return_sr
    | None => Raise (RuntimeError "Unable to load EPSG code from GeoJSON crs")
    end.
Proof.
  assert (Hparse : forall nm, get_sr_from_crs (name_clause nm)
            = match Py.split1 ":" (Py.drop_str 16 nm) with
              | [sr_type; sr_def] =>
                  if String.eqb (Py.lower sr_type) "epsg" then
                    code <- Py.int_of_string (Py.strip ":" sr_def) ;;
                    match ImportFromEPSG code with
                    | Some return_sr => Ok return_sr
                    | None => Raise (RuntimeError "Unable to load EPSG code from GeoJSON crs")
                    end
                  else if String.eqb (Py.lower sr_type) "ogc" then
                    match ImportFromEPSG 4326 with
                    | Some return_sr => Ok return_sr
                    | None => Raise (RuntimeError "Unable to load default OGC from GeoJSON crs")
                    end
                  else Raise (RuntimeError "Spatial reference type is currently not supported")
              | _ => Raise ValueError
              end).
  { intros nm. apply get_sr_from_crs_named, name_clause_named. }
  split_and!; try reflexivity; rewrite Hparse; reflexivity.
Qed.

(** On an engine that knows the codes: the name without the prefix
    resolves, and the name with a version does not resolve the code the
    engine knows. *)
Example crs_name_examples :
  get_sr_from_crs (E := Boxes.engine) (name_clause CrsExample.no_prefix) = Ok 32612 /\
  @ImportFromEPSG Boxes.engine 26986 = Some 26986 /\
  get_sr_from_crs (E := Boxes.engine) (name_clause CrsExample.versioned) = Raise ValueError.
Proof. repeat split; reflexivity. Qed.

Example crs_named_epsg :
  get_sr_from_crs (E := Boxes.engine) (name_clause CrsExample.utm12) = Ok 32612.
Proof. reflexivity. Qed.

Example crs_epsg_code :
  get_sr_from_crs (E := Boxes.engine)
    (VDict [("type", VStr "EPSG"); ("properties", VDict [("code", VStr "4326")])])
  = Ok 4326.
Proof. reflexivity. Qed.

Example crs_short_name :
  get_sr_from_crs (E := Boxes.engine) (name_clause "EPSG::32612") = Raise ValueError.
Proof. reflexivity. Qed.

(** ** Plots that intersect a file *)

Section MatcherFacts.
Context {E : Engine}.
Variable repr : value -> string.
Implicit Types (bounding_box g check : Geometry) (all_plots : list (value * Geometry))
  (acc : list (string * Geometry)).





(** On a GeoJSON object the test of the code answers whether the object
    has a coordinate. *)
Lemma has_coordinates_object (j : value) :
  geojson_object j -> has_coordinates j = Ok (has_a_coordinate j).
Proof.
  intros (d & -> & Harray). unfold has_coordinates, has_a_coordinate.
  cbn [Py.contains Py.getitem]. unfold Py.assoc_mem.
  destruct (Py.assoc_get "coordinates" d) as [c |] eqn:Hc; cbn [rbind]; [| reflexivity].
  destruct (Harray c eq_refl) as [l ->]. cbn [Py.len rbind].
  now destruct l.
Qed.

(** On a plot the engine answers on, the test of the loop is whether the
    plot is matched. *)
Lemma intersects_answers bounding_box g :
  answers bounding_box g ->
  exists check, tested_geometry bounding_box g = Ok check /\
                intersects bounding_box check = Ok (matched bounding_box g).
Proof.
  intros (check & intersection & Hcheck & Hint & Hjson).
  exists check. split; [exact Hcheck |].
  unfold intersects, matched. rewrite Hcheck, Hint. cbn [rbind].
  destruct intersection as [i |]; [| reflexivity].
  now apply has_coordinates_object, Hjson.
Qed.

(** One pass of the loop, when the engine does not fail on the plot. *)
Lemma find_plots_loop_pass bounding_box (plot_name : value) g
    (rest : list (value * Geometry)) acc check (b : bool) :
  tested_geometry bounding_box g = Ok check ->
  intersects bounding_box check = Ok b ->
  fst (find_plots_loop repr bounding_box (GetSpatialReference bounding_box)
         ((plot_name, g) :: rest) acc)
  = fst (find_plots_loop repr bounding_box (GetSpatialReference bounding_box) rest
           (if b then Py.assoc_set (Py.str repr plot_name) g acc else acc)).
Proof.
  unfold tested_geometry, intersects. intros Hcheck Hint.
  cbn [find_plots_loop]. rewrite tbind_fst, Hcheck, tbind_fst. unfold call. cbn [fst].
  destruct (Intersection bounding_box check) as [[i |] | ex]; cbn [rbind] in Hint.
  - rewrite tbind_fst. unfold lift. cbn [fst]. rewrite Hint. reflexivity.
  - injection Hint as <-. reflexivity.
  - discriminate.
Qed.




End MatcherFacts.



Example find_plots_run :
  find_plots_intersect_boundingbox MatcherExample.repr
    MatcherExample.bounding_box MatcherExample.all_plots
  = (Ok [("a", MatcherExample.plot_a); ("c", MatcherExample.plot_c)],
     [Intersected MatcherExample.bounding_box MatcherExample.plot_a;
      Converted MatcherExample.plot_b (Some 4326);
      Intersected MatcherExample.bounding_box (Boxes.mk 4326 20 20 30 30);
      Converted MatcherExample.plot_c (Some 4326);
      Intersected MatcherExample.bounding_box (Boxes.mk 4326 9 9 30 30)]).
Proof. reflexivity. Qed.


(** The test of the code on the objects an engine may export. *)
Example has_coordinates_examples :
  has_coordinates (VDict [("type", VStr "Polygon"); ("coordinates", VList [])]) = Ok false /\
  has_coordinates (VDict [("type", VStr "Point");
                          ("coordinates", VList [VInt 1; VInt 2])]) = Ok true /\
  has_coordinates (VDict [("type", VStr "GeometryCollection");
                          ("geometries", VList [])]) = Ok false.
Proof. repeat split; reflexivity. Qed.

(** Under the key the merge reads, ['files'], the union by path is what
    the loops compute. *)
Example merge_under_files_key :
  merge_container_md
    (VList [VDict [("name", VStr "plot 1");
                   ("files", VList [VDict [("path", VStr "a.tif")]])]])
    (VDict [("name", VStr "plot 1");
            ("files", VList [VDict [("path", VStr "a.tif")];
                             VDict [("path", VStr "b.tif")];
                             VDict [("path", VStr "b.tif")]])])
  = Ok (VList [VDict [("name", VStr "plot 1");
                      ("files", VList [VDict [("path", VStr "a.tif")];
                                       VDict [("path", VStr "b.tif")]])]]).
Proof. reflexivity. Qed.


(** ** Reference systems by authority *)

Section AuthorityFacts.
Context {E : Engine}.

Lemma get_sr_from_crs_coded crs T c :
  coded_clause crs T c ->
  T <> "name" ->
  get_sr_from_crs crs = resolve_authority (Py.lower T) c.
Proof.
  intros (d & p & -> & Htype & Hprops & Hcode) Hname.
  unfold get_sr_from_crs, crs_type_and_def, lacks_property, resolve_authority.
  cbn [Py.contains Py.getitem]. unfold Py.assoc_mem.
  rewrite Htype. cbn [negb rbind Py.eq].
  destruct (String.eqb_spec T "name") as [-> | _]; [contradiction |].
  rewrite Hprops. cbn [negb rbind Py.contains Py.getitem Py.str_lower].
  unfold Py.assoc_mem. rewrite Hcode. reflexivity.
Qed.

Lemma get_sr_from_crs_authority crs skipped auth rest :
  named_clause crs (skipped ++ auth ++ String ":" rest)%string ->
  String.length skipped = String.length ogc_crs_prefix ->
  Py.split_once ":" auth = None ->
  get_sr_from_crs crs = resolve_authority (Py.lower auth) (VStr (Py.strip ":" rest)).
Proof.
  intros Hnamed Hlen Hauth. rewrite (get_sr_from_crs_named _ _ Hnamed).
  change 16%nat with (String.length ogc_crs_prefix). rewrite <- Hlen, drop_str_app.
  unfold Py.split1. rewrite (split_once_app auth rest Hauth). reflexivity.
Qed.

Lemma lower_not_name (T : string) : Py.lower T <> "name" -> T <> "name".
Proof. intros H ->. now apply H. Qed.

End AuthorityFacts.

(** X1.  A clause that lacks a key the code needs is refused with a
    [RuntimeError], never with a [KeyError]: without ['type']; or, with a
    type, without ['properties'] or without the key the type asks for in
    them (['name'] for the type ["name"], ['code'] for any other type, a
    string or not). *)
Theorem get_sr_from_crs_missing_key {E : Engine} (d : list (string * value)) :
  (Py.assoc_get "type" d = None ->
   get_sr_from_crs (VDict d) = Raise (RuntimeError "GeoJSON crs type not specified")) /\
  (forall t,
     Py.assoc_get "type" d = Some t ->
     Py.assoc_get "properties" d = None \/
     (exists p, Py.assoc_get "properties" d = Some (VDict p) /\
                Py.assoc_get (if Py.eq t (VStr "name") then "name" else "code") p = None) ->
     get_sr_from_crs (VDict d)
     = Raise (RuntimeError (if Py.eq t (VStr "name")
                            then "Unknown named format specification in GeoJSON crs"
                            else "Unknown EPSG format specification in GeoJSON crs"))).
Proof.
  split.
  - intros Htype. unfold get_sr_from_crs. cbn [Py.contains]. unfold Py.assoc_mem.
    now rewrite Htype.
  - intros t Htype Hmissing.
    unfold get_sr_from_crs, crs_type_and_def, lacks_property.
    cbn [Py.contains Py.getitem]. unfold Py.assoc_mem. rewrite Htype. cbn [negb rbind].
    destruct Hmissing as [Hprops | (p & Hprops & Hkey)]; rewrite Hprops.
    + destruct (Py.eq t (VStr "name")); reflexivity.
    + destruct (Py.eq t (VStr "name")); cbn [negb rbind Py.contains Py.getitem];
        unfold Py.assoc_mem; rewrite Hkey; reflexivity.
Qed.

Lemma get_sr_from_crs_missing_key_witness :
  get_sr_from_crs (E := Boxes.engine)
    (VDict [("type", VStr "EPSG"); ("properties", VDict [("name", VStr "4326")])])
  = Raise (RuntimeError "Unknown EPSG format specification in GeoJSON crs").
Proof.
  apply (proj2 (get_sr_from_crs_missing_key (E := Boxes.engine)
                  [("type", VStr "EPSG"); ("properties", VDict [("name", VStr "4326")])])
           (VStr "EPSG")).
  - reflexivity.
  - right. eexists. split; reflexivity.
Defined.

(** X2.  A clause whose type reads [epsg] in lower case resolves the EPSG
    code that [int()] makes of [properties.code], be it an integer or
    text. *)
Theorem get_sr_from_crs_epsg_code {E : Engine} (crs : value) (T : string) (c : value) :
  coded_clause crs T c ->
  Py.lower T = "epsg" ->
  get_sr_from_crs crs
  = (code <- Py.int c ;;
     match ImportFromEPSG code with
     | Some return_sr => Ok return_sr
     | None => Raise (RuntimeError "Unable to load EPSG code from GeoJSON crs")
     end).
Proof.
  intros Hclause Hlower. rewrite (get_sr_from_crs_coded crs T c Hclause).
  - unfold resolve_authority. now rewrite Hlower.
  - apply lower_not_name. rewrite Hlower. discriminate.
Qed.

Lemma get_sr_from_crs_epsg_code_witness :
  get_sr_from_crs (E := Boxes.engine) (code_clause "Epsg" (VInt 4326))
  = (code <- Py.int (VInt 4326) ;;
     match ImportFromEPSG code with
     | Some return_sr => Ok return_sr
     | None => Raise (RuntimeError "Unable to load EPSG code from GeoJSON crs")
     end).
Proof.
  apply (get_sr_from_crs_epsg_code (E := Boxes.engine) (code_clause "Epsg" (VInt 4326))
           "Epsg" (VInt 4326)).
  - unfold coded_clause, code_clause. do 2 eexists. repeat split; reflexivity.
  - reflexivity.
Defined.

Section AuthorityFacts2.
Context {E : Engine}.

Lemma lower_ogc_no_colon (auth : string) :
  Py.lower auth = "ogc" -> Py.split_once ":" auth = None.
Proof.
  destruct auth as [| c1 [| c2 [| c3 [| c4 auth]]]]; cbn [Py.lower]; try discriminate.
  intros [= H1 H2 H3]. cbn [Py.split_once].
  destruct (Ascii.eqb_spec c1 ":") as [-> | _]; [discriminate |].
  destruct (Ascii.eqb_spec c2 ":") as [-> | _]; [discriminate |].
  destruct (Ascii.eqb_spec c3 ":") as [-> | _]; [discriminate |].
  reflexivity.
Qed.

End AuthorityFacts2.

(** X3.  The authority [ogc], in a name or as the type of a clause,
    resolves EPSG:4326 and ignores what follows it: the version and the code
    of the name, or [properties.code]. *)
Theorem get_sr_from_crs_ogc {E : Engine} (crs : value) :
  (exists skipped auth rest,
      named_clause crs (skipped ++ auth ++ String ":" rest)%string /\
      String.length skipped = String.length ogc_crs_prefix /\
      Py.lower auth = "ogc") \/
  (exists T c, coded_clause crs T c /\ Py.lower T = "ogc") ->
  get_sr_from_crs crs
  = match ImportFromEPSG 4326 with
    | Some return_sr => Ok return_sr
    | None => Raise (RuntimeError "Unable to load default OGC from GeoJSON crs")
    end.
Proof.
  intros [(skipped & auth & rest & Hnamed & Hlen & Hlower) | (T & c & Hclause & Hlower)].
  - rewrite (get_sr_from_crs_authority _ _ _ _ Hnamed Hlen (lower_ogc_no_colon _ Hlower)).
    unfold resolve_authority. now rewrite Hlower.
  - rewrite (get_sr_from_crs_coded crs T c Hclause).
    + unfold resolve_authority. now rewrite Hlower.
    + apply lower_not_name. rewrite Hlower. discriminate.
Qed.

Lemma get_sr_from_crs_ogc_witness :
  get_sr_from_crs (E := Boxes.engine) (name_clause "urn:ogc:def:crs:OGC:1.3:CRS84")
  = match ImportFromEPSG 4326 with
    | Some return_sr => Ok return_sr
    | None => Raise (RuntimeError "Unable to load default OGC from GeoJSON crs")
    end.
Proof.
  apply (get_sr_from_crs_ogc (E := Boxes.engine) (name_clause "urn:ogc:def:crs:OGC:1.3:CRS84")).
  left. exists "urn:ogc:def:crs:", "OGC", "1.3:CRS84". split; [| split; reflexivity].
  unfold named_clause, name_clause. do 2 eexists. repeat split; reflexivity.
Defined.

(** X4.  Any authority but [epsg] and [ogc] is refused with a
    [RuntimeError] and no reference is imported; a type such as ["Name"],
    which is not the string ["name"], counts as an authority. *)
Theorem get_sr_from_crs_unsupported {E : Engine} (crs : value) (sr_type : string) :
  (exists skipped auth rest,
      named_clause crs (skipped ++ auth ++ String ":" rest)%string /\
      String.length skipped = String.length ogc_crs_prefix /\
      Py.split_once ":" auth = None /\
      Py.lower auth = sr_type) \/
  (exists T c, coded_clause crs T c /\ T <> "name" /\ Py.lower T = sr_type) ->
  sr_type <> "epsg" ->
  sr_type <> "ogc" ->
  get_sr_from_crs crs
  = Raise (RuntimeError "Spatial reference type is currently not supported").
Proof.
  intros Hclause Hepsg Hogc.
  assert (Hres : forall v, resolve_authority sr_type v
            = Raise (RuntimeError "Spatial reference type is currently not supported")).
  { intros v. unfold resolve_authority.
    destruct (String.eqb_spec sr_type "epsg"); [contradiction |].
    destruct (String.eqb_spec sr_type "ogc"); [contradiction | reflexivity]. }
  destruct Hclause as [(skipped & auth & rest & Hnamed & Hlen & Hcolon & <-)
                      | (T & c & Hcoded & Hname & <-)].
  - rewrite (get_sr_from_crs_authority _ _ _ _ Hnamed Hlen Hcolon). apply Hres.
  - rewrite (get_sr_from_crs_coded crs T c Hcoded Hname). apply Hres.
Qed.

Lemma get_sr_from_crs_unsupported_witness :
  get_sr_from_crs (E := Boxes.engine) (code_clause "Name" (VStr "urn:ogc:def:crs:EPSG::4326"))
  = Raise (RuntimeError "Spatial reference type is currently not supported").
Proof.
  apply (get_sr_from_crs_unsupported (E := Boxes.engine)
           (code_clause "Name" (VStr "urn:ogc:def:crs:EPSG::4326")) "name").
  - right. exists "Name", (VStr "urn:ogc:def:crs:EPSG::4326"). split; [| split].
    + unfold coded_clause, code_clause. do 2 eexists. repeat split; reflexivity.
    + discriminate.
    + reflexivity.
  - discriminate.
  - discriminate.
Defined.

(** ** The key that names a plot *)

Section KeyFacts.
Context {E : Engine}.

Lemma plot_like_nonempty (k : string) : plot_like k = true -> k <> "".
Proof. intros Hk ->. discriminate. Qed.

Lemma id_like_nonempty (k : string) : id_like k = true -> k <> "".
Proof. intros Hk ->. discriminate. Qed.

Lemma truthy_str (k : string) : k <> "" -> Py.truthy (VStr k) = true.
Proof. intros Hk. cbn. destruct (String.eqb_spec k ""); [contradiction | reflexivity]. Qed.

Lemma best_fit_step_str (b : value) (k : string) :
  best_fit_step b (VStr k)
  = Ok (if plot_like k then VStr k
        else if id_like k && negb (Py.truthy b) then VStr k else b).
Proof.
  unfold best_fit_step, plot_like, id_like. cbn [Py.str_lower rbind].
  destruct ((0 <=? Py.find (Py.lower k) "plot")
            && ((0 <=? Py.find (Py.lower k) "name") || (0 <=? Py.find (Py.lower k) "id")));
    [reflexivity |].
  destruct (String.eqb (Py.lower k) "id" && negb (Py.truthy b)); reflexivity.
Qed.

(** The scan from a best fit [b] that is [None] or a non-empty key. *)
Lemma best_fit_scan_keys (ks : list string) : forall b,
  b = VNone \/ (exists k, b = VStr k /\ k <> "") ->
  best_fit_scan b (VStr <$> ks)
  = Ok (match last (List.filter plot_like ks) with
        | Some k => VStr k
        | None => if Py.truthy b then b
                  else key_value (head (List.filter id_like ks))
        end).
Proof.
  induction ks as [| k ks IH]; intros b Hb.
  - cbn. destruct Hb as [-> | (k & -> & Hk)]; [reflexivity |]. now rewrite truthy_str.
  - cbn [fmap list_fmap best_fit_scan]. rewrite best_fit_step_str. cbn [rbind List.filter].
    destruct (plot_like k) eqn:Hplot.
    + rewrite IH by (right; eauto using plot_like_nonempty).
      rewrite last_cons. destruct (last (List.filter plot_like ks)); [reflexivity |].
      now rewrite truthy_str by now apply plot_like_nonempty.
    + destruct (id_like k) eqn:Hid; cbn [andb].
      * destruct (Py.truthy b) eqn:Hb'; cbn [negb].
        -- rewrite IH by exact Hb. now rewrite Hb'.
        -- rewrite IH by (right; eauto using id_like_nonempty).
           rewrite truthy_str by now apply id_like_nonempty.
           destruct (last (List.filter plot_like ks)); reflexivity.
      * rewrite IH by exact Hb. reflexivity.
Qed.

Lemma best_fit_scan_none (ks : list string) :
  best_fit_scan VNone (VStr <$> ks) = Ok (key_value (best_fit_key ks)).
Proof.
  rewrite best_fit_scan_keys by now left. unfold best_fit_key.
  destruct (last (List.filter plot_like ks)); reflexivity.
Qed.

Lemma best_fit_key_in (ks : list string) (k : string) :
  best_fit_key ks = Some k -> k ∈ ks /\ k <> "".
Proof.
  unfold best_fit_key.
  destruct (last (List.filter plot_like ks)) as [k' |] eqn:Hlast.
  - intros [= <-]. apply last_Some in Hlast as [l Hl].
    assert (Hin : In k' (List.filter plot_like ks)).
    { rewrite Hl. apply in_or_app. right. now left. }
    apply filter_In in Hin as [Hin Hp]. split; [now apply list_elem_of_In |].
    now apply plot_like_nonempty.
  - intros Hhead. destruct (List.filter id_like ks) as [| k' l] eqn:Hl; [discriminate |].
    injection Hhead as <-.
    assert (Hin : In k' (List.filter id_like ks)) by (rewrite Hl; now left).
    apply filter_In in Hin as [Hin Hp]. split; [now apply list_elem_of_In |].
    now apply id_like_nonempty.
Qed.

Lemma assoc_get_in_keys (p : list (string * value)) (k : string) :
  k ∈ Py.keys p -> exists v, Py.assoc_get k p = Some v.
Proof.
  intros Hin. destruct (Py.assoc_get k p) as [v |] eqn:Hget; [eauto |].
  now apply assoc_get_None in Hget.
Qed.

(** With the default key among the properties, the name is its value. *)
Lemma get_plot_key_name_default (p : list (string * value)) (s : string) (v : value) :
  s <> "" ->
  Py.assoc_get s p = Some v ->
  get_plot_key_name (VDict p) (VStr s) = Ok (Some (VStr s, v)).
Proof.
  intros Hs Hget. unfold get_plot_key_name. rewrite truthy_str by exact Hs.
  cbn [Py.contains Py.getitem]. unfold Py.assoc_mem. rewrite Hget. reflexivity.
Qed.

(** The search, when the default key does not decide. *)
Lemma get_plot_key_name_searched (p : list (string * value)) (default_key : value) :
  (if Py.truthy default_key then Py.contains default_key (VDict p) else Ok false) = Ok false ->
  get_plot_key_name (VDict p) default_key = Ok (searched p).
Proof.
  intros Hdefault. unfold get_plot_key_name, searched, with_key. rewrite Hdefault.
  cbn [rbind Py.contains Py.getitem Py.iter]. unfold Py.assoc_mem.
  destruct (Py.assoc_get "observationUnitName" p) as [v |] eqn:Houn; [reflexivity |].
  cbn [rbind]. rewrite best_fit_scan_none.
  destruct (best_fit_key (Py.keys p)) as [k |] eqn:Hbest; [| reflexivity].
  destruct (best_fit_key_in _ _ Hbest) as [Hin Hk].
  destruct (assoc_get_in_keys p k Hin) as [v Hv].
  cbn [key_value rbind]. rewrite truthy_str by exact Hk. cbn [Py.getitem]. now rewrite Hv.
Qed.

End KeyFacts.

(** X5.  The order of precedence on a dictionary of properties: the
    default key, when it is a non-empty string the properties have; then
    ['observationUnitName']; then the last key that holds [plot] and one of
    [name], [id] in lower case; then the first key that reads [id]; and
    [None] without any of them.  What is returned with the key is the value
    under that key, and nothing is raised. *)
Theorem get_plot_key_name_priority {E : Engine}
    (p : list (string * value)) (default_key : option string) :
  get_plot_key_name (VDict p) (key_value default_key) = Ok (key_name_of p default_key).
Proof.
  destruct default_key as [s |]; cbn [key_value key_name_of].
  - destruct (String.eqb_spec s "") as [-> | Hs]; cbn [negb andb].
    + now apply get_plot_key_name_searched.
    + unfold Py.assoc_mem, with_key. destruct (Py.assoc_get s p) as [v |] eqn:Hget.
      * now apply get_plot_key_name_default.
      * apply get_plot_key_name_searched. rewrite truthy_str by exact Hs.
        cbn [Py.contains]. unfold Py.assoc_mem. now rewrite Hget.
  - now apply get_plot_key_name_searched.
Qed.

(** ** Loading the features *)

Section LoadFacts.
Context {E : Engine}.

Lemma unknown_feature_known one_feature geometry props :
  known_feature one_feature geometry props -> unknown_feature one_feature = Ok false.
Proof.
  intros (fd & -> & Htype & Hgeom & _). unfold unknown_feature.
  cbn [Py.contains Py.getitem]. unfold Py.assoc_mem. now rewrite Htype, Hgeom.
Qed.

(** The key a pass starts from is first replaced by the key in effect. *)
Lemma load_features_key_in_effect file_sr plot_column features feature_idx plot_key plots :
  load_features file_sr plot_column features feature_idx plot_key plots
  = load_features file_sr plot_column features feature_idx
      (key_in_effect plot_column plot_key) plots.
Proof.
  destruct features as [| one_feature rest]; [reflexivity |].
  cbn [load_features]. unfold key_in_effect.
  destruct (Py.truthy plot_column); reflexivity.
Qed.

(** A skipped feature only moves the index. *)
Lemma load_features_skip file_sr plot_column skipped : forall rest feature_idx plot_key plots,
  Forall (fun f => unknown_feature f = Ok true) skipped ->
  load_features file_sr plot_column (skipped ++ rest) feature_idx plot_key plots
  = load_features file_sr plot_column rest (length skipped + feature_idx)%nat plot_key plots.
Proof.
  induction skipped as [| f skipped IH]; intros rest feature_idx plot_key plots Hskip;
    [reflexivity |].
  apply Forall_cons in Hskip as [Hf Hskip].
  cbn [app load_features]. rewrite Hf. cbn [rbind].
  fold (key_in_effect plot_column plot_key).
  rewrite <- load_features_key_in_effect, IH by exact Hskip.
  cbn [length]. f_equal. lia.
Qed.

(** A pass over a feature that is kept. *)
Lemma load_features_pass file_sr plot_column one_feature geometry props rest
    feature_idx plot_key plots k n g :
  known_feature one_feature geometry props ->
  feature_key_name one_feature (key_in_effect plot_column plot_key) (S feature_idx) = Ok (k, n) ->
  Py.hashable n = true ->
  CreateGeometryFromJson geometry = Some g ->
  load_features file_sr plot_column (one_feature :: rest) feature_idx plot_key plots
  = load_features file_sr plot_column rest (S feature_idx) k
      (plots_set n (with_file_sr file_sr g) plots).
Proof.
  intros Hknown Hname Hhash Hcreate. cbn [load_features].
  rewrite (unknown_feature_known _ _ _ Hknown). cbn [rbind].
  fold (key_in_effect plot_column plot_key). rewrite Hname. cbn [rbind fst snd].
  destruct Hknown as (fd & -> & _ & Hgeom & _). cbn [Py.getitem]. rewrite Hgeom.
  cbn [rbind]. rewrite Hcreate, Hhash. reflexivity.
Qed.

(** The name of a feature whose properties have the key in effect. *)
Lemma feature_key_name_in_effect one_feature geometry p s n feature_idx :
  known_feature one_feature geometry (Some (VDict p)) ->
  s <> "" ->
  Py.assoc_get s p = Some n ->
  Py.truthy n = true ->
  feature_key_name one_feature (VStr s) feature_idx = Ok (VStr s, n).
Proof.
  intros (fd & -> & _ & _ & Hprops) Hs Hget Htruthy. unfold feature_key_name.
  cbn [Py.contains Py.getitem]. unfold Py.assoc_mem. rewrite Hprops. cbn [rbind].
  rewrite (get_plot_key_name_default p s n Hs Hget). cbn [rbind snd]. now rewrite Htruthy.
Qed.

(** The name of a feature without properties. *)
Lemma feature_key_name_default one_feature geometry plot_key feature_idx :
  known_feature one_feature geometry None ->
  feature_key_name one_feature plot_key feature_idx
  = Ok (plot_key, VStr ("Plot " ++ Py.str_of_nat feature_idx)%string).
Proof.
  intros (fd & -> & _ & _ & Hprops). unfold feature_key_name.
  cbn [Py.contains]. unfold Py.assoc_mem. now rewrite Hprops.
Qed.

Lemma searched_key (p : list (string * value)) (k n : value) :
  searched p = Some (k, n) -> exists s, k = VStr s /\ s <> "".
Proof.
  unfold searched, with_key. destruct (Py.assoc_mem "observationUnitName" p).
  - destruct (Py.assoc_get "observationUnitName" p); [| discriminate].
    intros [= <- _]. eexists. split; [reflexivity | discriminate].
  - destruct (best_fit_key (Py.keys p)) as [s |] eqn:Hbest; [| discriminate].
    destruct (Py.assoc_get s p); [| discriminate].
    intros [= <- _]. exists s. split; [reflexivity |]. now apply best_fit_key_in in Hbest.
Qed.

End LoadFacts.

(** X6.  The key in effect in a pass is the explicit column, when one is
    given, and else the key left by the pass before.  A feature whose
    properties have that key is named by its value, whatever other keys it
    has, and the key is handed on to the next pass. *)
Theorem load_features_key_names_feature {E : Engine}
    (file_sr : SpatialReference) (plot_column plot_key one_feature geometry n : value)
    (p : list (string * value)) (s : string) (g : Geometry)
    (rest : list value) (feature_idx : nat) (plots : list (value * Geometry)) :
  key_in_effect plot_column plot_key = VStr s ->
  s <> "" ->
  known_feature one_feature geometry (Some (VDict p)) ->
  Py.assoc_get s p = Some n ->
  Py.truthy n = true ->
  Py.hashable n = true ->
  CreateGeometryFromJson geometry = Some g ->
  load_features file_sr plot_column (one_feature :: rest) feature_idx plot_key plots
  = load_features file_sr plot_column rest (S feature_idx) (VStr s)
      (plots_set n (with_file_sr file_sr g) plots).
Proof.
  intros Hkey Hs Hknown Hget Htruthy Hhash Hcreate.
  apply (load_features_pass _ _ _ geometry (Some (VDict p))); try assumption.
  rewrite Hkey. now apply (feature_key_name_in_effect _ geometry p).
Qed.

Lemma load_features_key_names_feature_witness :
  load_features (E := Boxes.engine) LoadExample.wgs84 (VStr "id") [LoadExample.second] 0%nat VNone []
  = load_features (E := Boxes.engine) LoadExample.wgs84 (VStr "id") [] 1%nat (VStr "id")
      (plots_set (VStr "8") (with_file_sr (E := Boxes.engine) LoadExample.wgs84 (LoadExample.box_of 10 0 20 10)) []).
Proof.
  apply (load_features_key_names_feature (E := Boxes.engine) LoadExample.wgs84 (VStr "id") VNone
           LoadExample.second (LoadExample.box_json 10 0 20 10) (VStr "8")
           LoadExample.second_props "id" (LoadExample.box_of 10 0 20 10) [] 0%nat []);
    try reflexivity.
  - discriminate.
  - eexists. repeat split; reflexivity.
Defined.

Section LoadFacts2.
Context {E : Engine}.

Lemma feature_key_name_searched one_feature geometry p k n feature_idx :
  known_feature one_feature geometry (Some (VDict p)) ->
  searched p = Some (k, n) ->
  Py.truthy n = true ->
  feature_key_name one_feature VNone feature_idx = Ok (k, n).
Proof.
  intros (fd & -> & _ & _ & Hprops) Hsearch Htruthy. unfold feature_key_name.
  cbn [Py.contains Py.getitem]. unfold Py.assoc_mem. rewrite Hprops. cbn [rbind].
  rewrite get_plot_key_name_searched by reflexivity. rewrite Hsearch.
  cbn [rbind snd]. now rewrite Htruthy.
Qed.

End LoadFacts2.

(** X7.  Without an explicit column, the key the search finds in one
    feature is the default key for the next: a feature that has this key is
    named by it, even when it also has ['observationUnitName']. *)
Theorem load_features_found_key_sticks {E : Engine}
    (file_sr : SpatialReference) (f1 f2 geometry1 geometry2 n1 n2 : value)
    (p1 p2 : list (string * value)) (s : string) (g1 g2 : Geometry)
    (rest : list value) (feature_idx : nat) (plots : list (value * Geometry)) :
  known_feature f1 geometry1 (Some (VDict p1)) ->
  searched p1 = Some (VStr s, n1) ->
  Py.truthy n1 = true ->
  Py.hashable n1 = true ->
  CreateGeometryFromJson geometry1 = Some g1 ->
  known_feature f2 geometry2 (Some (VDict p2)) ->
  Py.assoc_get s p2 = Some n2 ->
  Py.truthy n2 = true ->
  Py.hashable n2 = true ->
  CreateGeometryFromJson geometry2 = Some g2 ->
  load_features file_sr VNone (f1 :: f2 :: rest) feature_idx VNone plots
  = load_features file_sr VNone rest (S (S feature_idx)) (VStr s)
      (plots_set n2 (with_file_sr file_sr g2)
         (plots_set n1 (with_file_sr file_sr g1) plots)).
Proof.
  intros Hk1 Hsearch Ht1 Hh1 Hc1 Hk2 Hget Ht2 Hh2 Hc2.
  destruct (searched_key _ _ _ Hsearch) as (s' & [= <-] & Hs).
  rewrite (load_features_pass _ _ _ geometry1 (Some (VDict p1)) _ _ _ _ (VStr s) n1 g1);
    try assumption.
  - apply (load_features_pass _ _ _ geometry2 (Some (VDict p2))); try assumption.
    now apply (feature_key_name_in_effect _ geometry2 p2).
  - now apply (feature_key_name_searched _ geometry1 p1).
Qed.

Lemma load_features_found_key_sticks_witness :
  load_features (E := Boxes.engine) LoadExample.wgs84 VNone [LoadExample.first; LoadExample.second] 0%nat VNone []
  = load_features (E := Boxes.engine) LoadExample.wgs84 VNone [] 2%nat (VStr "id")
      (plots_set (VStr "8") (with_file_sr (E := Boxes.engine) LoadExample.wgs84 (LoadExample.box_of 10 0 20 10))
         (plots_set (VStr "7") (with_file_sr (E := Boxes.engine) LoadExample.wgs84 (LoadExample.box_of 0 0 10 10)) [])).
Proof.
  apply (load_features_found_key_sticks (E := Boxes.engine) 4326
           LoadExample.first LoadExample.second
           (LoadExample.box_json 0 0 10 10) (LoadExample.box_json 10 0 20 10)
           (VStr "7") (VStr "8") LoadExample.first_props LoadExample.second_props "id"
           (LoadExample.box_of 0 0 10 10) (LoadExample.box_of 10 0 20 10) [] 0%nat []);
    try reflexivity.
  - eexists. repeat split; reflexivity.
  - eexists. repeat split; reflexivity.
Defined.

(** X8.  The index in a default name counts the features the loader
    skips: in a document without a [crs] clause, a feature without
    properties that follows [skipped] skipped items is stored as
    ["Plot "] and the number after theirs, in EPSG:4326, whatever column was
    asked for. *)
Theorem load_plot_file_default_name {E : Engine}
    (d : list (string * value)) (t plot_column bare geometry : value)
    (skipped : list value) (file_sr : SpatialReference) (g : Geometry) :
  Py.assoc_get "type" d = Some t ->
  Py.assoc_get "features" d = Some (VList (skipped ++ [bare])) ->
  Py.assoc_get "crs" d = None ->
  ImportFromEPSG 4326 = Some file_sr ->
  Forall (fun f => unknown_feature f = Ok true) skipped ->
  known_feature bare geometry None ->
  CreateGeometryFromJson geometry = Some g ->
  load_plot_file (VDict d) plot_column
  = Ok [(VStr ("Plot " ++ Py.str_of_nat (S (length skipped)))%string, with_file_sr file_sr g)].
Proof.
  intros Htype Hfeatures Hcrs Hsr Hskipped Hbare Hcreate.
  unfold load_plot_file, get_geojson_file_sr.
  destruct d as [| kv d']; [discriminate |]. cbn [Py.truthy negb require_keys Py.contains].
  unfold Py.assoc_mem. rewrite Htype, Hfeatures, Hcrs. cbn [negb rbind Py.getitem].
  rewrite Hsr, Hfeatures. cbn [rbind Py.len Py.iter].
  rewrite (load_features_skip _ _ _ _ _ _ _ Hskipped).
  rewrite (load_features_pass _ _ _ geometry None _ _ _ _
             (key_in_effect plot_column VNone)
             (VStr ("Plot " ++ Py.str_of_nat (S (length skipped + 0)))%string) g);
    try assumption; try reflexivity.
  - cbn [load_features plots_set]. now rewrite Nat.add_0_r.
  - now apply (feature_key_name_default _ geometry).
Qed.

Lemma load_plot_file_default_name_witness :
  load_plot_file (E := Boxes.engine) (VDict LoadExample.document) (VStr "plot")
  = Ok [(VStr ("Plot " ++ Py.str_of_nat (S (length LoadExample.skipped)))%string,
         with_file_sr (E := Boxes.engine) LoadExample.wgs84 (LoadExample.box_of 0 0 10 10))].
Proof.
  apply (load_plot_file_default_name (E := Boxes.engine) LoadExample.document
           (VStr "FeatureCollection") (VStr "plot") LoadExample.bare
           (LoadExample.box_json 0 0 10 10) LoadExample.skipped LoadExample.wgs84
           (LoadExample.box_of 0 0 10 10)); try reflexivity.
  - repeat constructor.
  - eexists. repeat split; reflexivity.
Defined.

(** X9.  What [load_plot_file] refuses in a document: an empty object,
    an object without ['type'] or without ['features'], and, in a document
    whose reference loads, a ['features'] that is null, on which [len]
    raises. *)
Theorem load_plot_file_refuses {E : Engine} (d : list (string * value)) (plot_column : value) :
  (d = [] ->
   load_plot_file (VDict d) plot_column = Raise (RuntimeError "No JSON was found in file")) /\
  (d <> [] ->
   Py.assoc_get "type" d = None \/ Py.assoc_get "features" d = None ->
   load_plot_file (VDict d) plot_column
   = Raise (RuntimeError "Missing GeoJSON key detected in file")) /\
  (forall t file_sr,
   Py.assoc_get "type" d = Some t ->
   Py.assoc_get "features" d = Some VNone ->
   Py.assoc_get "crs" d = None ->
   ImportFromEPSG 4326 = Some file_sr ->
   load_plot_file (VDict d) plot_column = Raise TypeError).
Proof.
  split; [| split].
  - intros ->. reflexivity.
  - intros Hd Hmissing. unfold load_plot_file.
    destruct d as [| kv d']; [contradiction |].
    cbn [Py.truthy negb require_keys Py.contains]. unfold Py.assoc_mem.
    destruct (Py.assoc_get "type" (kv :: d')); cbn [negb rbind]; [| reflexivity].
    destruct Hmissing as [[=] | ->]. reflexivity.
  - intros t file_sr Htype Hfeatures Hcrs Hsr. unfold load_plot_file, get_geojson_file_sr.
    destruct d as [| kv d']; [discriminate |].
    cbn [Py.truthy negb require_keys Py.contains]. unfold Py.assoc_mem.
    rewrite Htype, Hfeatures, Hcrs. cbn [negb rbind Py.getitem].
    rewrite Hsr, Hfeatures. reflexivity.
Qed.

Lemma load_plot_file_refuses_witness :
  load_plot_file (E := Boxes.engine) (VDict [("type", VStr "FeatureCollection")]) VNone
  = Raise (RuntimeError "Missing GeoJSON key detected in file").
Proof.
  apply (proj1 (proj2 (load_plot_file_refuses (E := Boxes.engine)
                         [("type", VStr "FeatureCollection")] VNone))).
  - discriminate.
  - right. reflexivity.
Defined.

Section StoredFacts.
Context {E : Engine}.

(** Only a string is the same key as a string. *)
Lemma same_key_VStr (k : value) (s : string) :
  Py.same_key k (VStr s) = true -> k = VStr s.
Proof.
  unfold Py.same_key. destruct k; cbn; try discriminate.
  rewrite orb_false_r. intros H. apply String.eqb_eq in H. now subst.
Qed.

Lemma same_key_strings (a b : string) : Py.same_key (VStr a) (VStr b) = String.eqb a b.
Proof. unfold Py.same_key. cbn. apply orb_false_r. Qed.

Lemma plots_get_set (a b : string) (g : Geometry) (plots : list (value * Geometry)) :
  plots_get (VStr a) (plots_set (VStr b) g plots)
  = if String.eqb b a then Some g else plots_get (VStr a) plots.
Proof.
  induction plots as [| [k' g'] plots IH]; cbn [plots_set plots_get].
  - rewrite same_key_strings. reflexivity.
  - destruct (Py.same_key k' (VStr b)) eqn:Hb; cbn [plots_get].
    + apply same_key_VStr in Hb. subst k'. rewrite same_key_strings.
      now destruct (String.eqb b a).
    + destruct (Py.same_key k' (VStr a)) eqn:Ha; [| exact IH].
      apply same_key_VStr in Ha. subst k'. rewrite same_key_strings in Hb.
      rewrite String.eqb_sym in Hb. now rewrite Hb.
Qed.

Lemma plots_get_stored file_sr (n : string) (named : list (string * Geometry)) :
  forall plots,
  plots_get (VStr n) (stored file_sr named plots)
  = match latest n named with
    | Some ng => Some (with_file_sr file_sr (snd ng))
    | None => plots_get (VStr n) plots
    end.
Proof.
  unfold stored, latest.
  induction named as [| [m g] named IH]; intros plots; [reflexivity |].
  cbn [fold_left List.filter fst snd]. rewrite IH, plots_get_set.
  destruct (String.eqb m n); [| reflexivity].
  rewrite last_cons. now destruct (last (List.filter _ named)).
Qed.

Lemma load_features_stored file_sr (c : string) (features : list value)
    (named : list (string * Geometry)) :
  c <> "" ->
  Forall2 (fun f ng => column_names c f (fst ng) (snd ng)) features named ->
  forall feature_idx plot_key plots,
  load_features file_sr (VStr c) features feature_idx plot_key plots
  = Ok (stored file_sr named plots).
Proof.
  intros Hc Hall. assert (Htruthy : Py.truthy (VStr c) = true).
  { destruct c; [contradiction | reflexivity]. }
  induction Hall as [| f [n g] features named (geometry & p & Hknown & Hget & Hn & Hcreate) _ IH];
    intros feature_idx plot_key plots; [reflexivity |].
  cbn [fst snd] in *.
  rewrite (load_features_pass _ _ _ geometry (Some (VDict p)) _ _ _ _ (VStr c) (VStr n) g);
    try assumption; try reflexivity.
  - rewrite IH. reflexivity.
  - unfold key_in_effect. rewrite Htruthy.
    apply (feature_key_name_in_effect _ geometry p); try assumption.
    destruct n; [contradiction | reflexivity].
Qed.

End StoredFacts.

(** Two features named [NaN] are one plot of the catalog, the later
    one. *)
Example plots_set_nan :
  plots_set (E := Boxes.engine) (VFloat PrimFloat.nan) (LoadExample.box_of 10 0 20 10)
    (plots_set (VFloat PrimFloat.nan) (LoadExample.box_of 0 0 10 10) [])
  = [(VFloat PrimFloat.nan, LoadExample.box_of 10 0 20 10)].
Proof. reflexivity. Qed.

(** X10.  With an explicit column, features that all have a name in it
    are stored under these names, and of two features with the same name the
    later one replaces the geometry of the earlier one. *)
Theorem load_features_last_wins {E : Engine} (file_sr : SpatialReference) (c : string)
    (features : list value) (named : list (string * Geometry))
    (feature_idx : nat) (plot_key : value) (plots : list (value * Geometry)) :
  c <> "" ->
  Forall2 (fun f ng => column_names c f (fst ng) (snd ng)) features named ->
  load_features file_sr (VStr c) features feature_idx plot_key plots
  = Ok (stored file_sr named plots) /\
  forall n,
    plots_get (VStr n) (stored file_sr named plots)
    = match latest n named with
      | Some ng => Some (with_file_sr file_sr (snd ng))
      | None => plots_get (VStr n) plots
      end.
Proof.
  intros Hc Hall. split.
  - now apply load_features_stored.
  - intros n. apply plots_get_stored.
Qed.

Lemma load_features_last_wins_witness :
  load_features (E := Boxes.engine) LoadExample.wgs84 (VStr "plot") LoadExample.twice
    0%nat VNone []
  = Ok (stored (E := Boxes.engine) LoadExample.wgs84 LoadExample.twice_named []) /\
  plots_get (E := Boxes.engine) (VStr "A")
    (stored (E := Boxes.engine) LoadExample.wgs84 LoadExample.twice_named [])
  = Some (with_file_sr (E := Boxes.engine) LoadExample.wgs84 (LoadExample.box_of 20 0 30 10)).
Proof.
  assert (H := load_features_last_wins (E := Boxes.engine) LoadExample.wgs84 "plot"
                 LoadExample.twice LoadExample.twice_named 0%nat VNone []).
  destruct H as [Hload Hget].
  - discriminate.
  - unfold LoadExample.twice, LoadExample.twice_named.
    repeat (constructor 2;
              [eexists; eexists; split;
               [eexists; repeat split; reflexivity
               | repeat split; try reflexivity; discriminate] |]).
    constructor 1.
  - split; [exact Hload | exact (Hget "A")].
Defined.

(** X11.  The reference of the document is settled before a feature is
    read.  An exception of [get_sr_from_crs] on the ['crs'] clause leaves
    [load_plot_file] as it is; a ['crs'] that is null raises [TypeError];
    and without a clause, a default reference that cannot be loaded ends the
    call with its own error. *)
Theorem load_plot_file_reference_errors {E : Engine}
    (d : list (string * value)) (t features plot_column : value) :
  Py.assoc_get "type" d = Some t ->
  Py.assoc_get "features" d = Some features ->
  (forall crs ex,
     Py.assoc_get "crs" d = Some crs ->
     get_sr_from_crs crs = Raise ex ->
     load_plot_file (VDict d) plot_column = Raise ex) /\
  (Py.assoc_get "crs" d = Some VNone ->
   load_plot_file (VDict d) plot_column = Raise TypeError) /\
  (Py.assoc_get "crs" d = None ->
   ImportFromEPSG 4326 = None ->
   load_plot_file (VDict d) plot_column = Raise (RuntimeError "Unable to load CRS for file")).
Proof.
  intros Htype Hfeatures.
  assert (Hstart : load_plot_file (VDict d) plot_column
                   = (file_sr <- get_geojson_file_sr (VDict d) ;;
                      match file_sr with
                      | None => Raise (RuntimeError "Unable to load CRS for file")
                      | Some file_sr =>
                          features <- Py.getitem (VDict d) (VStr "features") ;;
                          _ <- Py.len features ;;
                          items <- Py.iter features ;;
                          load_features file_sr plot_column items 0 VNone []
                      end)).
  { unfold load_plot_file. destruct d as [| kv d']; [discriminate |].
    cbn [Py.truthy negb require_keys Py.contains]. unfold Py.assoc_mem.
    now rewrite Htype, Hfeatures. }
  assert (Hcrs : forall crs ex,
            Py.assoc_get "crs" d = Some crs ->
            get_sr_from_crs crs = Raise ex ->
            load_plot_file (VDict d) plot_column = Raise ex).
  { intros crs ex Hcrs Hraise. rewrite Hstart. unfold get_geojson_file_sr.
    cbn [Py.contains Py.getitem]. unfold Py.assoc_mem. rewrite Hcrs. cbn [rbind].
    now rewrite Hraise. }
  split_and!.
  - exact Hcrs.
  - intros Hnull. now apply (Hcrs VNone).
  - intros Hcrs' Hsr. rewrite Hstart. unfold get_geojson_file_sr.
    cbn [Py.contains]. unfold Py.assoc_mem. rewrite Hcrs'. cbn [rbind]. now rewrite Hsr.
Qed.

Lemma load_plot_file_reference_errors_witness :
  load_plot_file (E := Boxes.engine)
    (VDict [("type", VStr "FeatureCollection"); ("crs", VNone); ("features", VList [])])
    VNone
  = Raise TypeError.
Proof.
  apply (proj1 (proj2 (load_plot_file_reference_errors (E := Boxes.engine)
                         [("type", VStr "FeatureCollection"); ("crs", VNone);
                          ("features", VList [])]
                         (VStr "FeatureCollection") (VList []) VNone eq_refl eq_refl))).
  reflexivity.
Defined.

(** ** The matcher over a whole catalog *)

Section CatalogFacts.
Context {E : Engine}.
Variable repr : value -> string.
Implicit Types (bounding_box file_bounds g : Geometry)
  (all_plots : list (value * Geometry)) (acc : list (string * Geometry)).

Lemma assoc_set_fresh {A} (k : string) (v : A) (d : list (string * A)) :
  k ∉ Py.keys d -> Py.assoc_set k v d = d ++ [(k, v)].
Proof.
  induction d as [| [k' v'] d IH]; intros Hk; [reflexivity |].
  cbn [Py.assoc_set app]. cbn in Hk. apply not_elem_of_cons in Hk as [Hne Hk].
  destruct (String.eqb_spec k k') as [-> | _]; [contradiction |]. now rewrite IH.
Qed.

(** An assignment keeps the keys in their order and puts a new key
    last. *)
Lemma keys_assoc_set {A} (k : string) (v : A) (d : list (string * A)) :
  Py.keys (Py.assoc_set k v d)
  = if existsb (String.eqb k) (Py.keys d) then Py.keys d else Py.keys d ++ [k].
Proof.
  unfold Py.keys. induction d as [| [k' v'] d IH]; [reflexivity |].
  cbn [Py.assoc_set].
  destruct (String.eqb k k') eqn:Hk; rewrite !fmap_cons; cbn [fst existsb];
    rewrite Hk; cbn [orb]; [reflexivity |].
  rewrite IH. now destruct (existsb (String.eqb k) (fst <$> d)).
Qed.

(** The keys of the dictionary the loop leaves, when the engine answers on
    every plot. *)
Lemma find_plots_loop_keys bounding_box all_plots : forall acc,
  (forall plot_name g, (plot_name, g) ∈ all_plots -> answers bounding_box g) ->
  exists found,
    fst (find_plots_loop repr bounding_box (GetSpatialReference bounding_box) all_plots acc)
    = Ok found /\
    Py.keys found
    = Py.keys acc
      ++ first_occurrences (Py.keys acc)
           (names_of repr (List.filter (fun ng => matched bounding_box (snd ng)) all_plots)).
Proof.
  induction all_plots as [| [n g0] rest IH]; intros acc Hok.
  - exists acc. split; [reflexivity |]. cbn. now rewrite app_nil_r.
  - destruct (intersects_answers bounding_box g0) as (check & Hcheck & Hint);
      [apply (Hok n); apply elem_of_cons; now left |].
    rewrite (find_plots_loop_pass _ _ _ _ _ _ _ _ Hcheck Hint).
    destruct (IH (if matched bounding_box g0
                  then Py.assoc_set (Py.str repr n) g0 acc else acc))
      as (found & Hfound & Hkeys).
    { intros plot_name g Hin. apply (Hok plot_name g). apply elem_of_cons. now right. }
    exists found. split; [exact Hfound |]. rewrite Hkeys.
    cbn [List.filter snd]. destruct (matched bounding_box g0); [| reflexivity].
    unfold names_of. cbn [fmap list_fmap first_occurrences fst]. rewrite keys_assoc_set.
    destruct (existsb (String.eqb (Py.str repr n)) (Py.keys acc)); [reflexivity |].
    now rewrite <- app_assoc.
Qed.

(** The dictionary the loop leaves, when no two matched plots have names
    that read the same. *)
Lemma find_plots_loop_filter bounding_box all_plots : forall acc,
  (forall plot_name g, (plot_name, g) ∈ all_plots -> answers bounding_box g) ->
  NoDup (Py.keys acc
         ++ names_of repr (List.filter (fun ng => matched bounding_box (snd ng)) all_plots)) ->
  fst (find_plots_loop repr bounding_box (GetSpatialReference bounding_box) all_plots acc)
  = Ok (acc ++ by_name repr (List.filter (fun ng => matched bounding_box (snd ng)) all_plots)).
Proof.
  induction all_plots as [| [n g0] rest IH]; intros acc Hok Hnd.
  - cbn. now rewrite app_nil_r.
  - destruct (intersects_answers bounding_box g0) as (check & Hcheck & Hint);
      [apply (Hok n); apply elem_of_cons; now left |].
    rewrite (find_plots_loop_pass _ _ _ _ _ _ _ _ Hcheck Hint).
    assert (Hrest : forall plot_name g, (plot_name, g) ∈ rest -> answers bounding_box g).
    { intros plot_name g Hin. apply (Hok plot_name g). apply elem_of_cons. now right. }
    cbn [List.filter snd] in *. destruct (matched bounding_box g0).
    + unfold names_of, by_name in *. cbn [fmap list_fmap fst snd] in *.
      assert (Hfresh : Py.str repr n ∉ Py.keys acc).
      { apply NoDup_app in Hnd as (_ & Hdisj & _). intros Hin.
        apply (Hdisj _ Hin). apply elem_of_cons. now left. }
      rewrite (assoc_set_fresh _ _ _ Hfresh), IH; [now rewrite <- app_assoc | exact Hrest |].
      unfold Py.keys. rewrite fmap_app. cbn [fmap list_fmap fst].
      now rewrite <- app_assoc.
    + now apply IH.
Qed.

Lemma find_plots_loop_fails bounding_box (plot_name : value) g
    (rest : list (value * Geometry)) acc ex :
  plot_fails bounding_box g ex ->
  fst (find_plots_loop repr bounding_box (GetSpatialReference bounding_box)
         ((plot_name, g) :: rest) acc) = Raise ex.
Proof.
  unfold plot_fails, tested_geometry, intersects.
  intros [Hcheck | (check & Hcheck & Hint)]; cbn [find_plots_loop]; rewrite tbind_fst, Hcheck;
    [reflexivity |].
  rewrite tbind_fst. unfold call. cbn [fst].
  destruct (Intersection bounding_box check) as [[i |] | ex']; cbn [rbind] in Hint.
  - rewrite tbind_fst. unfold lift. cbn [fst]. now rewrite Hint.
  - discriminate.
  - now injection Hint as ->.
Qed.

Lemma find_plots_loop_fails_after bounding_box (before : list (value * Geometry)) :
  forall (plot_name : value) g (rest : list (value * Geometry)) acc ex,
  (forall n g', (n, g') ∈ before -> plot_passes bounding_box g') ->
  plot_fails bounding_box g ex ->
  fst (find_plots_loop repr bounding_box (GetSpatialReference bounding_box)
         (before ++ (plot_name, g) :: rest) acc) = Raise ex.
Proof.
  induction before as [| [n g0] before IH]; intros plot_name g rest acc ex Hok Hfail.
  - now apply find_plots_loop_fails.
  - destruct (Hok n g0) as (check & b & Hcheck & Hint); [apply elem_of_cons; now left |].
    cbn [app]. rewrite (find_plots_loop_pass _ _ _ _ _ _ _ _ Hcheck Hint).
    apply IH; [| exact Hfail].
    intros n' g' Hin. apply (Hok n' g'). apply elem_of_cons. now right.
Qed.

End CatalogFacts.

(** X12.  The matcher catches nothing: when the engine raises on a plot,
    in the reprojection or in the test of the intersection, and answered on
    the plots before it, the call raises that exception, whatever plots
    follow. *)
Theorem find_plots_intersect_boundingbox_raises {E : Engine} (repr : value -> string)
    (bounding_box g : Geometry) (plot_name : value)
    (before rest : list (value * Geometry)) (ex : exn) :
  (forall n g', (n, g') ∈ before -> plot_passes bounding_box g') ->
  plot_fails bounding_box g ex ->
  fst (find_plots_intersect_boundingbox repr bounding_box (before ++ (plot_name, g) :: rest))
  = Raise ex.
Proof.
  intros Hok Hfail. unfold find_plots_intersect_boundingbox.
  now apply find_plots_loop_fails_after.
Qed.

Lemma find_plots_intersect_boundingbox_raises_witness :
  fst (find_plots_intersect_boundingbox (E := Boxes.engine) MatcherExample.repr
         MatcherExample.bounding_box
         (CatalogRun.before ++ (VStr "broken", CatalogRun.broken_plot) :: CatalogRun.rest))
  = Raise (RuntimeError "TopologyException").
Proof.
  apply (find_plots_intersect_boundingbox_raises (E := Boxes.engine)).
  - intros n g' Hin. apply list_elem_of_singleton in Hin as [= -> ->].
    eexists. eexists. split; reflexivity.
  - right. eexists. split; reflexivity.
Defined.

(** X13.  When the engine answers on every plot, the keys of the
    dictionary the matcher returns are the names of the matched plots as
    [str()] writes them, in the order of the catalog, a name that comes again
    standing where it came first.  When no two matched plots have names that
    read the same, the dictionary lists the matched plots in the order of the
    catalog, each under its name as text and with its geometry from the
    catalog. *)
Theorem find_plots_intersect_boundingbox_order {E : Engine} (repr : value -> string)
    (bounding_box : Geometry) (all_plots : list (value * Geometry)) :
  (forall plot_name g, (plot_name, g) ∈ all_plots -> answers bounding_box g) ->
  exists found,
    fst (find_plots_intersect_boundingbox repr bounding_box all_plots) = Ok found /\
    Py.keys found
    = first_occurrences []
        (names_of repr (List.filter (fun ng => matched bounding_box (snd ng)) all_plots)) /\
    (NoDup (names_of repr (List.filter (fun ng => matched bounding_box (snd ng)) all_plots)) ->
     found = by_name repr (List.filter (fun ng => matched bounding_box (snd ng)) all_plots)).
Proof.
  intros Hok. unfold find_plots_intersect_boundingbox.
  destruct (find_plots_loop_keys repr bounding_box all_plots [] Hok)
    as (found & Hfound & Hkeys).
  exists found. split; [exact Hfound |]. split; [exact Hkeys |].
  intros Hnd.
  pose proof (find_plots_loop_filter repr bounding_box all_plots [] Hok Hnd) as Hfilter.
  rewrite Hfound in Hfilter. now injection Hfilter.
Qed.

Lemma find_plots_intersect_boundingbox_order_witness :
  exists found,
    fst (find_plots_intersect_boundingbox (E := Boxes.engine) MatcherExample.repr
           MatcherExample.bounding_box MatcherExample.numbered) = Ok found /\
    Py.keys found
    = first_occurrences []
        (names_of MatcherExample.repr
           (List.filter (fun ng => matched MatcherExample.bounding_box (snd ng))
              MatcherExample.numbered)) /\
    (NoDup (names_of MatcherExample.repr
              (List.filter (fun ng => matched MatcherExample.bounding_box (snd ng))
                 MatcherExample.numbered)) ->
     found = by_name MatcherExample.repr
               (List.filter (fun ng => matched MatcherExample.bounding_box (snd ng))
                  MatcherExample.numbered)).
Proof.
  apply (find_plots_intersect_boundingbox_order (E := Boxes.engine)).
  intros plot_name g Hin. unfold MatcherExample.numbered in Hin.
  repeat (apply elem_of_cons in Hin as [[= -> ->] | Hin];
          [do 2 eexists; split; [reflexivity |]; split; [reflexivity |];
           intros i [= <-]; eexists; split; [reflexivity |];
           intros c [= <-]; eexists; reflexivity |]).
  now apply elem_of_nil in Hin.
Defined.

Section OverlapLoopFacts.
Context {E : Engine}.
Implicit Types (file_bounds plot_geom plot_bounds : Geometry).

Lemma calculate_overlap_percent_events (check_bounds other_bounds : option Geometry) :
  exists q t,
    calculate_overlap_percent check_bounds other_bounds = (Ok q, t) /\
    List.filter is_skip t = [] /\
    (List.filter is_warning t = [] \/
     List.filter is_warning t = [Logged WARNING overlap_warning] /\ q = 0%float) /\
    (List.filter is_warning t <> [] <->
     exists check other ex,
       check_bounds = Some check /\ other_bounds = Some other /\
       overlap_raises check other ex).
Proof.
  unfold calculate_overlap_percent, overlap_try, call, lift, log, ret, truediv.
  destruct check_bounds as [check |], other_bounds as [other |]; cbn;
    try (eexists; eexists; split; [reflexivity |]; split; [reflexivity |];
         split; [now left |]; split; [intros H; now contradiction H |];
         intros (c & o & ex & H1 & H2 & _); discriminate).
  destruct (Intersection other check) as [[i |] | ex] eqn:Hi; cbn.
  - destruct (Area i) as [a | ex] eqn:Hai; cbn.
    + destruct (Area check) as [b | ex] eqn:Hac; cbn.
      * destruct (PrimFloat.eqb b 0) eqn:Hb; cbn.
        -- eexists. eexists. split; [reflexivity |]. split; [reflexivity |].
           split; [now right |]. split; [| discriminate].
           intros _. exists check, other, ZeroDivisionError.
           repeat split. now apply (raises_in_division _ _ i a b).
        -- eexists. eexists. split; [reflexivity |]. split; [reflexivity |].
           split; [now left |]. split; [intros H; now contradiction H |].
           intros (c & o & ex & [= <-] & [= <-] & Hr).
           destruct Hr as [ex' Hi' | i' ex' Hi' Hai' | i' a' ex' Hi' Hai' Hac'
                           | i' a' b' Hi' Hai' Hac' Hb']; congruence.
      * eexists. eexists. split; [reflexivity |]. split; [reflexivity |].
        split; [now right |]. split; [| discriminate].
        intros _. exists check, other, ex. repeat split.
        now apply (raises_in_check_area _ _ i a).
    + eexists. eexists. split; [reflexivity |]. split; [reflexivity |].
      split; [now right |]. split; [| discriminate].
      intros _. exists check, other, ex. repeat split.
      now apply (raises_in_intersection_area _ _ i).
  - eexists. eexists. split; [reflexivity |]. split; [reflexivity |].
    split; [now left |]. split; [intros H; now contradiction H |].
    intros (c & o & ex & [= <-] & [= <-] & Hr).
    destruct Hr as [ex' Hi' | i' ex' Hi' Hai' | i' a' ex' Hi' Hai' Hac'
                    | i' a' b' Hi' Hai' Hac' Hb']; congruence.
  - eexists. eexists. split; [reflexivity |]. split; [reflexivity |].
    split; [now right |]. split; [| discriminate].
    intros _. exists check, other, ex. repeat split. now apply raises_in_intersection.
Qed.

(** What the function returns for two geometries is the overlap
    fraction. *)
Lemma calculate_overlap_percent_fraction plot_bounds file_bounds :
  fst (calculate_overlap_percent (Some plot_bounds) (Some file_bounds))
  = Ok (overlap_fraction plot_bounds file_bounds).
Proof.
  unfold calculate_overlap_percent, overlap_try, overlap_fraction,
    call, lift, log, ret, truediv.
  cbn. destruct (Intersection file_bounds plot_bounds) as [[i |] | ex]; cbn;
    try reflexivity.
  destruct (Area i) as [a | ex]; cbn; try reflexivity.
  destruct (Area plot_bounds) as [b | ex]; cbn; try reflexivity.
  destruct (PrimFloat.eqb b 0); reflexivity.
Qed.

End OverlapLoopFacts.

(** X14.  [calculate_overlap_percent] never raises, whatever the engine
    does, and it logs its warning exactly when both geometries are given and
    the intersection, one of the two areas or the division raised. *)
Theorem calculate_overlap_percent_never_raises {E : Engine}
    (check_bounds other_bounds : option Geometry) :
  exists q t,
    calculate_overlap_percent check_bounds other_bounds = (Ok q, t) /\
    (Logged WARNING overlap_warning ∈ t <->
     exists check other ex,
       check_bounds = Some check /\ other_bounds = Some other /\
       overlap_raises check other ex).
Proof.
  destruct (calculate_overlap_percent_events check_bounds other_bounds)
    as (q & t & Hcalc & _ & Hwarn & Hiff).
  exists q, t. split; [exact Hcalc |]. rewrite <- Hiff. split.
  - intros Hin Hnil. apply list_elem_of_In in Hin.
    assert (Hin' : In (Logged WARNING overlap_warning) (List.filter is_warning t)).
    { apply filter_In. split; [exact Hin | reflexivity]. }
    rewrite Hnil in Hin'. exact Hin'.
  - intros Hne. destruct Hwarn as [Hnil | [Hone _]]; [contradiction |].
    apply list_elem_of_In.
    apply (proj1 (filter_In is_warning (Logged WARNING overlap_warning) t)).
    rewrite Hone. now left.
Qed.

(** X15.  When every plot can be brought into the reference of the file,
    no pass of the loop of [perform_process] raises before its test of the
    overlap.  The plots that go on to be clipped are, in the order of the
    plots, those whose overlap fraction (the area of the intersection of the
    file bounds with the reprojected plot bounds over the area of these
    bounds, and 0.0 where it cannot be computed) is not below 0.10, each
    under its name and with its reprojected bounds; one skip record is logged
    for each of the others. *)
Theorem perform_process_plots_clips_or_skips {E : Engine}
    (file_bounds : Geometry) (overlap_plots : list (string * Geometry)) :
  (forall n g, (n, g) ∈ overlap_plots ->
     exists plot_bounds, convert_geometry g (GetSpatialReference file_bounds) = Ok plot_bounds) ->
  exists t,
    perform_process_plots file_bounds overlap_plots
    = (Ok (omap (kept file_bounds) overlap_plots), t) /\
    (length (omap (kept file_bounds) overlap_plots) + length (List.filter is_skip t)
     = length overlap_plots)%nat.
Proof.
  induction overlap_plots as [| [n g] rest IH]; intros Hconv.
  - exists []. split; reflexivity.
  - destruct (Hconv n g) as [plot_bounds Hpb]; [apply elem_of_cons; now left |].
    destruct IH as (t' & Hrest & Hlen).
    { intros n' g' Hin. apply (Hconv n' g'). apply elem_of_cons. now right. }
    destruct (calculate_overlap_percent_events (Some plot_bounds) (Some file_bounds))
      as (q & t0 & Hcalc & Hskip & _).
    assert (Hq : q = overlap_fraction plot_bounds file_bounds).
    { pose proof (calculate_overlap_percent_fraction plot_bounds file_bounds) as Hfrac.
      rewrite Hcalc in Hfrac. now injection Hfrac. }
    assert (Hkept : kept file_bounds (n, g)
                    = if PrimFloat.ltb q overlap_threshold then None
                      else Some (n, plot_bounds)).
    { unfold kept. cbn [fst snd]. now rewrite Hpb, <- Hq. }
    rewrite (perform_process_plots_pass _ n _ _ rest _ _ Hpb Hcalc), Hrest.
    cbn [omap list_omap fst snd]. rewrite Hkept.
    destruct (PrimFloat.ltb q overlap_threshold).
    + eexists. split; [reflexivity |].
      cbn [List.filter is_skip]. rewrite List.filter_app, Hskip.
      cbn [app List.filter is_skip]. rewrite String.eqb_refl. cbn [length]. lia.
    + eexists. split; [reflexivity |].
      cbn [List.filter is_skip length]. rewrite List.filter_app, Hskip. cbn [app]. lia.
Qed.

Lemma perform_process_plots_clips_or_skips_witness :
  exists t,
    perform_process_plots (E := Boxes.engine) OverlapExample.file_bounds OverlapRun.overlap_plots
    = (Ok (omap (kept OverlapExample.file_bounds) OverlapRun.overlap_plots), t) /\
    (length (omap (kept OverlapExample.file_bounds) OverlapRun.overlap_plots)
     + length (List.filter is_skip t)
     = length OverlapRun.overlap_plots)%nat.
Proof.
  apply (perform_process_plots_clips_or_skips (E := Boxes.engine)).
  intros n g _. cbn. eexists. reflexivity.
Defined.

(** X16.  A failure of the reprojection is not caught as a failure of the
    overlap is: when [convert_geometry] raises on a plot and answered on the
    plots before it, the loop ends with that exception. *)
Theorem perform_process_plots_conversion_raises {E : Engine}
    (file_bounds plot_geom : Geometry) (plot_name : string)
    (before rest : list (string * Geometry)) (ex : exn) :
  (forall n g, (n, g) ∈ before ->
     exists plot_bounds, convert_geometry g (GetSpatialReference file_bounds) = Ok plot_bounds) ->
  convert_geometry plot_geom (GetSpatialReference file_bounds) = Raise ex ->
  fst (perform_process_plots file_bounds (before ++ (plot_name, plot_geom) :: rest))
  = Raise ex.
Proof.
  induction before as [| [n g] before IH]; intros Hconv Hraise.
  - cbn [app perform_process_plots]. rewrite tbind_fst. unfold call. cbn [fst].
    now rewrite Hraise.
  - destruct (Hconv n g) as [plot_bounds Hpb]; [apply elem_of_cons; now left |].
    destruct (calculate_overlap_percent_events (Some plot_bounds) (Some file_bounds))
      as (q & t0 & Hcalc & _).
    cbn [app]. rewrite (perform_process_plots_pass _ n _ _ _ _ _ Hpb Hcalc).
    cbn zeta. rewrite IH; [now destruct (PrimFloat.ltb q overlap_threshold) | | exact Hraise].
    intros n' g' Hin. apply (Hconv n' g'). apply elem_of_cons. now right.
Qed.

Lemma perform_process_plots_conversion_raises_witness :
  fst (perform_process_plots (E := StrictBoxes.engine) OverlapExample.file_bounds
         ([("plot 1", OverlapExample.tenth)]
          ++ ("plot 2", OverlapExample.bad) :: [("plot 3", OverlapRun.eleventh)]))
  = Raise (RuntimeError "OGRCoordinateTransformation").
Proof.
  apply (perform_process_plots_conversion_raises (E := StrictBoxes.engine)).
  - intros n g Hin. apply list_elem_of_singleton in Hin as [= -> ->].
    eexists. reflexivity.
  - reflexivity.
Defined.

(** ** Container metadata, continued *)

Section PreparedFacts.
Variable path_exists : string -> bool.
Variable transformer_name transformer_version : string.
Variable utcnow : nat -> string.

Lemma prepared_records_paths plot_name sensor source_file result_files : forall i,
  path <$> prepared_records path_exists transformer_name transformer_version utcnow
             plot_name sensor source_file result_files i
  = List.filter path_exists result_files.
Proof.
  induction result_files as [| one_file rest IH]; intros i; [reflexivity |].
  cbn [prepared_records List.filter]. destruct (path_exists one_file); [| apply IH].
  cbn [fmap list_fmap path]. f_equal. apply IH.
Qed.

Lemma prepared_records_fields plot_name sensor source_file result_files : forall i,
  Forall (fun f => key f = sensor /\ source f = source_file /\
                   transformer f = transformer_name /\ version f = transformer_version /\
                   file_plot_name f = plot_name)
    (prepared_records path_exists transformer_name transformer_version utcnow
       plot_name sensor source_file result_files i).
Proof.
  induction result_files as [| one_file rest IH]; intros i; [constructor |].
  cbn [prepared_records]. destruct (path_exists one_file); [| apply IH].
  constructor; [cbn; auto | apply IH].
Qed.

End PreparedFacts.

(** X17.  [prepare_container_md] writes one record for each result file
    that exists, in the order of [result_files] and as often as the path is
    listed; a file that does not exist is left out without an error.  Each
    record has the sensor, the source file, the transformer and the plot
    name of the call. *)
Theorem prepare_container_md_existing_files
    (path_exists : string -> bool) (transformer_name transformer_version : string)
    (utcnow : nat -> string) (plot_name : string) (plot_md : value)
    (sensor source_file : string) (result_files : list string) :
  exists records,
    prepare_container_md path_exists transformer_name transformer_version utcnow
      plot_name plot_md sensor source_file result_files
    = entry_value {| name := plot_name; data := plot_md; file := records |} /\
    path <$> records = List.filter path_exists result_files /\
    Forall (fun f => key f = sensor /\ source f = source_file /\
                     transformer f = transformer_name /\ version f = transformer_version /\
                     file_plot_name f = plot_name) records.
Proof.
  eexists. split; [apply prepare_container_md_entry |]. split.
  - apply prepared_records_paths.
  - apply prepared_records_fields.
Qed.

Section KeyedFacts.
Implicit Types (L : list (string * option (list FileRecord)))
  (e a : string * option (list FileRecord)).

Lemma getitem_VList (l : list value) (i : nat) (v : value) :
  l !! i = Some v -> Py.getitem (VList l) (VInt (Z.of_nat i)) = Ok v.
Proof.
  intros Hi. unfold Py.getitem. rewrite seq_index_of_nat.
  - cbn [rbind]. now rewrite Hi.
  - now apply lookup_lt_Some in Hi.
Qed.

Lemma keyed_name e : Py.getitem (keyed_value e) (VStr "name") = Ok (VStr (fst e)).
Proof. reflexivity. Qed.

Lemma find_keyed_Some n L i :
  find_keyed n L = Some i -> exists a, L !! i = Some a /\ fst a = n.
Proof.
  revert i. induction L as [| a L IH]; intros i; cbn [find_keyed]; [discriminate |].
  destruct (String.eqb_spec (fst a) n) as [Heq | Hne].
  - intros [= <-]. exists a. split; [reflexivity | exact Heq].
  - destruct (find_keyed n L) as [j |] eqn:Hj; cbn; [| discriminate].
    intros [= <-]. destruct (IH j eq_refl) as (a' & Hl & Hn). exists a'. auto.
Qed.

Lemma find_match_keyed suf : forall pre e,
  find_match (VList (keyed_value <$> pre ++ suf)) (keyed_value e)
    (seq (length pre) (length suf))
  = Ok ((fun i => length pre + i)%nat <$> find_keyed (fst e) suf).
Proof.
  induction suf as [| a suf IH]; intros pre e; [reflexivity |].
  cbn [length seq find_match].
  rewrite (getitem_VList _ _ (keyed_value a)).
  2: { rewrite list_lookup_fmap, list_lookup_middle; reflexivity. }
  cbn [rbind]. rewrite !keyed_name. cbn [rbind Py.eq find_keyed].
  destruct (String.eqb (fst a) (fst e)).
  - cbn. do 2 f_equal. lia.
  - specialize (IH (pre ++ [a]) e).
    rewrite <- app_assoc, length_app in IH. cbn [app length] in IH.
    replace (length pre + 1)%nat with (S (length pre)) in IH by lia.
    rewrite IH. destruct (find_keyed (fst e) suf); cbn; [| reflexivity].
    do 2 f_equal. lia.
Qed.

Lemma setindex_keyed L (i : nat) a a' :
  L !! i = Some a ->
  setindex (VList (keyed_value <$> L)) i (keyed_value a')
  = Ok (VList (keyed_value <$> alter (fun _ => a') i L)).
Proof.
  intros Hi. unfold setindex. rewrite length_fmap.
  apply lookup_lt_Some in Hi. apply Nat.ltb_lt in Hi. rewrite Hi.
  now rewrite <- list_insert_alter, list_fmap_insert.
Qed.

Lemma alter_at {A} (f g : A -> A) (l : list A) (i : nat) (x : A) :
  l !! i = Some x -> f x = g x -> alter f i l = alter g i l.
Proof.
  revert i. induction l as [| y l IH]; intros [| i] Hi Hfg; cbn in *; try discriminate.
  - injection Hi as ->. now rewrite Hfg.
  - f_equal. now apply IH.
Qed.

Lemma union_by_path_facts (ns : list FileRecord) : forall ws,
  ws `prefix_of` union_by_path ws ns /\
  (forall f, f ∈ ns -> path f ∈ path <$> union_by_path ws ns) /\
  (forall f, f ∈ union_by_path ws ns -> f ∈ ws \/ f ∈ ns) /\
  (NoDup (path <$> ws) -> NoDup (path <$> union_by_path ws ns)).
Proof.
  induction ns as [| n ns IH]; intros ws; cbn [union_by_path].
  - split_and!; [reflexivity | | auto | auto].
    intros f Hf. now apply elem_of_nil in Hf.
  - assert (Hex : existsb (fun w => String.eqb (path n) (path w)) ws = true
                  <-> path n ∈ path <$> ws).
    { rewrite existsb_exists. split.
      - intros (w & Hw & Heq). apply String.eqb_eq in Heq. rewrite Heq.
        apply list_elem_of_fmap_2. now apply list_elem_of_In.
      - intros Hin. apply list_elem_of_fmap in Hin as (w & Heq & Hw).
        exists w. split; [now apply list_elem_of_In | now apply String.eqb_eq]. }
    destruct (existsb (fun w => String.eqb (path n) (path w)) ws) eqn:Hfound.
    + destruct (IH ws) as (Hpre & Hall & Hfrom & Hnd). split_and!.
      * exact Hpre.
      * intros f Hf. apply elem_of_cons in Hf as [-> | Hf]; [| now apply Hall].
        destruct Hpre as [k ->]. rewrite fmap_app. apply elem_of_app. left.
        now apply Hex.
      * intros f Hf. destruct (Hfrom f Hf) as [H | H]; [now left |].
        right. apply elem_of_cons. now right.
      * exact Hnd.
    + destruct (IH (ws ++ [n])) as (Hpre & Hall & Hfrom & Hnd). split_and!.
      * eapply prefix_app_l. exact Hpre.
      * intros f Hf. apply elem_of_cons in Hf as [-> | Hf]; [| now apply Hall].
        destruct Hpre as [k ->]. rewrite !fmap_app. apply elem_of_app. left.
        apply elem_of_app. right. cbn. apply list_elem_of_singleton. reflexivity.
      * intros f Hf. destruct (Hfrom f Hf) as [H | H].
        -- apply elem_of_app in H as [H | H]; [now left |].
           apply list_elem_of_singleton in H. subst f. right. apply elem_of_cons. now left.
        -- right. apply elem_of_cons. now right.
      * intros Hws. apply Hnd. rewrite fmap_app. apply NoDup_app. split; [exact Hws |].
        split; [| apply NoDup_singleton].
        intros x Hx Hin. cbn in Hin. apply list_elem_of_singleton in Hin. subst x.
        apply Hex in Hx. discriminate.
Qed.

End KeyedFacts.

(** X18.  On entries that keep their records under the key the merge
    reads, ['files']: an entry merged into the empty list, or into a list
    without an entry of its name, is taken as it is; merged into a list with
    an entry of its name it changes the first such entry only, whose records
    become the union by path with the incoming ones, or the incoming ones
    when it had none; an incoming entry without ['files'] changes nothing. *)
Theorem merge_container_md_keyed
    (L : list (string * option (list FileRecord)))
    (e : string * option (list FileRecord)) :
  merge_container_md (VList (keyed_value <$> L)) (keyed_value e)
  = Ok (VList (keyed_value <$> merged_keyed L e)).
Proof.
  destruct L as [| a0 L]; [reflexivity |].
  unfold merge_container_md.
  change (Py.truthy (VList (keyed_value <$> a0 :: L))) with true. cbn [negb].
  change (Py.len (VList (keyed_value <$> a0 :: L)))
    with (Ok (length (keyed_value <$> a0 :: L))).
  cbn [rbind]. rewrite length_fmap.
  pose proof (find_match_keyed (a0 :: L) [] e) as Hm.
  cbn [app length] in Hm. cbn [length]. rewrite Hm. clear Hm. cbn [rbind plus].
  unfold merged_keyed.
  destruct (find_keyed (fst e) (a0 :: L)) as [i |] eqn:Hfind;
    cbn [fmap option_fmap option_map].
  - destruct (find_keyed_Some _ _ _ Hfind) as (a & Hl & Hname).
    rewrite (getitem_VList _ _ (keyed_value a)) by now rewrite list_lookup_fmap, Hl.
    cbn [rbind]. destruct e as [n [ns |]]; cbn [fst snd] in *.
    + change (Py.contains (VStr "files") (keyed_value (n, Some ns))) with (Ok true).
      cbn [rbind].
      change (Py.getitem (keyed_value (n, Some ns)) (VStr "files"))
        with (Ok (VList (file_value <$> ns))).
      destruct a as [m [ws |]]; cbn [fst snd] in *.
      * change (Py.contains (VStr "files") (keyed_value (m, Some ws))) with (Ok true).
        cbn [rbind Py.iter].
        change (keyed_value (m, Some ws))
          with (VDict [("name", VStr m); ("files", VList (file_value <$> ws))]) at 1.
        rewrite (merge_files_union ns _ ws) by reflexivity. cbn [rbind].
        change (VDict (Py.assoc_set "files" (VList (file_value <$> union_by_path ws ns))
                         [("name", VStr m); ("files", VList (file_value <$> ws))]))
          with (keyed_value (m, Some (union_by_path ws ns))).
        rewrite (setindex_keyed _ _ _ _ Hl). do 3 f_equal.
        now apply (alter_at _ _ _ _ _ Hl).
      * change (Py.contains (VStr "files") (keyed_value (m, None))) with (Ok false).
        cbn [rbind].
        change (Py.setitem (keyed_value (m, None)) "files" (VList (file_value <$> ns)))
          with (Ok (keyed_value (m, Some ns))).
        cbn [rbind]. rewrite (setindex_keyed _ _ _ _ Hl). do 3 f_equal.
        now apply (alter_at _ _ _ _ _ Hl).
    + change (Py.contains (VStr "files") (keyed_value (n, None))) with (Ok false).
      cbn [rbind merge_files_of]. rewrite list_alter_id; [reflexivity |].
      now intros [m ws].
  - cbn [Py.append]. now rewrite fmap_app.
Qed.

(** X19.  The loop that merges the records of two entries: the records
    the entry had stay where they are, an incoming record is appended unless
    its path is there already, be it from the entry or from an incoming
    record before it; so every incoming path is there afterwards, and paths
    that were distinct stay distinct. *)
Theorem merge_files_no_duplicate_path
    (d : list (string * value)) (ws ns : list FileRecord) :
  Py.assoc_get "files" d = Some (VList (file_value <$> ws)) ->
  exists us,
    merge_files (VDict d) (file_value <$> ns)
    = Ok (VDict (Py.assoc_set "files" (VList (file_value <$> us)) d)) /\
    ws `prefix_of` us /\
    (forall f, f ∈ ns -> path f ∈ path <$> us) /\
    (forall f, f ∈ us -> f ∈ ws \/ f ∈ ns) /\
    (NoDup (path <$> ws) -> NoDup (path <$> us)).
Proof.
  intros Hget. exists (union_by_path ws ns).
  split; [now apply merge_files_union | apply union_by_path_facts].
Qed.

Lemma merge_files_no_duplicate_path_witness :
  exists us,
    merge_files (VDict KeyedExample.working_md)
      (file_value <$> [KeyedExample.record "b.tif"; KeyedExample.record "a.tif";
                       KeyedExample.record "b.tif"])
    = Ok (VDict (Py.assoc_set "files" (VList (file_value <$> us)) KeyedExample.working_md)) /\
    [KeyedExample.record "a.tif"] `prefix_of` us.
Proof.
  destruct (merge_files_no_duplicate_path KeyedExample.working_md
              [KeyedExample.record "a.tif"]
              [KeyedExample.record "b.tif"; KeyedExample.record "a.tif";
               KeyedExample.record "b.tif"] eq_refl) as (us & Hrun & Hpre & _).
  exists us. split; [exact Hrun | exact Hpre].
Defined.

Section RunFacts.
Implicit Types (L es : list ContainerMetadataEntry) (e : ContainerMetadataEntry).

Lemma merge_all_entries es : forall L,
  merge_all (list_value L) (entry_value <$> es) = Ok (list_value (merged_all L es)).
Proof.
  induction es as [| e es IH]; intros L; [reflexivity |].
  cbn [fmap list_fmap merge_all]. rewrite merge_container_md_entries. cbn [rbind].
  apply IH.
Qed.

Lemma first_named_app n L L' :
  first_named n (L ++ L')
  = match first_named n L with
    | Some e => Some e
    | None => first_named n L'
    end.
Proof.
  unfold first_named. induction L as [| a L IH]; [reflexivity |].
  cbn [app List.find]. now destruct (String.eqb (name a) n).
Qed.

Lemma first_named_None n L : first_named n L = None <-> n ∉ name <$> L.
Proof.
  unfold first_named. induction L as [| a L IH]; cbn [List.find fmap list_fmap].
  - split; [intros _; apply not_elem_of_nil | reflexivity].
  - rewrite not_elem_of_cons. destruct (String.eqb_spec (name a) n) as [Heq | Hne].
    + split; [discriminate | intros [Hn _]; congruence].
    + rewrite IH. split; [intros Hn; split; [congruence | exact Hn] | now intros [_ Hn]].
Qed.

Lemma merged_cases L e :
  (name e ∈ (name <$> L) /\ merged L e = L) \/
  ((name e ∉ name <$> L) /\ merged L e = L ++ [e]).
Proof.
  unfold merged. destruct L as [| a L].
  - right. split; [apply not_elem_of_nil | reflexivity].
  - destruct (find_name (name e) (a :: L)) as [i |] eqn:Hfind.
    + left. split; [| reflexivity].
      destruct (find_name_Some _ _ _ Hfind) as (e' & Hl & <-).
      apply list_elem_of_fmap_2. eapply list_elem_of_lookup_2, Hl.
    + right. split; [now apply find_name_None | reflexivity].
Qed.

Lemma merged_all_facts es : forall L,
  NoDup (name <$> L) ->
  (exists kept, merged_all L es = L ++ kept /\ kept `sublist_of` es) /\
  NoDup (name <$> merged_all L es) /\
  forall n, first_named n (merged_all L es) = first_named n (L ++ es).
Proof.
  unfold merged_all.
  induction es as [| e es IH]; intros L Hnd; cbn [fold_left].
  - split_and!; [exists []; now rewrite app_nil_r | exact Hnd |].
    intros n. now rewrite app_nil_r.
  - destruct (merged_cases L e) as [[Hin ->] | [Hout ->]].
    + destruct (IH L Hnd) as ((kept & Hkept & Hsub) & Hnd' & Hfirst). split_and!.
      * exists kept. split; [exact Hkept | now apply sublist_cons].
      * exact Hnd'.
      * intros n. rewrite Hfirst, !first_named_app.
        destruct (first_named n L) eqn:HL; [reflexivity |].
        unfold first_named at 2. cbn [List.find].
        destruct (String.eqb_spec (name e) n) as [<- | _]; [| reflexivity].
        apply first_named_None in HL. contradiction.
    + destruct (IH (L ++ [e])) as ((kept & Hkept & Hsub) & Hnd' & Hfirst).
      { rewrite fmap_app. apply NoDup_app. split; [exact Hnd |].
        split; [| apply NoDup_singleton].
        intros x Hx Hin. cbn in Hin. apply list_elem_of_singleton in Hin. now subst x. }
      split_and!.
      * exists (e :: kept). split; [now rewrite Hkept, <- app_assoc | now apply sublist_skip].
      * exact Hnd'.
      * intros n. now rewrite Hfirst, <- app_assoc.
Qed.

End RunFacts.

(** X20.  A new entry is not checked before it is put into an empty or
    absent list, and it is compared by ['name'] with the entries of a list
    that holds some: a dictionary without a name is accepted by the first and
    raises [KeyError] in the second. *)
Theorem merge_container_md_unnamed (dest_md : value) (d : list (string * value))
    (L : list ContainerMetadataEntry) :
  Py.assoc_get "name" d = None ->
  d <> [] ->
  (Py.truthy dest_md = false ->
   merge_container_md dest_md (VDict d) = Ok (VList [VDict d])) /\
  (L <> [] -> merge_container_md (list_value L) (VDict d) = Raise KeyError).
Proof.
  intros Hname Hd. split.
  - intros Hfalse. unfold merge_container_md. rewrite Hfalse. cbn [negb].
    destruct d; [contradiction | reflexivity].
  - intros HL. destruct L as [| a L]; [contradiction |].
    unfold merge_container_md.
    change (Py.truthy (list_value (a :: L))) with true. cbn [negb].
    change (Py.len (list_value (a :: L))) with (Ok (length (entry_value <$> a :: L))).
    cbn [rbind fmap list_fmap length seq find_match].
    rewrite (getitem_list_value (a :: L) 0 a eq_refl). cbn [rbind].
    rewrite entry_name. cbn [rbind Py.getitem]. rewrite Hname. reflexivity.
Qed.

Lemma merge_container_md_unnamed_witness :
  merge_container_md (VList []) (VDict [("file", VList [])])
  = Ok (VList [VDict [("file", VList [])]]) /\
  merge_container_md (list_value InvariantExample.held) (VDict [("file", VList [])])
  = Raise KeyError.
Proof.
  destruct (merge_container_md_unnamed (VList []) [("file", VList [])]
              InvariantExample.held eq_refl) as [Hempty Hheld]; [discriminate |].
  split; [now apply Hempty | apply Hheld; discriminate].
Defined.

(** X21.  Over a run, the entries that [prepare_container_md] gives are
    merged one after the other into a list that starts empty.  The list that
    results has no two entries of one name, keeps the order of the entries,
    and holds for each name the first entry prepared under it, as it was
    prepared: the records of the entries that follow under the same name are
    in no entry of the list. *)
Theorem merge_all_keeps_first (es : list ContainerMetadataEntry) :
  exists L',
    merge_all (VList []) (entry_value <$> es) = Ok (list_value L') /\
    L' `sublist_of` es /\
    NoDup (name <$> L') /\
    forall n, first_named n L' = first_named n es.
Proof.
  exists (merged_all [] es). split; [apply (merge_all_entries es []) |].
  destruct (merged_all_facts es []) as ((kept & Hkept & Hsub) & Hnd & Hfirst);
    [apply NoDup_nil_2 |].
  split_and!; [now rewrite Hkept | exact Hnd | exact Hfirst].
Qed.

(** ** The files of a request *)

Section FilesFacts.
Context {E : Engine}.
Variable os_path_exists : string -> bool.
Variable get_image_bounds : string -> option Z -> result (option Geometry).
Variable get_las_extents : string -> option Z -> result (option Geometry).
Variable sensor : string.
Variable default_epsg : option Z.
Implicit Types (one_file filename : string) (file_list rest : list string)
  (acc : list (string * file_to_process)).

(** One pass of the loop. *)
Lemma files_loop_pass one_file rest acc :
  files_loop os_path_exists get_image_bounds get_las_extents
    (one_file :: rest) sensor default_epsg acc
  = if Py.assoc_mem (basename one_file) acc
    then files_loop os_path_exists get_image_bounds get_las_extents
           rest sensor default_epsg acc
    else if negb (os_path_exists one_file)
    then tbind (log WARNING (missing_message one_file))
               (fun _ => files_loop os_path_exists get_image_bounds get_las_extents
                           rest sensor default_epsg acc)
    else if accepted os_path_exists one_file
    then tbind (lift (bounds_of get_image_bounds get_las_extents one_file default_epsg))
               (fun b => files_loop os_path_exists get_image_bounds get_las_extents
                           rest sensor default_epsg
                           (Py.assoc_set (basename one_file)
                              (entry_for sensor one_file b) acc))
    else files_loop os_path_exists get_image_bounds get_las_extents
           rest sensor default_epsg acc.
Proof.
  cbn [files_loop]. unfold accepted, bounds_of, entry_for.
  destruct (Py.assoc_mem (basename one_file) acc); [reflexivity |].
  destruct (os_path_exists one_file); cbn [negb andb]; [| reflexivity].
  destruct (Py.endswith one_file ".tif"); cbn [orb]; [reflexivity |].
  destruct (Py.endswith one_file ".las"); reflexivity.
Qed.

Lemma assoc_mem_get {A} (k : string) (d : list (string * A)) :
  Py.assoc_mem k d = false <-> Py.assoc_get k d = None.
Proof.
  unfold Py.assoc_mem. destruct (Py.assoc_get k d); split; intros H; congruence.
Qed.

Lemma assoc_mem_set {A} (k k' : string) (v : A) (d : list (string * A)) :
  Py.assoc_mem k (Py.assoc_set k' v d) = String.eqb k k' || Py.assoc_mem k d.
Proof.
  unfold Py.assoc_mem. rewrite assoc_get_set. now destruct (String.eqb k k').
Qed.

Lemma first_accepted_cons filename one_file rest :
  first_accepted os_path_exists filename (one_file :: rest)
  = if String.eqb (basename one_file) filename && accepted os_path_exists one_file
    then Some one_file else first_accepted os_path_exists filename rest.
Proof. reflexivity. Qed.

Lemma first_accepted_Some filename file_list one_file :
  first_accepted os_path_exists filename file_list = Some one_file ->
  one_file ∈ file_list /\ basename one_file = filename /\
  accepted os_path_exists one_file = true.
Proof.
  intros Hfind. apply find_some in Hfind as [Hin Htest].
  apply andb_true_iff in Htest as [Hname Hacc]. apply String.eqb_eq in Hname.
  split; [now apply list_elem_of_In | auto].
Qed.

Lemma files_loop_lookup file_list : forall acc,
  (forall one_file, one_file ∈ file_list -> accepted os_path_exists one_file = true ->
     exists b, bounds_of get_image_bounds get_las_extents one_file default_epsg = Ok b) ->
  exists res,
    fst (files_loop os_path_exists get_image_bounds get_las_extents
           file_list sensor default_epsg acc) = Ok res /\
    forall filename,
      Py.assoc_get filename res
      = match Py.assoc_get filename acc with
        | Some f => Some f
        | None => first_accepted os_path_exists filename file_list
                  ≫= written get_image_bounds get_las_extents sensor default_epsg
        end.
Proof.
  induction file_list as [| one_file rest IH]; intros acc Hok.
  - exists acc. split; [reflexivity |]. intros filename. cbn.
    now destruct (Py.assoc_get filename acc).
  - assert (Hrest : forall f, f ∈ rest -> accepted os_path_exists f = true ->
              exists b, bounds_of get_image_bounds get_las_extents f default_epsg = Ok b).
    { intros f Hin. apply Hok. apply elem_of_cons. now right. }
    rewrite files_loop_pass.
    destruct (Py.assoc_mem (basename one_file) acc) eqn:Hmem.
    { destruct (IH acc Hrest) as (res & Hres & Hget). exists res. split; [exact Hres |].
      intros filename. rewrite Hget, first_accepted_cons.
      destruct (Py.assoc_get filename acc) eqn:Hacc; [reflexivity |].
      destruct (String.eqb_spec (basename one_file) filename) as [Heq | _]; [| reflexivity].
      apply assoc_mem_get in Hacc. congruence. }
    destruct (os_path_exists one_file) eqn:Hexists; cbn [negb].
    2: { destruct (IH acc Hrest) as (res & Hres & Hget). exists res.
         rewrite tbind_fst. split; [exact Hres |].
         intros filename. rewrite Hget, first_accepted_cons. unfold accepted at 1.
         rewrite Hexists. cbn [andb]. now rewrite andb_false_r. }
    destruct (accepted os_path_exists one_file) eqn:Hacc.
    2: { destruct (IH acc Hrest) as (res & Hres & Hget). exists res. split; [exact Hres |].
         intros filename. rewrite Hget, first_accepted_cons, Hacc.
         now rewrite andb_false_r. }
    destruct (Hok one_file) as [b Hb]; [apply elem_of_cons; now left | exact Hacc |].
    destruct (IH (Py.assoc_set (basename one_file) (entry_for sensor one_file b) acc) Hrest)
      as (res & Hres & Hget).
    exists res. rewrite tbind_fst, Hb. cbn [lift fst]. split; [exact Hres |].
    intros filename. rewrite Hget, assoc_get_set, first_accepted_cons, Hacc, andb_true_r.
    rewrite (String.eqb_sym (basename one_file) filename).
    destruct (String.eqb_spec filename (basename one_file)) as [-> | _].
    + apply assoc_mem_get in Hmem. rewrite Hmem. cbn. unfold written. now rewrite Hb.
    + reflexivity.
Qed.

(** The warnings of the loop. *)
Lemma files_loop_warnings file_list : forall acc (ev : event),
  (forall one_file, one_file ∈ file_list -> accepted os_path_exists one_file = true ->
     exists b, bounds_of get_image_bounds get_las_extents one_file default_epsg = Ok b) ->
  ev ∈ snd (files_loop os_path_exists get_image_bounds get_las_extents
              file_list sensor default_epsg acc) <->
  exists before one_file after,
    file_list = before ++ one_file :: after /\
    os_path_exists one_file = false /\
    Py.assoc_mem (basename one_file) acc = false /\
    first_accepted os_path_exists (basename one_file) before = None /\
    ev = Logged WARNING (missing_message one_file).
Proof.
  induction file_list as [| p rest IH]; intros acc ev Hok.
  - cbn. split; [intros Hin; now apply elem_of_nil in Hin |].
    intros (before & one_file & after & Heq & _). now destruct before.
  - assert (Hrest : forall f, f ∈ rest -> accepted os_path_exists f = true ->
              exists b, bounds_of get_image_bounds get_las_extents f default_epsg = Ok b).
    { intros f Hin. apply Hok. apply elem_of_cons. now right. }
    rewrite files_loop_pass.
    destruct (Py.assoc_mem (basename p) acc) eqn:Hmem.
    { rewrite (IH acc ev Hrest). split.
      - intros (before & f & after & -> & Hf & Hfm & Hfirst & ->).
        exists (p :: before), f, after. split_and!; try done.
        rewrite first_accepted_cons, Hfirst.
        destruct (String.eqb_spec (basename p) (basename f)) as [Heq | _]; [| reflexivity].
        congruence.
      - intros (before & f & after & Heq & Hf & Hfm & Hfirst & ->).
        destruct before as [| q before]; cbn [app] in Heq; injection Heq as <- ->;
          [congruence |].
        exists before, f, after. split_and!; try done.
        rewrite first_accepted_cons in Hfirst.
        now destruct (String.eqb (basename p) (basename f) && accepted os_path_exists p). }
    destruct (os_path_exists p) eqn:Hexists; cbn [negb].
    2: { rewrite tbind_snd. cbn [log fst snd app]. rewrite elem_of_cons, (IH acc ev Hrest).
         assert (Hacc : accepted os_path_exists p = false).
         { unfold accepted. now rewrite Hexists. }
         split.
         - intros [-> | (before & f & after & -> & Hf & Hfm & Hfirst & ->)].
           + exists [], p, rest. split_and!; done.
           + exists (p :: before), f, after. split_and!; try done.
             now rewrite first_accepted_cons, Hacc, andb_false_r.
         - intros (before & f & after & Heq & Hf & Hfm & Hfirst & ->).
           destruct before as [| q before]; cbn [app] in Heq; injection Heq as <- ->;
             [now left | right].
           exists before, f, after. split_and!; try done.
           now rewrite first_accepted_cons, Hacc, andb_false_r in Hfirst. }
    destruct (accepted os_path_exists p) eqn:Hacc.
    2: { rewrite (IH acc ev Hrest). split.
         - intros (before & f & after & -> & Hf & Hfm & Hfirst & ->).
           exists (p :: before), f, after. split_and!; try done.
           now rewrite first_accepted_cons, Hacc, andb_false_r.
         - intros (before & f & after & Heq & Hf & Hfm & Hfirst & ->).
           destruct before as [| q before]; cbn [app] in Heq; injection Heq as <- ->;
             [congruence |].
           exists before, f, after. split_and!; try done.
           now rewrite first_accepted_cons, Hacc, andb_false_r in Hfirst. }
    destruct (Hok p) as [b Hb]; [apply elem_of_cons; now left | exact Hacc |].
    rewrite tbind_snd, Hb. cbn [lift fst snd app].
    rewrite (IH _ ev Hrest). split.
    + intros (before & f & after & -> & Hf & Hfm & Hfirst & ->).
      rewrite assoc_mem_set in Hfm. apply orb_false_iff in Hfm as [Hne Hfm].
      exists (p :: before), f, after. split_and!; try done.
      rewrite first_accepted_cons, String.eqb_sym, Hne. exact Hfirst.
    + intros (before & f & after & Heq & Hf & Hfm & Hfirst & ->).
      destruct before as [| q before]; cbn [app] in Heq; injection Heq as <- ->;
        [congruence |].
      rewrite first_accepted_cons, Hacc, andb_true_r in Hfirst.
      destruct (String.eqb (basename p) (basename f)) eqn:Hne; [discriminate |].
      exists before, f, after. split_and!; try done.
      rewrite assoc_mem_set, String.eqb_sym, Hne. exact Hfm.
Qed.

(** The loop ends at the first file whose bounds cannot be read. *)
Lemma files_loop_raises before : forall acc one_file after ex,
  (forall f, f ∈ before -> accepted os_path_exists f = true ->
     exists b, bounds_of get_image_bounds get_las_extents f default_epsg = Ok b) ->
  accepted os_path_exists one_file = true ->
  Py.assoc_mem (basename one_file) acc = false ->
  first_accepted os_path_exists (basename one_file) before = None ->
  bounds_of get_image_bounds get_las_extents one_file default_epsg = Raise ex ->
  fst (files_loop os_path_exists get_image_bounds get_las_extents
         (before ++ one_file :: after) sensor default_epsg acc) = Raise ex.
Proof.
  induction before as [| p before IH]; intros acc one_file after ex Hok Hacc Hmem Hfirst Hraise.
  - cbn [app]. rewrite files_loop_pass, Hmem, Hacc.
    assert (Hexists : os_path_exists one_file = true).
    { unfold accepted in Hacc. now apply andb_true_iff in Hacc as [H _]. }
    rewrite Hexists. cbn [negb]. now rewrite tbind_fst, Hraise.
  - assert (Hrest : forall f, f ∈ before -> accepted os_path_exists f = true ->
              exists b, bounds_of get_image_bounds get_las_extents f default_epsg = Ok b).
    { intros f Hin. apply Hok. apply elem_of_cons. now right. }
    rewrite first_accepted_cons in Hfirst.
    cbn [app]. rewrite files_loop_pass.
    destruct (Py.assoc_mem (basename p) acc) eqn:Hpm.
    { apply IH; try assumption.
      now destruct (String.eqb (basename p) (basename one_file) && accepted os_path_exists p). }
    destruct (os_path_exists p) eqn:Hexists; cbn [negb].
    2: { rewrite tbind_fst. cbn [log fst]. apply IH; try assumption.
         now destruct (String.eqb (basename p) (basename one_file)
                       && accepted os_path_exists p). }
    destruct (accepted os_path_exists p) eqn:Hpa.
    2: { apply IH; try assumption. now rewrite andb_false_r in Hfirst. }
    destruct (Hok p) as [b Hb]; [apply elem_of_cons; now left | exact Hpa |].
    rewrite tbind_fst, Hb. cbn [lift fst]. rewrite andb_true_r in Hfirst.
    destruct (String.eqb (basename p) (basename one_file)) eqn:Hne; [discriminate |].
    apply IH; try assumption.
    rewrite assoc_mem_set, String.eqb_sym, Hne. exact Hmem.
Qed.

End FilesFacts.

(** X22.  When the bounds of the accepted files can be read,
    [get_files_to_process] returns a dictionary in which a file name stands
    for the first file of the list with that base name that exists and ends
    in [.tif] or [.las]: a file that is missing or of another kind does not
    take the name from a later one, a later file of the same name is left
    out.  The entry has the path of that file, the bounds read from it and
    the sensor of the call. *)
Theorem get_files_to_process_first_accepted {E : Engine}
    (os_path_exists : string -> bool)
    (get_image_bounds get_las_extents : string -> option Z -> result (option Geometry))
    (file_list : list string) (sensor : string) (default_epsg : option Z) :
  (forall one_file, one_file ∈ file_list -> accepted os_path_exists one_file = true ->
     exists b, bounds_of get_image_bounds get_las_extents one_file default_epsg = Ok b) ->
  exists res,
    fst (get_files_to_process os_path_exists get_image_bounds get_las_extents
           file_list sensor default_epsg) = Ok res /\
    (forall filename,
       file_path <$> Py.assoc_get filename res
       = first_accepted os_path_exists filename file_list) /\
    (forall filename f,
       Py.assoc_get filename res = Some f ->
       basename (file_path f) = filename /\
       bounds_of get_image_bounds get_las_extents (file_path f) default_epsg
       = Ok (file_bounds f) /\
       file_sensor_name f = sensor).
Proof.
  intros Hok. unfold get_files_to_process.
  destruct (files_loop_lookup os_path_exists get_image_bounds get_las_extents
              sensor default_epsg file_list [] Hok) as (res & Hres & Hget).
  exists res. split; [exact Hres |].
  assert (Hentry : forall filename,
            Py.assoc_get filename res
            = first_accepted os_path_exists filename file_list
                ≫= written get_image_bounds get_las_extents sensor default_epsg).
  { intros filename. now rewrite Hget. }
  split.
  - intros filename. rewrite Hentry.
    destruct (first_accepted os_path_exists filename file_list) as [p |] eqn:Hfirst;
      [| reflexivity].
    apply first_accepted_Some in Hfirst as (Hin & _ & Hacc).
    destruct (Hok p Hin Hacc) as [b Hb]. cbn. unfold written. now rewrite Hb.
  - intros filename f. rewrite Hentry.
    destruct (first_accepted os_path_exists filename file_list) as [p |] eqn:Hfirst;
      [| discriminate].
    apply first_accepted_Some in Hfirst as (Hin & Hname & Hacc).
    cbn. unfold written.
    destruct (bounds_of get_image_bounds get_las_extents p default_epsg) as [b | ex] eqn:Hb;
      [| discriminate].
    intros [= <-]. cbn. auto.
Qed.

Lemma get_files_to_process_first_accepted_witness :
  exists res,
    fst (get_files_to_process (E := Boxes.engine) FilesExample.on_disk
           FilesExample.image_bounds FilesExample.las_extents
           FilesExample.file_list "rgb" None) = Ok res /\
    (forall filename,
       file_path <$> Py.assoc_get filename res
       = first_accepted FilesExample.on_disk filename FilesExample.file_list) /\
    (forall filename f,
       Py.assoc_get filename res = Some f ->
       basename (file_path f) = filename /\
       bounds_of FilesExample.image_bounds FilesExample.las_extents (file_path f) None
       = Ok (file_bounds f) /\
       file_sensor_name f = "rgb").
Proof.
  apply (get_files_to_process_first_accepted (E := Boxes.engine)).
  intros one_file Hin _. unfold FilesExample.file_list in Hin.
  repeat (apply elem_of_cons in Hin as [-> | Hin]; [eexists; reflexivity |]).
  now apply elem_of_nil in Hin.
Defined.

(** X23.  When the bounds of the accepted files can be read,
    [get_files_to_process] logs a warning for a file exactly when the file
    does not exist and no file before it was accepted under its base name;
    it logs nothing else. *)
Theorem get_files_to_process_warnings {E : Engine}
    (os_path_exists : string -> bool)
    (get_image_bounds get_las_extents : string -> option Z -> result (option Geometry))
    (file_list : list string) (sensor : string) (default_epsg : option Z) (ev : event) :
  (forall one_file, one_file ∈ file_list -> accepted os_path_exists one_file = true ->
     exists b, bounds_of get_image_bounds get_las_extents one_file default_epsg = Ok b) ->
  ev ∈ snd (get_files_to_process os_path_exists get_image_bounds get_las_extents
              file_list sensor default_epsg) <->
  exists before one_file after,
    file_list = before ++ one_file :: after /\
    os_path_exists one_file = false /\
    first_accepted os_path_exists (basename one_file) before = None /\
    ev = Logged WARNING (missing_message one_file).
Proof.
  intros Hok. unfold get_files_to_process.
  rewrite (files_loop_warnings os_path_exists get_image_bounds get_las_extents
             sensor default_epsg file_list [] ev Hok).
  split; intros (before & one_file & after & H); exists before, one_file, after;
    intuition.
Qed.

Lemma get_files_to_process_warnings_witness :
  Logged WARNING (missing_message "/gone/x.tif")
  ∈ snd (get_files_to_process (E := Boxes.engine) FilesExample.on_disk
           FilesExample.image_bounds FilesExample.las_extents
           FilesExample.file_list "rgb" None) /\
  Logged WARNING (missing_message "/gone/y.las")
  ∉ snd (get_files_to_process (E := Boxes.engine) FilesExample.on_disk
           FilesExample.image_bounds FilesExample.las_extents
           FilesExample.file_list "rgb" None).
Proof.
  assert (Hok : forall one_file, one_file ∈ FilesExample.file_list ->
            accepted FilesExample.on_disk one_file = true ->
            exists b, bounds_of FilesExample.image_bounds FilesExample.las_extents
                        one_file None = Ok b).
  { intros one_file Hin _. unfold FilesExample.file_list in Hin.
    repeat (apply elem_of_cons in Hin as [-> | Hin]; [eexists; reflexivity |]).
    now apply elem_of_nil in Hin. }
  split.
  - apply (get_files_to_process_warnings (E := Boxes.engine) _ _ _ _ _ _ _ Hok).
    exists [], "/gone/x.tif", (tail FilesExample.file_list). repeat split.
  - intros Hin. vm_compute in Hin.
    apply list_elem_of_singleton in Hin. discriminate.
Defined.

(** X24.  [get_files_to_process] catches nothing: when the bounds of a
    file it accepts cannot be read, the call raises that exception and
    returns no dictionary. *)
Theorem get_files_to_process_raises {E : Engine}
    (os_path_exists : string -> bool)
    (get_image_bounds get_las_extents : string -> option Z -> result (option Geometry))
    (before after : list string) (one_file sensor : string) (default_epsg : option Z)
    (ex : exn) :
  (forall f, f ∈ before -> accepted os_path_exists f = true ->
     exists b, bounds_of get_image_bounds get_las_extents f default_epsg = Ok b) ->
  accepted os_path_exists one_file = true ->
  first_accepted os_path_exists (basename one_file) before = None ->
  bounds_of get_image_bounds get_las_extents one_file default_epsg = Raise ex ->
  fst (get_files_to_process os_path_exists get_image_bounds get_las_extents
         (before ++ one_file :: after) sensor default_epsg) = Raise ex.
Proof.
  intros Hok Hacc Hfirst Hraise. unfold get_files_to_process.
  now apply files_loop_raises.
Qed.

Lemma get_files_to_process_raises_witness :
  fst (get_files_to_process (E := Boxes.engine) FilesExample.on_disk
         FilesExample.image_bounds FilesExample.las_extents
         (["/a/x.tif"] ++ "/a/bad.tif" :: ["/a/y.las"]) "rgb" None)
  = Raise (RuntimeError "not a GeoTIFF").
Proof.
  apply (get_files_to_process_raises (E := Boxes.engine)); try reflexivity.
  intros f Hin _. apply list_elem_of_singleton in Hin as ->. eexists. reflexivity.
Defined.
